(** * WFDE5-To-SHETRAN: a shallow embedding of the clipping, flattening and
    merging pipeline, with the properties of its specification.

    Sources embedded here:
    - [CustomFunctionsToSHETRAN.py]: [NetCDFToSHETRAN], [WFDE5NetCDFClipper],
      [ASCtoDfParam];
    - [WFDE5-To-SHETRAN.py]: the bounding-box indices ([IdxNorth] ...), the
      unit conversion, the file names ([FileNameList]) and the concatenation
      block ([Mdf], [DateIndex], [Replacer]).

    Conventions of the embedding:
    - a Python [float] / NumPy [float64] is a primitive binary64 [float];
    - a Python or NumPy integer is a [Z] (NumPy [int64] arithmetic wraps);
    - code that can raise returns a [result];
    - files are entries of finite maps from paths to contents;
    - a netCDF variable carries, next to its array, the values that the
      library masks when it reads it: the clipper reads with the masking
      on, the flattener switches it off. *)

From Stdlib Require Import ZArith List Floats Ascii String Sorting.Sorted Permutation Lia.
From stdpp Require Import base option list list_numbers sorting gmap strings.

Set Warnings "-inexact-float".
Local Open Scope Z_scope.

(** ** Python values and exceptions *)

Module Py.

Inductive exn : Type :=
| KeyError | IndexError | ValueError | TypeError | FileNotFoundError.

Inductive result (A : Type) : Type :=
| Ok (a : A)
| Raise (e : exn).
Arguments Ok {A} a.
Arguments Raise {A} e.

Definition bind {A B} (m : result A) (k : A -> result B) : result B :=
  match m with
  | Ok a => k a
  | Raise e => Raise e
  end.

Definition of_option {A} (e : exn) (o : option A) : result A :=
  match o with
  | Some a => Ok a
  | None => Raise e
  end.

(** [for x in xs: body], collecting the results; the first exception
    stops the loop. *)
Fixpoint for_each {A B} (body : A -> result B) (xs : list A) : result (list B) :=
  match xs with
  | [] => Ok []
  | x :: xs' =>
      bind (body x) (fun y => bind (for_each body xs') (fun ys => Ok (y :: ys)))
  end.

(** [slice.indices]: a bound of [a[start:stop]] after the adjustment Python
    makes for a sequence of length [len] (negative bounds count from the
    end, every bound is clamped into [0, len]). *)
Definition clamp_index (len i : Z) : Z :=
  if i <? 0 then Z.max 0 (i + len) else Z.min i len.

(** [a[start:stop]] on a sequence: never raises. *)
Definition slice {A} (a : list A) (start stop : Z) : list A :=
  let len := Z.of_nat (length a) in
  let lo := clamp_index len start in
  let hi := clamp_index len stop in
  take (Z.to_nat (hi - lo)) (drop (Z.to_nat lo) a).

(** [range(n)]. *)
Definition range (n : nat) : list nat := seq 0 n.

(** NumPy [int64] arithmetic keeps the low 64 bits, two's complement. *)
Definition wrap_int64 (z : Z) : Z :=
  (z + 2 ^ 63) mod 2 ^ 64 - 2 ^ 63.

End Py.

Export Py.

#[global] Instance result_ret : MRet Py.result := @Py.Ok.
#[global] Instance result_bind : MBind Py.result :=
  fun A B k m => Py.bind m k.

(** ** NumPy on binary64 *)

Module Np.

(** The binary64 nearest to an integer. *)
Definition of_int (z : Z) : float :=
  SF2Prim (binary_normalize prec emax z 0 false).

(** [rint]: the nearest integral value, the even one on a tie, with the sign
    of the argument.  A finite binary64 is [m * 2^e] with a mantissa [m] of
    at most 53 bits: with [e >= 0] it is integral already; otherwise the
    integer is read off the quotient [q] and the remainder [r] of [m] by
    [2^(-e)].  Zeros, infinities and NaN are returned as they are. *)
Definition rint (x : float) : float :=
  match Prim2SF x with
  | S754_finite s m e =>
      if 0 <=? e then x
      else
        let d := 2 ^ (- e) in
        let q := Z.pos m / d in
        let r := Z.pos m mod d in
        let n := if 2 * r <? d then q
                 else if d <? 2 * r then q + 1
                 else if Z.even q then q else q + 1 in
        if s then PrimFloat.opp (of_int n) else of_int n
  | _ => x
  end.

(** [np.round(x, decimals)] for [decimals = 1]: scale by ten, [rint],
    scale back. *)
Definition round1 (x : float) : float :=
  PrimFloat.div (rint (PrimFloat.mul x 10%float)) 10%float.

(** The distance of a coordinate [x] to a bound [b], as computed in
    binary64. *)
Definition distance (x b : float) : float := PrimFloat.abs (PrimFloat.sub x b).

(** [np.abs(a - b)] on an array and a scalar. *)
Definition abs_diff (a : list float) (b : float) : list float :=
  map PrimFloat.abs (map (fun x => PrimFloat.sub x b) a).

(** The scan of [argmin] over the elements after the first: [mp] is the
    running minimum, [mi] its index, [i] the index of the head of [ip].
    An element replaces the minimum when [not (x >= mp)]; a NaN minimum
    ends the scan. *)
Fixpoint argmin_scan (ip : list float) (i : nat) (mp : float) (mi : nat) : nat :=
  match ip with
  | [] => mi
  | x :: ip' =>
      if PrimFloat.is_nan mp then mi
      else if negb (PrimFloat.leb mp x) then argmin_scan ip' (S i) x i
      else argmin_scan ip' (S i) mp mi
  end.

(** [a.argmin()]: raises [ValueError] on an empty array. *)
Definition argmin (a : list float) : result Z :=
  match a with
  | [] => Raise ValueError
  | x :: a' => Ok (Z.of_nat (argmin_scan a' 1 x 0))
  end.

End Np.

(** ** netCDF datasets *)

(** An element of a table index or of a 1-D array. *)
Inductive scalar : Type :=
| Int (z : Z)
| Float (f : float).

Module NetCDF.

(** The arrays a variable of a grid dataset holds: a 1-D integer array
    (the time offsets), a 1-D float array (a coordinate axis) or a 3-D float
    array indexed [time, latitude, longitude], as nested lists. *)
Inductive ndarray : Type :=
| NdInt1 (a : list Z)
| NdFloat1 (a : list float)
| NdFloat3 (a : list (list (list float))).

(** A variable: its text attributes, the stored array, and [ncmasked], the
    stored values that a read masks while the library's masking is on (the
    default): the values equal to the variable's [_FillValue] (to the
    default fill value of the datatype when it has none) or to its
    [missing_value], and the values outside its valid range.  No variable
    is packed ([scale_factor], [add_offset]): the values read are the values
    stored. *)
Record ncvar : Type := mk_ncvar {
  ncattrs : gmap string string;
  ncmasked : scalar -> bool;
  ncdata : ndarray
}.

(** The default fill values of the library for 64-bit integers and for
    binary64. *)
Definition default_fill_int : Z := -9223372036854775806.
Definition default_fill_float : float := 9.969209968386869e36%float.

(** What is masked in a variable without [_FillValue], [missing_value] and
    valid range: the default fill value of its datatype. *)
Definition default_masked (s : scalar) : bool :=
  match s with
  | Int z => z =? default_fill_int
  | Float x => PrimFloat.eqb x default_fill_float
  end.

(** [Dataset.variables]. *)
Record Dataset : Type := mk_Dataset {
  variables : gmap string ncvar
}.

(** [Data.variables[name]]. *)
Definition getvar (Data : Dataset) (name : string) : result ncvar :=
  of_option KeyError (variables Data !! name).

(** [len(v)]: the length of the first axis. *)
Definition len (v : ncvar) : nat :=
  match ncdata v with
  | NdInt1 a => length a
  | NdFloat1 a => length a
  | NdFloat3 a => length a
  end.

(** [v[:, Lat, Lon]] with the masking switched off: the time series of
    one cell, as stored. *)
Definition cell_series (v : ncvar) (Lat Lon : nat) : result (list float) :=
  match ncdata v with
  | NdFloat3 a =>
      for_each (fun plane => of_option IndexError (plane !! Lat ≫= (.!! Lon))) a
  | _ => Raise IndexError
  end.

(** A masked array, what a read returns while the masking is on: [None]
    stands at a masked position. *)
Inductive masked_array : Type :=
| MaInt1 (a : list (option Z))
| MaFloat1 (a : list (option float))
| MaFloat3 (a : list (list (list (option float)))).

Definition mask_int (v : ncvar) (z : Z) : option Z :=
  if ncmasked v (Int z) then None else Some z.

Definition mask_float (v : ncvar) (x : float) : option float :=
  if ncmasked v (Float x) then None else Some x.

(** [v[start:stop]] with the masking on: a slice of the first axis. *)
Definition slice1 (v : ncvar) (start stop : Z) : masked_array :=
  match ncdata v with
  | NdInt1 a => MaInt1 (map (mask_int v) (slice a start stop))
  | NdFloat1 a => MaFloat1 (map (mask_float v) (slice a start stop))
  | NdFloat3 a => MaFloat3 (map (map (map (mask_float v))) (slice a start stop))
  end.

(** [v[:]] with the masking on. *)
Definition read (v : ncvar) : masked_array :=
  match ncdata v with
  | NdInt1 a => MaInt1 (map (mask_int v) a)
  | NdFloat1 a => MaFloat1 (map (mask_float v) a)
  | NdFloat3 a => MaFloat3 (map (map (map (mask_float v))) a)
  end.

(** [v[:, s0:s1, w0:w1]] with the masking on: three index expressions need
    three axes. *)
Definition slice3 (v : ncvar) (s0 s1 w0 w1 : Z) : result masked_array :=
  match ncdata v with
  | NdFloat3 a =>
      Ok (MaFloat3 (map (fun plane => map (fun row => map (mask_float v) (slice row w0 w1))
                                          (slice plane s0 s1)) a))
  | _ => Raise IndexError
  end.

(** Conversion of a binary64 to [int64] (toward zero; what does not fit,
    NaN included, becomes the smallest [int64]). *)
Definition float_to_int64 (x : float) : Z :=
  match Prim2SF x with
  | S754_zero _ => 0
  | S754_finite s m e =>
      let mag := if 0 <=? e then Z.pos m * 2 ^ e else Z.pos m / 2 ^ (- e) in
      let z := if s then - mag else mag in
      if (- 2 ^ 63 <=? z) && (z <? 2 ^ 63) then z else - 2 ^ 63
  | _ => - 2 ^ 63
  end.

(** Conversion of an integer to the nearest binary64. *)
Definition int_to_float (z : Z) : float := Np.of_int z.

(** [var[:] = data] on a fresh variable with one unlimited dimension created
    with datatype ['int'], NumPy's default integer, taken as 64 bits wide.
    The variable has no [_FillValue]: a masked array is filled with the
    default fill value of the variable's datatype, in the datatype of the
    array, and then cast to [int64] (a masked array of one masked element is
    replaced by the fill value itself). *)
Definition store_int1 (data : masked_array) : result ndarray :=
  match data with
  | MaInt1 a => Ok (NdInt1 (map (fun o => wrap_int64 (default default_fill_int o)) a))
  | MaFloat1 [None] => Ok (NdInt1 [default_fill_int])
  | MaFloat1 a =>
      Ok (NdInt1 (map (fun o => float_to_int64 (default (int_to_float default_fill_int) o)) a))
  | MaFloat3 _ => Raise ValueError
  end.

(** The same with datatype ['float'] (binary64); the default fill value of
    binary64 is no integer array's fill value ([TypeError]). *)
Definition store_float1 (data : masked_array) : result ndarray :=
  match data with
  | MaInt1 [None] => Ok (NdFloat1 [default_fill_float])
  | MaInt1 a =>
      a' ← for_each (fun o => of_option TypeError (int_to_float <$> o)) a;
      Ok (NdFloat1 a')
  | MaFloat1 a => Ok (NdFloat1 (map (default default_fill_float) a))
  | MaFloat3 _ => Raise ValueError
  end.

(** The same for a variable with three unlimited dimensions.  An array
    without any element is not written: the variable keeps its length 0
    along its first dimension. *)
Definition store_float3 (data : masked_array) : result ndarray :=
  match data with
  | MaFloat3 a =>
      match concat (concat a) with
      | [] => Ok (NdFloat3 [])
      | _ => Ok (NdFloat3 (map (map (map (default default_fill_float))) a))
      end
  | _ => Raise ValueError
  end.

End NetCDF.

Export NetCDF.

(** ** pandas tables *)

(** A [pd.Timestamp] on the hourly grid of [DateIndex]: the number of hours
    since 1900-01-01 00:00:00. *)
Definition Timestamp : Type := Z.

Module Pd.

(** A [DataFrame] with an index of type [I]: [df_ncols] columns, labelled by
    their positions [0 .. df_ncols - 1], and the rows, each with its index
    label. *)
Record DataFrame (I : Type) : Type := mk_DataFrame {
  df_ncols : nat;
  df_rows : list (I * list float)
}.
Arguments mk_DataFrame {I} df_ncols df_rows.
Arguments df_ncols {I} d.
Arguments df_rows {I} d.

Definition index {I} (df : DataFrame I) : list I := map fst (df_rows df).
Definition values {I} (df : DataFrame I) : list (list float) := map snd (df_rows df).
Definition nrows {I} (df : DataFrame I) : nat := length (df_rows df).
Definition shape {I} (df : DataFrame I) : nat * nat := (nrows df, df_ncols df).

(** The cell at row position [r] and column position [c]
    ([df.iloc[r, c]]). *)
Definition iloc {I} (df : DataFrame I) (r c : nat) : option float :=
  values df !! r ≫= (.!! c).

(** [df[c]]: one column, top to bottom; a missing value reads NaN. *)
Definition column {I} (df : DataFrame I) (c : nat) : list float :=
  map (fun row => default PrimFloat.nan (row !! c)) (values df).

(** [df[c] = col]: the column replaced, row by row. *)
Definition set_column {I} (df : DataFrame I) (c : nat) (col : list float) : DataFrame I :=
  mk_DataFrame (df_ncols df)
    (zip_with (fun (row : I * list float) v => (row.1, <[c := v]> (row.2))) (df_rows df) col).

(** A row of a ragged list padded with NaN to [n] values. *)
Definition pad (n : nat) (row : list float) : list float :=
  row ++ replicate (n - length row) PrimFloat.nan.

(** [pd.DataFrame(data = rows)] on a list of 1-D arrays: one row per array,
    as many columns as the longest array, a [RangeIndex] on both axes. *)
Definition of_rows (rows : list (list float)) : DataFrame nat :=
  let n := foldr Nat.max 0%nat (map length rows) in
  mk_DataFrame n (zip (range (length rows)) (map (pad n) rows)).

(** [df.transpose()] of a table with a [RangeIndex]: the column labels
    become the index and the index the column labels. *)
Definition transpose (df : DataFrame nat) : DataFrame nat :=
  mk_DataFrame (nrows df) (map (fun j => (j, column df j)) (range (df_ncols df))).

(** [df.index = labels]: the lengths must agree, unless the table has no
    column: pandas then skips the check, and the table takes the labels as
    its index, whatever their number. *)
Definition assign_index {I J} (df : DataFrame I) (labels : list J) : result (DataFrame J) :=
  if decide (df_ncols df = 0%nat)
  then Ok (mk_DataFrame 0 (map (fun l => (l, [])) labels))
  else if decide (length labels = nrows df)
  then Ok (mk_DataFrame (df_ncols df) (zip labels (values df)))
  else Raise ValueError.

End Pd.

Export Pd.

(** ** Files and the monad of the pipeline *)

(** An index label of a table written by [to_csv]: a raw time value or a
    timestamp. *)
Inductive label : Type :=
| LScalar (s : scalar)
| LTime (t : Timestamp).

(** What a path of the working directories holds: a netCDF dataset or a
    table written by [to_csv]. *)
Inductive file : Type :=
| NcFile (d : Dataset)
| CsvFile (t : DataFrame label).

Abbreviation FS := (gmap string file).

(** A computation that reads and writes files and may raise: the files are
    threaded through, and what was written before an exception stays
    written. *)
Definition M (A : Type) : Type := FS -> result A * FS.

#[global] Instance M_ret : MRet M := fun A a fs => (Ok a, fs).
#[global] Instance M_bind : MBind M := fun A B k m fs =>
  match m fs with
  | (Ok a, fs') => k a fs'
  | (Raise e, fs') => (Raise e, fs')
  end.

Definition lift {A} (r : result A) : M A := fun fs => (r, fs).

Module Nc.

Definition empty : Dataset := mk_Dataset ∅.

(** [Dataset(path, "w")]: a fresh, empty dataset replaces what was there. *)
Definition create (path : string) : M unit :=
  fun fs => (Ok tt, <[path := NcFile empty]> fs).

(** An update of the variable [name] of the dataset open at [path]. *)
Definition update_var (path name : string) (f : option ncvar -> ncvar) : M unit :=
  fun fs =>
    match fs !! path with
    | Some (NcFile d) =>
        (Ok tt, <[path := NcFile (mk_Dataset (<[name := f (variables d !! name)]> (variables d)))]> fs)
    | _ => (Raise ValueError, fs)
    end.

(** [ds.createVariable(name, datatype, dims)]: the variable, still without
    data ([blank] is the empty array of its datatype and rank). *)
Definition createVariable (path name : string) (blank : ndarray) : M unit :=
  update_var path name (fun _ => mk_ncvar ∅ default_masked blank).

(** [var.setncattr(attr, value)]. *)
Definition setncattr (path name attr value : string) : M unit :=
  update_var path name (fun o =>
    match o with
    | Some v => mk_ncvar (<[attr := value]> (ncattrs v)) (ncmasked v) (ncdata v)
    | None => mk_ncvar {[attr := value]} default_masked (NdFloat1 [])
    end).

(** [var[:] = data], through the conversion [store] of the datatype. *)
Definition assign (path name : string) (store : masked_array -> result ndarray)
    (data : masked_array) : M unit :=
  stored ← lift (store data);
  update_var path name (fun o =>
    match o with
    | Some v => mk_ncvar (ncattrs v) (ncmasked v) stored
    | None => mk_ncvar ∅ default_masked stored
    end).

End Nc.

(** [df.to_csv(path)]. *)
Definition to_csv {I} (inj : I -> label) (df : DataFrame I) (path : string) : M unit :=
  fun fs =>
    (Ok tt,
     <[path := CsvFile (mk_DataFrame (df_ncols df)
                          (map (fun row : I * list float => (inj (row.1), row.2)) (df_rows df)))]> fs).

(** ** [CustomFunctionsToSHETRAN.py] *)

(** [WFDE5NetCDFClipper]: the four arrays are read and sliced first, with
    the masking on, then the new dataset is created and filled variable by
    variable.  [Path] is only printed.  (The dimensions [lat] and [lon] of
    the new dataset are shared by the axes and the data variable, whose
    lengths along them agree.) *)
Definition WFDE5NetCDFClipper (Path : string) (FileRaw : Dataset)
    (IdxWest IdxEast IdxNorth IdxSouth : Z) (FileClipped : string) : M unit :=
  vtime ← lift (getvar FileRaw "time");
  let WFDE5ClipTime := read vtime in
  vlon ← lift (getvar FileRaw "lon");
  let WFDE5ClipLon := slice1 vlon IdxWest IdxEast in
  vlat ← lift (getvar FileRaw "lat");
  let WFDE5ClipLat := slice1 vlat IdxSouth IdxNorth in
  vrainf ← lift (getvar FileRaw "Rainf");
  WFDE5ClipRainf ← lift (slice3 vrainf IdxSouth IdxNorth IdxWest IdxEast);
  Nc.create FileClipped;;
  Nc.createVariable FileClipped "time" (NdInt1 []);;
  Nc.setncattr FileClipped "time" "units" "hours since 1900-01-01";;
  Nc.assign FileClipped "time" store_int1 WFDE5ClipTime;;
  Nc.createVariable FileClipped "lon" (NdFloat1 []);;
  Nc.setncattr FileClipped "lon" "units" "degrees_east";;
  Nc.assign FileClipped "lon" store_float1 WFDE5ClipLon;;
  Nc.createVariable FileClipped "lat" (NdFloat1 []);;
  Nc.setncattr FileClipped "lat" "units" "degrees_north";;
  Nc.assign FileClipped "lat" store_float1 WFDE5ClipLat;;
  Nc.createVariable FileClipped "Rainf" (NdFloat3 []);;
  Nc.setncattr FileClipped "Rainf" "units" "kg m-2 s-1";;
  Nc.assign FileClipped "Rainf" store_float3 WFDE5ClipRainf.

(** The elements of a 1-D array as index labels; an array of higher rank is
    no index. *)
Definition index_labels (a : ndarray) : result (list scalar) :=
  match a with
  | NdInt1 l => Ok (map Int l)
  | NdFloat1 l => Ok (map Float l)
  | NdFloat3 _ => Raise ValueError
  end.

(** [NetCDFToSHETRAN]: the cells are visited latitude by latitude and, within
    a latitude, longitude by longitude; each cell's series is converted and
    rounded, the series become the columns of the table, the time variable
    its index.  With the masking switched off every read returns the stored
    values. *)
Definition NetCDFToSHETRAN (Data : Dataset)
    (VariableName LongitudeName LatitudeName Path File : string)
    (UnitConversion : float) : M (DataFrame scalar) :=
  vlon ← lift (getvar Data LongitudeName);
  let NCols := len vlon in
  vlat ← lift (getvar Data LatitudeName);
  let NRows := len vlat in
  VarTimeSeriesCells ← lift (for_each
    (fun cell : nat * nat =>
       let '(Lat, Lon) := cell in
       v ← getvar Data VariableName;
       VarTimeSeries ← cell_series v Lat Lon;
       let VarTimeSeries := map (fun x => PrimFloat.mul x UnitConversion) VarTimeSeries in
       let VarTimeSeries := map Np.round1 VarTimeSeries in
       Ok VarTimeSeries)
    (Lat ← range NRows; Lon ← range NCols; [(Lat, Lon)]));
  let DfVarTimeSeriesCells := transpose (of_rows VarTimeSeriesCells) in
  vtime ← lift (getvar Data "time");
  labels ← lift (index_labels (ncdata vtime));
  DfVarTimeSeriesCells ← lift (assign_index DfVarTimeSeriesCells labels);
  to_csv LScalar DfVarTimeSeriesCells (Path +:+ File);;
  mret DfVarTimeSeriesCells.

(** ** More of pandas: concatenation, sorting, the calendar, resampling *)

Module PdOps.

(** [pd.concat(frames)]: the rows stacked in the order of the frames, none
    dropped; columns are matched by label, so a frame with fewer columns
    contributes NaN in the others.  An empty list is an error. *)
Definition concat {I} (frames : list (DataFrame I)) : result (DataFrame I) :=
  match frames with
  | [] => Raise ValueError
  | _ =>
      let n := foldr Nat.max 0%nat (map df_ncols frames) in
      Ok (mk_DataFrame n
            (df ← frames; map (fun row : I * list float => (row.1, pad n (row.2))) (df_rows df)))
  end.

(** The order of rows by index label. *)
Definition row_le : relation (Z * list float) := fun r1 r2 => r1.1 <= r2.1.

#[global] Instance row_le_dec : RelDecision row_le.
Proof. intros r1 r2. unfold row_le. apply _. Defined.

(** [df.sort_index(ascending = True)]: the rows in ascending order of
    their labels.  (pandas promises no order among rows of equal label; the
    order the merge sort gives them here stands for none in particular, and
    what is proved of the daily values is proved for distinct labels.) *)
Definition sort_index (df : DataFrame Z) : DataFrame Z :=
  mk_DataFrame (df_ncols df) (merge_sort row_le (df_rows df)).

(** Days since 1970-01-01 of a date of the proleptic Gregorian calendar. *)
Definition days_from_civil (y m d : Z) : Z :=
  let y := if m <=? 2 then y - 1 else y in
  let era := y / 400 in
  let yoe := y - era * 400 in
  let mp := if 2 <? m then m - 3 else m + 9 in
  let doy := (153 * mp + 2) / 5 + d - 1 in
  let doe := yoe * 365 + yoe / 4 - yoe / 100 + doy in
  era * 146097 + doe - 719468.

(** The timestamps [t], [t + 1], ..., [n] of them. *)
Fixpoint hours_from (t : Timestamp) (n : nat) : list Timestamp :=
  match n with
  | O => []
  | S n' => t :: hours_from (t + 1) n'
  end.

(** [pd.date_range(start, end, freq = 'H')] from midnight of one date to
    midnight of another, both ends included, as hours since the start. *)
Definition date_range_H (y0 m0 d0 y1 m1 d1 : Z) : list Timestamp :=
  hours_from 0 (Z.to_nat (24 * (days_from_civil y1 m1 d1 - days_from_civil y0 m0 d0) + 1)).

(** The calendar day of a timestamp, in days since the epoch. *)
Definition day_of (t : Timestamp) : Z := t / 24.

(** One step of the compensated summation of pandas' grouped sum; NaN
    entries are skipped. *)
Definition sum_step (acc : float * float) (val : float) : float * float :=
  let '(sumx, compensation) := acc in
  if PrimFloat.is_nan val then acc
  else
    let y := PrimFloat.sub val compensation in
    let t := PrimFloat.add sumx y in
    let c := PrimFloat.sub (PrimFloat.sub t sumx) y in
    (t, if PrimFloat.is_nan c then 0%float else c).

(** The sum of the values of one column within one bin (0 for none). *)
Definition group_sum (vals : list float) : float :=
  (fold_left sum_step vals (0%float, 0%float)).1.

(** The rows of a table that fall on day [d]. *)
Definition rows_of_day (df : DataFrame Timestamp) (d : Z) : DataFrame Timestamp :=
  mk_DataFrame (df_ncols df) (filter (fun row : Timestamp * list float => day_of (row.1) = d) (df_rows df)).

(** [df.resample('D').sum()]: one row for every day from the day of the
    earliest label to the day of the latest, labelled by its midnight,
    holding for each column the sum over the rows of that day. *)
Definition resample_D_sum (df : DataFrame Timestamp) : DataFrame Timestamp :=
  match index df with
  | [] => mk_DataFrame (df_ncols df) []
  | t :: ts =>
      let first := day_of (foldr Z.min t ts) in
      let last := day_of (foldr Z.max t ts) in
      mk_DataFrame (df_ncols df)
        (map (fun d => (24 * d,
                        map (fun c => group_sum (column (rows_of_day df d) c))
                            (range (df_ncols df))))
             (seqZ first (last - first + 1)))
  end.

End PdOps.

Export PdOps.

(** ** [WFDE5-To-SHETRAN.py] *)

(** The bounding-box indices: the position of the coordinate nearest to the
    bound, plus one for the two upper bounds. *)
Definition IdxNorth (Lats : list float) (North : float) : result Z :=
  i ← Np.argmin (Np.abs_diff Lats North); Ok (i + 1).

Definition IdxSouth (Lats : list float) (South : float) : result Z :=
  Np.argmin (Np.abs_diff Lats South).

Definition IdxWest (Lons : list float) (West : float) : result Z :=
  Np.argmin (Np.abs_diff Lons West).

Definition IdxEast (Lons : list float) (East : float) : result Z :=
  i ← Np.argmin (Np.abs_diff Lons East); Ok (i + 1).

(** The unit conversion from kg/m2/s to mm/hour. *)
Definition SecsPerHour : Z := 60 ^ 2.
Definition KgPerCubicM : Z := 10 ^ 3.
Definition MmPerMetre : Z := 1000.
Definition UnitConversion : float :=
  PrimFloat.mul (PrimFloat.div (int_to_float SecsPerHour) (int_to_float KgPerCubicM))
                (int_to_float MmPerMetre).

(** The hourly calendar from 1900-01-01 00:00:00 to 2011-01-01 00:00:00. *)
Definition DateIndex : list Timestamp := date_range_H 1900 1 1 2011 1 1.

(** [Replacer = lambda x: 0.001 if x>1000 else x]. *)
Definition Replacer (x : float) : float :=
  if PrimFloat.ltb 1000%float x then 0.001%float else x.

(** [for Col in Mdf.columns: Mdf[Col] = Mdf[Col].map(Replacer)]. *)
Definition replace_columns (Mdf : DataFrame Timestamp) : DataFrame Timestamp :=
  fold_left (fun Mdf Col => set_column Mdf Col (map Replacer (column Mdf Col)))
            (range (df_ncols Mdf)) Mdf.

(** The table after concatenation, sorting and re-indexing by the calendar
    (lines 181 to 192 of the script). *)
Definition MdfHourly (DfList : list (DataFrame Z)) : result (DataFrame Timestamp) :=
  Mdf ← concat DfList;
  let Mdf := sort_index Mdf in
  MdfStart ← of_option IndexError (head (index Mdf));
  MdfEnd ← (i ← of_option IndexError (last (index Mdf)); Ok (wrap_int64 (i + 1)));
  assign_index Mdf (slice DateIndex MdfStart MdfEnd).

(** The concatenation block of the script: the monthly tables [DfList] as
    they were read back, merged, aggregated to days, repaired and written to
    [DirectoryConcat]. *)
Definition MdfDaily (DfList : list (DataFrame Z)) (DirectoryConcat : string)
  : M (DataFrame Timestamp) :=
  Mdf ← lift (MdfHourly DfList);
  let Mdf := resample_D_sum Mdf in
  let Mdf := replace_columns Mdf in
  to_csv LTime Mdf (DirectoryConcat +:+ "Rainf_WFDE5_CRU+GPCC_2000-2010_v2.1_ClipConcat.csv");;
  mret Mdf.

(** ** Python's [float] on text *)

(** The literals [float(s)] accepts on a token: an optional sign, then
    [inf], [infinity] or [nan] in any case, or decimal digits with an optional
    fraction and an optional exponent; the value is the nearest binary64. *)
Module PyFloat.

Definition code (c : ascii) : Z := Z.of_nat (nat_of_ascii c).

Definition digit (c : ascii) : option Z :=
  if (48 <=? code c) && (code c <=? 57) then Some (code c - 48) else None.

Definition lower (c : ascii) : ascii :=
  if (65 <=? code c) && (code c <=? 90) then ascii_of_nat (nat_of_ascii c + 32) else c.

Definition is_digit (s : list ascii) : bool :=
  match s with
  | c :: _ => match digit c with Some _ => true | None => false end
  | [] => false
  end.

(** A group of digits, single underscores allowed between two digits:
    the value accumulated after [acc], the number of digits read, and the
    rest of the text. *)
Fixpoint digitpart (acc cnt : Z) (s : list ascii) : Z * Z * list ascii :=
  match s with
  | c :: s' =>
      match digit c with
      | Some d => digitpart (10 * acc + d) (cnt + 1) s'
      | None =>
          if (code c =? 95) && (0 <? cnt) && is_digit s'
          then digitpart acc cnt s'
          else (acc, cnt, s)
      end
  | [] => (acc, cnt, s)
  end.

Definition sign (s : list ascii) : bool * list ascii :=
  match s with
  | c :: s' =>
      if code c =? 45 then (true, s')
      else if code c =? 43 then (false, s')
      else (false, s)
  | [] => (false, s)
  end.

(** The binary64 nearest to [m * 10 ^ e], ties to even ([0 < m]). *)
Definition of_decimal (neg : bool) (m e : Z) : float :=
  let digits := Z.log2 m / 3 + 1 in
  let sgn (z : Z) := if neg then - z else z in
  if m =? 0 then (if neg then (-0)%float else 0%float)
  else if 400 <? e then (if neg then neg_infinity else infinity)
  else if e + digits <? -330 then (if neg then (-0)%float else 0%float)
  else if 0 <=? e then SF2Prim (binary_normalize prec emax (sgn (m * 10 ^ e)) 0 false)
  else
    let d := 10 ^ (- e) in
    let s := Z.max 0 (Z.log2 d + 64 - Z.log2 m) in
    let q := (m * 2 ^ s) / d in
    let sticky := if (m * 2 ^ s) mod d =? 0 then 0 else 1 in
    SF2Prim (binary_normalize prec emax (sgn (2 * q + sticky)) (- (s + 1)) false).

Definition word (s : list ascii) : string :=
  string_of_list_ascii (map lower s).

(** Python's [float(s)] on a text without surrounding whitespace. *)
Definition parse_chars (s : list ascii) : option float :=
  let '(neg, s1) := sign s in
  if (String.eqb (word s1) "inf" || String.eqb (word s1) "infinity")%bool
  then Some (if neg then neg_infinity else infinity)
  else if String.eqb (word s1) "nan" then Some nan
  else
    let '(m1, n1, s2) := digitpart 0 0 s1 in
    let '(m2, n2, s3) :=
      match s2 with
      | c :: r => if code c =? 46 then digitpart m1 0 r else (m1, 0, s2)
      | [] => (m1, 0, s2)
      end in
    if n1 + n2 =? 0 then None
    else
      let exponent :=
        match s3 with
        | c :: r =>
            if code (lower c) =? 101 then
              let '(eneg, r1) := sign r in
              let '(e, ne, r2) := digitpart 0 0 r1 in
              if ne =? 0 then None else Some (if eneg then - e else e, r2)
            else Some (0, s3)
        | [] => Some (0, s3)
        end in
      match exponent with
      | Some (e, []) => Some (of_decimal neg m2 (e - n2))
      | _ => None
      end.

Definition parse (s : string) : option float := parse_chars (list_ascii_of_string s).

End PyFloat.

(** ** Text files and [ASCtoDfParam] *)

Module Text.

(** Characters are code points below 256; these are the ones Python's
    [str.split()] and [str.rstrip()] take for whitespace. *)
Definition is_space (c : ascii) : bool :=
  let n := nat_of_ascii c in
  ((9 <=? n) && (n <=? 13) || (28 <=? n) && (n <=? 32) || (n =? 133) || (n =? 160))%nat.

Definition newline : ascii := ascii_of_nat 10.

Definition snoc (s : string) (c : ascii) : string := s +:+ String c EmptyString.

(** [File.readlines()] on the text after newline translation: every line
    keeps its terminator; [cur] is the line being read. *)
Fixpoint readlines_from (cur : string) (s : string) : list string :=
  match s with
  | EmptyString => if decide (cur = EmptyString) then [] else [cur]
  | String c s' =>
      if decide (c = newline) then snoc cur c :: readlines_from EmptyString s'
      else readlines_from (snoc cur c) s'
  end.

Definition readlines (s : string) : list string := readlines_from EmptyString s.

(** [Line.rstrip()]. *)
Fixpoint rstrip (s : string) : string :=
  match s with
  | EmptyString => EmptyString
  | String c s' =>
      match rstrip s' with
      | EmptyString => if is_space c then EmptyString else String c EmptyString
      | r => String c r
      end
  end.

(** [Line.split()]: the maximal runs of characters that are not
    whitespace; [tok] is the run being read, if any. *)
Fixpoint split_from (tok : option string) (s : string) : list string :=
  match s with
  | EmptyString => match tok with Some t => [t] | None => [] end
  | String c s' =>
      if is_space c then
        match tok with
        | Some t => t :: split_from None s'
        | None => split_from None s'
        end
      else split_from (Some (snoc (default EmptyString tok) c)) s'
  end.

Definition split (s : string) : list string := split_from None s.

End Text.

(** [for x in xs: state = body(state, x)], stopped by the first exception. *)
Fixpoint for_fold {S A} (body : S -> A -> result S) (xs : list A) (s : S) : result S :=
  match xs with
  | [] => Ok s
  | x :: xs' => s' ← body s x; for_fold body xs' s'
  end.

Section ASC.

(** A cell of [DfParam] while it is being filled: the initial zero, or the
    token written over it. *)
Inductive cell : Type :=
| CFloat (f : float)
| CStr (s : string).

(** [np.zeros([Nrows, Ncols])]. *)
Definition zeros (Nrows Ncols : nat) : list (list cell) :=
  replicate Nrows (replicate Ncols (CFloat 0%float)).

(** [DfParam.iloc[Line, Col] = v]: [iloc] does not enlarge the table. *)
Definition iloc_set (DfParam : list (list cell)) (Line Col : nat) (v : cell)
  : result (list (list cell)) :=
  match DfParam !! Line with
  | Some row =>
      if decide (Col < length row)%nat
      then Ok (<[Line := <[Col := v]> row]> DfParam)
      else Raise IndexError
  | None => Raise IndexError
  end.

(** [np.float64(v)] on one cell. *)
Definition to_float64 (v : cell) : result float :=
  match v with
  | CFloat f => Ok f
  | CStr s => of_option ValueError (PyFloat.parse s)
  end.

(** [ASCtoDfParam]; [files] are the text files by path. *)
Definition ASCtoDfParam (files : gmap string string) (Path : string) (Nrows Ncols : nat)
  : result (DataFrame nat) :=
  File ← of_option FileNotFoundError (files !! Path);
  let Lines := Text.readlines File in
  let Lines := map Text.rstrip Lines in
  let Lines := drop 6 Lines in
  let DfParam := zeros Nrows Ncols in
  DfParam ← for_fold (fun DfParam Line =>
      let ColList := Text.split (default EmptyString (Lines !! Line)) in
      for_fold (fun DfParam Col =>
          let ParamStr := default EmptyString (ColList !! Col) in
          iloc_set DfParam Line Col (CStr ParamStr))
        (range (length ColList)) DfParam)
    (range (length Lines)) DfParam;
  DfParam ← for_each (for_each to_float64) DfParam;
  Ok (mk_DataFrame Ncols (zip (range Nrows) DfParam)).

End ASC.

(** ** Python's [str] and the file names of the script *)

Module Str.

(** [s.split(sep)] for a separator that is not empty: the pieces between
    the occurrences of [sep], found from the left, without overlap.  [cur] is
    the piece being read, [skip] the number of characters of an occurrence
    still to pass. *)
Fixpoint split_from (sep : string) (skip : nat) (cur : string) (s : string) : list string :=
  match s with
  | EmptyString => [cur]
  | String c s' =>
      match skip with
      | S k => split_from sep k cur s'
      | O =>
          if String.prefix sep s
          then cur :: split_from sep (String.length sep - 1) EmptyString s'
          else split_from sep 0 (Text.snoc cur c) s'
      end
  end.

(** [s.split(sep, -1)]: an empty separator is an error. *)
Definition split (s sep : string) : result (list string) :=
  if decide (sep = EmptyString) then Raise ValueError
  else Ok (split_from sep 0 EmptyString s).

(** [s.find(sep)]: the position of the first occurrence, if there is one. *)
Fixpoint find (sep s : string) {struct s} : option nat :=
  if String.prefix sep s then Some 0%nat
  else
    match s with
    | EmptyString => None
    | String _ s' => S <$> find sep s'
    end.

(** [s[:n]] and [s[n:]]. *)
Fixpoint take (n : nat) (s : string) : string :=
  match n, s with
  | S n', String c s' => String c (take n' s')
  | _, _ => EmptyString
  end.

Fixpoint drop (n : nat) (s : string) : string :=
  match n, s with
  | S n', String _ s' => drop n' s'
  | _, _ => s
  end.

End Str.

(** The separator of the script, a single backslash. *)
Definition backslash : string := String (ascii_of_nat 92) EmptyString.

(** The name of a file without path and extension, as the loop over
    [PathListNC] extracts it (lines 78 to 82 of the script). *)
Definition FileName (Path ExtIn : string) : result string :=
  parts ← Str.split Path backslash;
  FileName ← of_option IndexError (parts !! 1%nat);
  parts ← Str.split FileName ExtIn;
  of_option IndexError (parts !! 0%nat).

Definition FileNameList (PathListNC : list string) (ExtIn : string) : result (list string) :=
  for_each (fun Path => FileName Path ExtIn) PathListNC.

(** * The vocabulary of the properties *)

(** ** The order of binary64 values, through integers *)

Module FloatKey.

(** The place of a number in the order: sign class, then exponent, then
    mantissa, the last two negated for negative numbers. *)
Definition rank (x : spec_float) : Z * Z * Z :=
  match x with
  | S754_zero _ => (0, 0, 0)
  | S754_infinity true => (-2, 0, 0)
  | S754_infinity false => (2, 0, 0)
  | S754_nan => (0, 0, 0)
  | S754_finite true m e => (-1, - e, - Z.pos m)
  | S754_finite false m e => (1, e, Z.pos m)
  end.

Definition lt3 (a b : Z * Z * Z) : Prop :=
  a.1.1 < b.1.1 \/ (a.1.1 = b.1.1 /\ (a.1.2 < b.1.2 \/ (a.1.2 = b.1.2 /\ a.2 < b.2))).

Definition is_num (x : float) : Prop := Prim2SF x <> S754_nan.

Definition key (x : float) : Z * Z * Z := rank (Prim2SF x).

End FloatKey.

(** ** The repair loop *)

(** What the loop does to one row: the cells of the columns visited are
    repaired in place. *)
Definition repair_row (n : nat) (row : list float) : list float :=
  fold_left (fun l c => <[c := Replacer (default PrimFloat.nan (l !! c))]> l) (range n) row.

(** ** The scan of [argmin] *)

(** What is known of the running minimum [m] at index [mi] once the
    elements [a] have been scanned: none of them is below [m], and none
    before [mi] is below or equal to it. *)
Definition scan_inv (a : list float) (m : float) (mi : nat) : Prop :=
  a !! mi = Some m /\
  (forall j x, a !! j = Some x -> PrimFloat.ltb x m = false) /\
  (forall j x, (j < mi)%nat -> a !! j = Some x -> PrimFloat.leb x m = false).

(** ** Grid datasets *)

(** [var_data Data name]: the array of a variable, if the dataset has it. *)
Definition var_data (Data : Dataset) (name : string) : option ndarray :=
  ncdata <$> variables Data !! name.

Definition int64 (z : Z) : Prop := - 2 ^ 63 <= z < 2 ^ 63.

(** The cell [a[t, i, j]] of a 3-D array. *)
Definition at3 (a : list (list (list float))) (t i j : nat) : option float :=
  plane ← a !! t; row ← plane !! i; row !! j.

(** A 3-D array of [T] planes of [L] rows of [O] values. *)
Definition has_shape (a : list (list (list float))) (T L O : nat) : Prop :=
  length a = T /\
  Forall (fun plane => length plane = L /\ Forall (fun row => length row = O) plane) a.

(** The data model: a grid dataset has integer time offsets, float
    coordinate axes and a variable whose three dimensions have the lengths
    of the axes. *)
Record is_grid (Data : Dataset) (VariableName LongitudeName LatitudeName : string)
    (time : list Z) (lon lat : list float) (var : list (list (list float))) : Prop := {
  grid_time : var_data Data "time" = Some (NdInt1 time);
  grid_lon : var_data Data LongitudeName = Some (NdFloat1 lon);
  grid_lat : var_data Data LatitudeName = Some (NdFloat1 lat);
  grid_var : var_data Data VariableName = Some (NdFloat3 var);
  grid_int64 : Forall int64 time;
  grid_shape : has_shape var (length time) (length lat) (length lon)
}.

(** [var_masked Data name]: the values masked in a variable of the
    dataset. *)
Definition var_masked (Data : Dataset) (name : string) (s : scalar) : bool :=
  match variables Data !! name with
  | Some v => ncmasked v s
  | None => false
  end.

(** The value stored for a value read under the mask [masked]. *)
Definition stored_int (masked : scalar -> bool) (z : Z) : Z :=
  if masked (Int z) then default_fill_int else z.

Definition stored_float (masked : scalar -> bool) (x : float) : float :=
  if masked (Float x) then default_fill_float else x.

(** The window [:, south:north, west:east] of a 3-D array. *)
Definition window (rainf : list (list (list float))) (west east north south : Z)
  : list (list (list float)) :=
  map (fun plane => map (fun row => slice row west east) (slice plane south north)) rainf.

(** The dataset written for a window of a grid dataset whose variables have
    the masks [mtime], [mlon], [mlat] and [mrainf]. *)
Definition clipped (mtime mlon mlat mrainf : scalar -> bool)
    (time : list Z) (lon lat : list float) (rainf : list (list (list float)))
    (IdxWest IdxEast IdxNorth IdxSouth : Z) : Dataset :=
  mk_Dataset
    (<["Rainf" := mk_ncvar {["units" := "kg m-2 s-1"]} default_masked
         (NdFloat3
            match List.concat (List.concat (window rainf IdxWest IdxEast IdxNorth IdxSouth)) with
            | [] => []
            | _ => map (map (map (stored_float mrainf)))
                       (window rainf IdxWest IdxEast IdxNorth IdxSouth)
            end)]>
    (<["lat" := mk_ncvar {["units" := "degrees_north"]} default_masked
         (NdFloat1 (map (stored_float mlat) (slice lat IdxSouth IdxNorth)))]>
    (<["lon" := mk_ncvar {["units" := "degrees_east"]} default_masked
         (NdFloat1 (map (stored_float mlon) (slice lon IdxWest IdxEast)))]>
    (<["time" := mk_ncvar {["units" := "hours since 1900-01-01"]} default_masked
         (NdInt1 (map (stored_int mtime) time))]> ∅)))).

(** ** The table of the flattener *)

(** The conversion applied to every raw value. *)
Definition convert (UnitConversion : float) (x : float) : float :=
  Np.round1 (PrimFloat.mul x UnitConversion).

(** The raw time series of a cell of a 3-D array. *)
Definition raw_series (var : list (list (list float))) (Lat Lon : nat) : list float :=
  map (fun plane => default PrimFloat.nan (row ← plane !! Lat; row !! Lon)) var.

(** The cells in the order of the two loops. *)
Definition cells_of (NRows NCols : nat) : list (nat * nat) :=
  Lat ← range NRows; Lon ← range NCols; [(Lat, Lon)].

(** The converted series of the cells, in the order of the loops. *)
Definition converted_cells (UnitConversion : float) (var : list (list (list float)))
    (NRows NCols : nat) : list (list float) :=
  map (fun cell : nat * nat =>
         map Np.round1 (map (fun x => PrimFloat.mul x UnitConversion)
                            (raw_series var (cell.1) (cell.2))))
      (cells_of NRows NCols).

(** The table of the series [cells], all of length [T], under the index
    [labels]: row [t] holds the value at [t] of every series. *)
Definition table_of_cells {I} (labels : list I) (T : nat) (cells : list (list float))
  : DataFrame I :=
  mk_DataFrame (length cells)
    (zip labels (map (fun t => map (fun c => default PrimFloat.nan (c !! t)) cells) (range T))).

(** ** Tables of one column schema *)


(** ** The table of the ASC parser *)

(** The cell at row [r], column [c] of the table being filled. *)
Definition get2 (t : list (list cell)) (r c : nat) : option cell :=
  row ← t !! r; row !! c.

Definition shape2 (t : list (list cell)) (R C : nat) : Prop :=
  length t = R /\ Forall (fun row => length row = C) t.

(** The value of a cell after the conversion to floats. *)
Definition cell_value (v : cell) : float :=
  match v with
  | CFloat f => f
  | CStr s => default PrimFloat.nan (PyFloat.parse s)
  end.

(** The data lines of a file: trailing whitespace stripped, header dropped. *)
Definition data_lines (File : string) : list string :=
  drop 6 (map Text.rstrip (Text.readlines File)).

(** The token at line [r], position [c], if there is one. *)
Definition token_at (Lines : list string) (r c : nat) : option string :=
  l ← Lines !! r; Text.split l !! c.

(** ** Pieces of a path *)

(** What precedes the first occurrence of [sep] in [s]: all of [s] when
    there is none. *)
Definition before (sep s : string) : string :=
  match Str.find sep s with
  | Some n => Str.take n s
  | None => s
  end.

(** What follows the first occurrence of [sep] in [s], if there is one. *)
Definition after (sep s : string) : option string :=
  match Str.find sep s with
  | Some n => Some (Str.drop (n + String.length sep) s)
  | None => None
  end.

(** ** Integers in binary64 *)




(** ** The inputs of the examples *)

(** A month of one hour and one cell holding -2000. *)
Definition negative_sentinel : DataFrame Z :=
  mk_DataFrame 1 [(0, [(-2000)%float])].

(** A grid of two time steps, two latitudes and three longitudes. *)
Definition sample_time : list Z := [0; 1].
Definition sample_lon : list float := [-63.25; -62.75; -62.25]%float.
Definition sample_lat : list float := [1.25; 1.75]%float.
Definition sample_rainf : list (list (list float)) :=
  [[[1; 2; 3]; [4; 5; 6]]; [[7; 8; 9]; [10; 11; 12]]]%float.

Definition sample_grid : Dataset :=
  mk_Dataset
    {[ "time" := mk_ncvar ∅ default_masked (NdInt1 sample_time);
       "lon" := mk_ncvar ∅ default_masked (NdFloat1 sample_lon);
       "lat" := mk_ncvar ∅ default_masked (NdFloat1 sample_lat);
       "Rainf" := mk_ncvar ∅ default_masked (NdFloat3 sample_rainf) ]}.

(** The same grid with a missing value: the variable has the fill value
    1e20, which stands in its first cell. *)
Definition missing_rainf : list (list (list float)) :=
  [[[1e20; 2; 3]; [4; 5; 6]]; [[7; 8; 9]; [10; 11; 12]]]%float.

Definition missing_grid : Dataset :=
  mk_Dataset
    {[ "time" := mk_ncvar ∅ default_masked (NdInt1 sample_time);
       "lon" := mk_ncvar ∅ default_masked (NdFloat1 sample_lon);
       "lat" := mk_ncvar ∅ default_masked (NdFloat1 sample_lat);
       "Rainf" := mk_ncvar ∅
                    (fun s => match s with
                              | Float x => PrimFloat.eqb x 1e20%float
                              | Int _ => false
                              end)
                    (NdFloat3 missing_rainf) ]}.

(** What a clip of that grid to all of its cells writes. *)
Definition missing_clipped : Dataset :=
  mk_Dataset
    {[ "time" := mk_ncvar {["units" := "hours since 1900-01-01"]} default_masked
                   (NdInt1 sample_time);
       "lon" := mk_ncvar {["units" := "degrees_east"]} default_masked (NdFloat1 sample_lon);
       "lat" := mk_ncvar {["units" := "degrees_north"]} default_masked (NdFloat1 sample_lat);
       "Rainf" := mk_ncvar {["units" := "kg m-2 s-1"]} default_masked
                    (NdFloat3 [[[9.969209968386869e36; 2; 3]; [4; 5; 6]];
                               [[7; 8; 9]; [10; 11; 12]]]%float) ]}.

(** A grid without latitudes: one time step, one longitude, no cell. *)
Definition empty_grid : Dataset :=
  mk_Dataset
    {[ "time" := mk_ncvar ∅ default_masked (NdInt1 [0]);
       "lon" := mk_ncvar ∅ default_masked (NdFloat1 [1%float]);
       "lat" := mk_ncvar ∅ default_masked (NdFloat1 []);
       "Rainf" := mk_ncvar ∅ default_masked (NdFloat3 [[]]) ]}.

(** Two days of hourly steps on two latitudes and three longitudes, the
    same six raw values at every step. *)
Definition hourly48_time : list Z := seqZ 0 48.
Definition hourly48_rainf : list (list (list float)) :=
  replicate 48 [[10; 0.0123; 2.5]; [0.125; 1.23456; 10]]%float.

Definition hourly48_grid : Dataset :=
  mk_Dataset
    {[ "time" := mk_ncvar ∅ default_masked (NdInt1 hourly48_time);
       "lon" := mk_ncvar ∅ default_masked (NdFloat1 sample_lon);
       "lat" := mk_ncvar ∅ default_masked (NdFloat1 sample_lat);
       "Rainf" := mk_ncvar ∅ default_masked (NdFloat3 hourly48_rainf) ]}.

(** Two hours with a gap of four between them. *)
Definition gapped : DataFrame Z :=
  mk_DataFrame 1 [(0, [1%float]); (5, [2%float])].

(** The same two hours in a table without columns (the table of a window
    without cells). *)
Definition columnless : DataFrame Z :=
  mk_DataFrame 0 [(0, []); (5, [])].

(** Two months of one cell, one millimetre every hour. *)
Definition month0 : DataFrame Z :=
  mk_DataFrame 1 (map (fun t => (t, [1%float])) (seqZ 0 744)).
Definition month1 : DataFrame Z :=
  mk_DataFrame 1 (map (fun t => (t, [1%float])) (seqZ 744 744)).

(** An ASC grid of two columns whose data lines fill one row and a half. *)
Definition asc_text : string :=
  "ncols 2
nrows 3
xllcorner 0
yllcorner 0
cellsize 1
NODATA_value -9999
1.5 2
-9999
".

(** A header followed by one data line with one token that is no number. *)
Definition asc_bad_token : string :=
  "ncols 1
nrows 1
xllcorner 0
yllcorner 0
cellsize 1
NODATA_value -9999
abc
".

(** * Properties *)

(** ** The sentinel repair *)

Lemma Replacer_above (x : float) :
  PrimFloat.ltb 1000%float x = true -> Replacer x = 0.001%float.
Proof. unfold Replacer. intros ->. reflexivity. Qed.

Lemma Replacer_not_above (x : float) :
  PrimFloat.ltb 1000%float x = false -> Replacer x = x.
Proof. unfold Replacer. intros ->. reflexivity. Qed.

(** C9: the repair is idempotent, and the replacement value 0.001 is itself
    not above the threshold. *)
Theorem Replacer_idempotent :
  (forall x : float, Replacer (Replacer x) = Replacer x) /\
  PrimFloat.ltb 1000%float 0.001%float = false.
Proof.
  split; [|reflexivity].
  intros x. destruct (PrimFloat.ltb 1000%float x) eqn:E.
  - rewrite (Replacer_above x E). reflexivity.
  - rewrite (Replacer_not_above x E). apply Replacer_not_above, E.
Qed.

(** *** The loop over the columns *)

Lemma set_column_map {I} (f : float -> float) (df : DataFrame I) (c : nat) :
  set_column df c (map f (column df c)) =
  mk_DataFrame (df_ncols df)
    (map (fun row : I * list float =>
            (row.1, <[c := f (default PrimFloat.nan (row.2 !! c))]> (row.2)))
         (df_rows df)).
Proof.
  unfold set_column, column, values. f_equal.
  induction (df_rows df) as [|row rows IH]; simpl; [reflexivity|].
  f_equal. exact IH.
Qed.

Lemma replace_loop_rows (n : nat) (Mdf : DataFrame Timestamp) :
  fold_left (fun Mdf Col => set_column Mdf Col (map Replacer (column Mdf Col))) (range n) Mdf =
  mk_DataFrame (df_ncols Mdf)
    (map (fun row : Timestamp * list float => (row.1, repair_row n (row.2))) (df_rows Mdf)).
Proof.
  unfold repair_row, range.
  induction n as [|n IH].
  - simpl. destruct Mdf as [k rows]; simpl. f_equal.
    induction rows as [|[t row] rows IHr]; simpl; [reflexivity|]. by rewrite <- IHr.
  - rewrite seq_S, fold_left_app. simpl. rewrite IH, set_column_map. simpl.
    f_equal. rewrite map_map. apply map_ext. intros [t row]. simpl.
    rewrite fold_left_app. reflexivity.
Qed.

Lemma replace_columns_rows (Mdf : DataFrame Timestamp) :
  replace_columns Mdf =
  mk_DataFrame (df_ncols Mdf)
    (map (fun row : Timestamp * list float => (row.1, repair_row (df_ncols Mdf) (row.2)))
         (df_rows Mdf)).
Proof. apply replace_loop_rows. Qed.

Lemma repair_row_S (n : nat) (row : list float) :
  repair_row (S n) row =
  <[n := Replacer (default PrimFloat.nan (repair_row n row !! n))]> (repair_row n row).
Proof. unfold repair_row, range. rewrite seq_S, fold_left_app. reflexivity. Qed.

Lemma repair_row_length (n : nat) (row : list float) :
  length (repair_row n row) = length row.
Proof.
  induction n as [|n IH]; [reflexivity|].
  rewrite repair_row_S, length_insert. exact IH.
Qed.

Lemma repair_row_lookup (n : nat) (row : list float) (c : nat) :
  repair_row n row !! c =
  if decide (c < n)%nat then Replacer <$> row !! c else row !! c.
Proof.
  induction n as [|n IH].
  - destruct (decide (c < 0)%nat); [lia|reflexivity].
  - rewrite repair_row_S.
    destruct (decide (c = n)) as [->|Hne].
    + destruct (decide (n < S n)%nat); [|lia].
      destruct (decide (n < n)%nat); [lia|].
      destruct (row !! n) as [v|] eqn:Hv.
      * rewrite list_lookup_insert_eq.
        -- rewrite IH. reflexivity.
        -- rewrite repair_row_length. by eapply lookup_lt_Some.
      * rewrite IH. rewrite list_insert_ge; [by rewrite IH|].
        rewrite repair_row_length. by apply lookup_ge_None.
    + rewrite list_lookup_insert_ne by done. rewrite IH.
      destruct (decide (c < n)%nat), (decide (c < S n)%nat); try lia; reflexivity.
Qed.

Lemma iloc_replace_columns (Mdf : DataFrame Timestamp) (r c : nat) :
  iloc (replace_columns Mdf) r c =
  if decide (c < df_ncols Mdf)%nat then Replacer <$> iloc Mdf r c else iloc Mdf r c.
Proof.
  rewrite replace_columns_rows. unfold iloc, values. simpl.
  rewrite map_map. simpl. rewrite !list_lookup_fmap.
  destruct (df_rows Mdf !! r) as [[t row]|]; simpl.
  - apply repair_row_lookup.
  - by destruct (decide _).
Qed.

Lemma index_replace_columns (Mdf : DataFrame Timestamp) :
  index (replace_columns Mdf) = index Mdf /\ df_ncols (replace_columns Mdf) = df_ncols Mdf.
Proof.
  rewrite replace_columns_rows. unfold index. simpl. split; [|reflexivity].
  rewrite map_map. reflexivity.
Qed.

(** Every row of a resampled table has one value per column. *)
Lemma resample_D_sum_width (df : DataFrame Timestamp) :
  Forall (fun row => length row = df_ncols (resample_D_sum df)) (values (resample_D_sum df)).
Proof.
  unfold resample_D_sum, values. destruct (index df) as [|t ts]; simpl; [constructor|].
  rewrite map_map. apply Forall_forall. intros row Hin.
  apply list_elem_of_fmap in Hin as (d & -> & _). simpl.
  rewrite length_map. apply length_seq.
Qed.

Lemma iloc_width {I} (df : DataFrame I) (r c : nat) :
  Forall (fun row => length row = df_ncols df) (values df) ->
  (df_ncols df <= c)%nat -> iloc df r c = None.
Proof.
  intros Hw Hc. unfold iloc. destruct (values df !! r) as [row|] eqn:Hr; [|reflexivity].
  simpl. apply lookup_ge_None.
  rewrite Forall_forall in Hw. rewrite (Hw row); [exact Hc|].
  eapply list_elem_of_lookup_2, Hr.
Qed.

(** The run of the concatenation block, step by step. *)
Lemma MdfDaily_run (DfList : list (DataFrame Z)) (DirectoryConcat : string) (fs : FS) :
  MdfDaily DfList DirectoryConcat fs =
  match MdfHourly DfList with
  | Ok Hourly =>
      let Mdf := replace_columns (resample_D_sum Hourly) in
      (Ok Mdf,
       <[DirectoryConcat +:+ "Rainf_WFDE5_CRU+GPCC_2000-2010_v2.1_ClipConcat.csv" :=
           CsvFile (mk_DataFrame (df_ncols Mdf)
                      (map (fun row : Timestamp * list float => (LTime (row.1), row.2))
                           (df_rows Mdf)))]> fs)
  | Raise e => (Raise e, fs)
  end.
Proof.
  unfold MdfDaily, mbind, M_bind, lift, to_csv, mret, M_ret.
  destruct (MdfHourly DfList); reflexivity.
Qed.

(** C1 (as amended): in the final table every daily sum above 1000 has
    become exactly 0.001 and every other daily sum, whatever its magnitude,
    is unchanged; this holds at every row and column, and the final table has
    the index and the columns of the daily sums. *)
Theorem Mdf_sentinel_repair
    (DfList : list (DataFrame Z)) (DirectoryConcat : string) (fs : FS)
    (Mdf : DataFrame Timestamp) :
  (MdfDaily DfList DirectoryConcat fs).1 = Ok Mdf ->
  exists Hourly : DataFrame Timestamp,
    MdfHourly DfList = Ok Hourly /\
    index Mdf = index (resample_D_sum Hourly) /\
    df_ncols Mdf = df_ncols (resample_D_sum Hourly) /\
    forall r c : nat,
      iloc Mdf r c =
      (fun v => if PrimFloat.ltb 1000%float v then 0.001%float else v)
        <$> iloc (resample_D_sum Hourly) r c.
Proof.
  rewrite MdfDaily_run. destruct (MdfHourly DfList) as [Hourly|e]; simpl; [|discriminate].
  intros [= <-]. exists Hourly.
  destruct (index_replace_columns (resample_D_sum Hourly)) as [Hi Hn].
  repeat split; try assumption.
  intros r c. rewrite iloc_replace_columns.
  destruct (decide (c < df_ncols (resample_D_sum Hourly))%nat) as [Hc|Hc]; [reflexivity|].
  rewrite iloc_width; [reflexivity|apply resample_D_sum_width|lia].
Qed.

Lemma Mdf_sentinel_repair_witness :
  exists Hourly : DataFrame Timestamp,
    MdfHourly [negative_sentinel] = Ok Hourly /\
    index (mk_DataFrame 1 [(0, [(-2000)%float])]) = index (resample_D_sum Hourly) /\
    1%nat = df_ncols (resample_D_sum Hourly) /\
    forall r c : nat,
      iloc (mk_DataFrame 1 [(0, [(-2000)%float])]) r c =
      (fun v => if PrimFloat.ltb 1000%float v then 0.001%float else v)
        <$> iloc (resample_D_sum Hourly) r c.
Proof.
  apply (Mdf_sentinel_repair [negative_sentinel] "out/" ∅). vm_compute. reflexivity.
Defined.

(** C1 (as stated) fails on a value below -1000: its magnitude exceeds
    1000, and the final table still holds it. *)
Lemma Mdf_negative_sentinel_kept :
  (MdfDaily [negative_sentinel] "out/" ∅).1 = Ok (mk_DataFrame 1 [(0, [(-2000)%float])]) /\
  PrimFloat.ltb 1000%float (PrimFloat.abs (-2000)%float) = true /\
  (-2000)%float <> 0.001%float.
Proof.
  split; [vm_compute; reflexivity|]. split; [reflexivity|].
  intros H. apply (f_equal (PrimFloat.ltb 0%float)) in H. vm_compute in H. discriminate.
Qed.

(** ** The order of binary64 values *)

Module FloatOrder.

Import FloatKey.

Lemma SFcompare_cases (x y : spec_float) :
  x <> S754_nan -> y <> S754_nan ->
  (SFcompare x y = Some Lt /\ lt3 (rank x) (rank y)) \/
  (SFcompare x y = Some Eq /\ rank x = rank y) \/
  (SFcompare x y = Some Gt /\ lt3 (rank y) (rank x)).
Proof.
  intros Hx Hy. unfold lt3.
  destruct x as [sx|sx| |sx mx ex], y as [sy|sy| |sy my ey]; try congruence;
    try destruct sx; try destruct sy; simpl; try (intuition lia).
  - destruct (Z.compare_spec ex ey); [|intuition lia..].
    change (Pos.compare_cont Eq mx my) with (Pos.compare mx my).
    destruct (Pos.compare_spec mx my); subst; simpl; intuition lia.
  - destruct (Z.compare_spec ex ey); [|intuition lia..].
    change (Pos.compare_cont Eq mx my) with (Pos.compare mx my).
    destruct (Pos.compare_spec mx my); subst; simpl; intuition lia.
Qed.

Lemma nan_or_not (x : spec_float) : x = S754_nan \/ x <> S754_nan.
Proof. destruct x; auto; right; discriminate. Qed.

Lemma is_nan_spec (x : float) : PrimFloat.is_nan x = true <-> Prim2SF x = S754_nan.
Proof.
  unfold PrimFloat.is_nan. rewrite FloatAxioms.eqb_spec. unfold SFeqb.
  destruct (nan_or_not (Prim2SF x)) as [E|E].
  - rewrite E. simpl. tauto.
  - destruct (SFcompare_cases _ _ E E) as [[-> Hl]|[[-> _]|[-> Hl]]];
      try (unfold lt3 in Hl; lia).
    simpl. split; [discriminate|contradiction].
Qed.

Lemma is_nan_false (x : float) : PrimFloat.is_nan x = false <-> is_num x.
Proof.
  unfold is_num. rewrite <- is_nan_spec. destruct (PrimFloat.is_nan x); intuition congruence.
Qed.

Lemma SFcompare_nan (x y : spec_float) :
  x = S754_nan \/ y = S754_nan -> SFcompare x y = None.
Proof. intros [-> | ->]; [reflexivity|]. destruct x as [?|?| |[] ? ?]; reflexivity. Qed.

Lemma ltb_true (x y : float) :
  PrimFloat.ltb x y = true <-> is_num x /\ is_num y /\ lt3 (key x) (key y).
Proof.
  rewrite FloatAxioms.ltb_spec. unfold SFltb, is_num, key.
  destruct (nan_or_not (Prim2SF x)) as [Ex|Ex].
  { rewrite SFcompare_nan by auto. intuition congruence. }
  destruct (nan_or_not (Prim2SF y)) as [Ey|Ey].
  { rewrite SFcompare_nan by auto. intuition congruence. }
  destruct (SFcompare_cases _ _ Ex Ey) as [[-> Hl]|[[-> Hl]|[-> Hl]]];
    unfold lt3 in *; intuition (try discriminate; try lia).
  all: rewrite Hl in *; lia.
Qed.

Lemma leb_true (x y : float) :
  PrimFloat.leb x y = true <-> is_num x /\ is_num y /\ ~ lt3 (key y) (key x).
Proof.
  rewrite FloatAxioms.leb_spec. unfold SFleb, is_num, key.
  destruct (nan_or_not (Prim2SF x)) as [Ex|Ex].
  { rewrite SFcompare_nan by auto. intuition congruence. }
  destruct (nan_or_not (Prim2SF y)) as [Ey|Ey].
  { rewrite SFcompare_nan by auto. intuition congruence. }
  destruct (SFcompare_cases _ _ Ex Ey) as [[-> Hl]|[[-> Hl]|[-> Hl]]];
    unfold lt3 in *; intuition (try discriminate; try lia).
  all: rewrite Hl in *; lia.
Qed.

Lemma ltb_false (x y : float) :
  PrimFloat.ltb x y = false <-> ~ (is_num x /\ is_num y /\ lt3 (key x) (key y)).
Proof. rewrite <- ltb_true. destruct (PrimFloat.ltb x y); intuition congruence. Qed.

Lemma leb_false (x y : float) :
  PrimFloat.leb x y = false <-> ~ (is_num x /\ is_num y /\ ~ lt3 (key y) (key x)).
Proof. rewrite <- leb_true. destruct (PrimFloat.leb x y); intuition congruence. Qed.

Lemma lt3_dec (a b : Z * Z * Z) : lt3 a b \/ ~ lt3 a b.
Proof. unfold lt3. lia. Qed.

Lemma is_num_dec (x : float) : is_num x \/ ~ is_num x.
Proof. unfold is_num. destruct (nan_or_not (Prim2SF x)); auto. Qed.

Ltac order_solve :=
  rewrite ?ltb_true, ?ltb_false, ?leb_true, ?leb_false, ?is_nan_false in *;
  unfold lt3 in *; intuition lia.

(** The five facts the scan of [argmin] rests on. *)
Lemma min_replaced_lt (mp x y : float) :
  PrimFloat.is_nan mp = false -> PrimFloat.leb mp x = false ->
  PrimFloat.ltb y mp = false -> PrimFloat.ltb y x = false.
Proof. order_solve. Qed.

Lemma min_replaced_le (mp x y : float) :
  PrimFloat.is_nan mp = false -> PrimFloat.leb mp x = false ->
  PrimFloat.ltb y mp = false -> PrimFloat.leb y x = false.
Proof. order_solve. Qed.

Lemma ltb_irrefl (x : float) : PrimFloat.ltb x x = false.
Proof. order_solve. Qed.

Lemma min_kept (mp x : float) :
  PrimFloat.leb mp x = true -> PrimFloat.ltb x mp = false.
Proof. order_solve. Qed.

Lemma nothing_below_nan (mp x : float) :
  PrimFloat.is_nan mp = true -> PrimFloat.ltb x mp = false.
Proof.
  intros H. apply is_nan_spec in H. apply ltb_false. unfold is_num. tauto.
Qed.

(** Among numbers the order is total. *)
Lemma not_ltb_leb (x m : float) :
  PrimFloat.is_nan x = false -> PrimFloat.is_nan m = false ->
  PrimFloat.ltb x m = false -> PrimFloat.leb m x = true.
Proof. order_solve. Qed.

Lemma not_leb_ltb (x m : float) :
  PrimFloat.is_nan x = false -> PrimFloat.is_nan m = false ->
  PrimFloat.leb x m = false -> PrimFloat.ltb m x = true.
Proof. order_solve. Qed.

End FloatOrder.

(** ** The bounding-box resolver *)

Section Argmin.

Import FloatOrder.

Lemma scan_inv_first (x : float) : scan_inv [x] x 0.
Proof.
  split; [reflexivity|]. split.
  - intros [|j] y Hy; simpl in Hy; [|by rewrite lookup_nil in Hy].
    injection Hy as <-. apply ltb_irrefl.
  - intros j y Hj. lia.
Qed.

Lemma argmin_scan_inv (ip : list float) :
  forall (pre : list float) (mp : float) (mi : nat),
    scan_inv pre mp mi ->
    exists m, scan_inv (pre ++ ip) m (Np.argmin_scan ip (length pre) mp mi).
Proof.
  induction ip as [|x ip IH]; intros pre mp mi (Hmi & Hlt & Hle).
  - rewrite app_nil_r. exists mp. by repeat split.
  - pose proof (lookup_lt_Some _ _ _ Hmi) as Hlen. simpl.
    destruct (PrimFloat.is_nan mp) eqn:Hnan.
    { exists mp. split; [by rewrite lookup_app_l|]. split.
      - intros j y _. by apply nothing_below_nan.
      - intros j y Hj Hy. rewrite lookup_app_l in Hy by lia. eauto. }
    replace (pre ++ x :: ip) with ((pre ++ [x]) ++ ip) by by rewrite <- app_assoc.
    replace (S (length pre)) with (length (pre ++ [x])) by (rewrite length_app; simpl; lia).
    destruct (PrimFloat.leb mp x) eqn:Hcmp; simpl.
    + apply IH. split; [by rewrite lookup_app_l|]. split.
      * intros j y Hy. apply lookup_app_Some in Hy as [Hy|[_ Hy]]; [eauto|].
        apply list_lookup_singleton_Some in Hy as [_ <-]. by apply min_kept.
      * intros j y Hj Hy. rewrite lookup_app_l in Hy by lia. eauto.
    + apply IH. split; [by rewrite list_lookup_middle|]. split.
      * intros j y Hy. apply lookup_app_Some in Hy as [Hy|[_ Hy]].
        -- eapply min_replaced_lt; eauto.
        -- apply list_lookup_singleton_Some in Hy as [_ <-]. apply ltb_irrefl.
      * intros j y Hj Hy. rewrite lookup_app_l in Hy by lia.
        eapply min_replaced_le; eauto.
Qed.

(** [argmin] returns a position of the array, and the element there is the
    first minimum. *)
Lemma argmin_elim (a : list float) :
  a <> [] ->
  exists (i : nat) (m : float),
    Np.argmin a = Ok (Z.of_nat i) /\ scan_inv a m i.
Proof.
  destruct a as [|x a]; [congruence|]. intros _.
  destruct (argmin_scan_inv a [x] x 0%nat (scan_inv_first x)) as [m Hm].
  exists (Np.argmin_scan a 1 x 0), m. split; [reflexivity|exact Hm].
Qed.

Lemma abs_diff_lookup (a : list float) (b : float) (j : nat) :
  Np.abs_diff a b !! j = (fun x => Np.distance x b) <$> a !! j.
Proof.
  unfold Np.abs_diff. rewrite !list_lookup_fmap. by destruct (a !! j).
Qed.

End Argmin.

(** C2: on a non-empty coordinate array the resolver returns a position [i]
    of the array such that no coordinate is nearer to the bound than the one
    at [i] and every coordinate before [i] is farther (distances and
    comparisons being those of binary64, and a distance that is not a number
    comparing as neither smaller nor equal); when all distances are numbers
    this is the first coordinate of minimal distance.  The lower bounds
    (south, west) are [i], the upper bounds (north, east) are [i + 1]. *)
Theorem bounding_box_nearest (coords : list float) (bound : float) :
  coords <> [] ->
  exists (i : nat) (c : float),
    coords !! i = Some c /\
    IdxSouth coords bound = Ok (Z.of_nat i) /\
    IdxWest coords bound = Ok (Z.of_nat i) /\
    IdxNorth coords bound = Ok (Z.of_nat i + 1) /\
    IdxEast coords bound = Ok (Z.of_nat i + 1) /\
    (forall j x, coords !! j = Some x ->
       PrimFloat.ltb (Np.distance x bound) (Np.distance c bound) = false) /\
    (forall j x, (j < i)%nat -> coords !! j = Some x ->
       PrimFloat.leb (Np.distance x bound) (Np.distance c bound) = false) /\
    (Forall (fun x => PrimFloat.is_nan (Np.distance x bound) = false) coords ->
     (forall j x, coords !! j = Some x ->
        PrimFloat.leb (Np.distance c bound) (Np.distance x bound) = true) /\
     (forall j x, (j < i)%nat -> coords !! j = Some x ->
        PrimFloat.ltb (Np.distance c bound) (Np.distance x bound) = true)).
Proof.
  intros Hne.
  destruct (argmin_elim (Np.abs_diff coords bound)) as (i & m & Harg & Hi & Hlt & Hle).
  { unfold Np.abs_diff. by destruct coords. }
  rewrite abs_diff_lookup in Hi.
  destruct (coords !! i) as [c|] eqn:Hc; [|discriminate]. simpl in Hi. injection Hi as <-.
  assert (Hlt' : forall j x, coords !! j = Some x ->
            PrimFloat.ltb (Np.distance x bound) (Np.distance c bound) = false).
  { intros j x Hx. apply (Hlt j). by rewrite abs_diff_lookup, Hx. }
  assert (Hle' : forall j x, (j < i)%nat -> coords !! j = Some x ->
            PrimFloat.leb (Np.distance x bound) (Np.distance c bound) = false).
  { intros j x Hj Hx. apply (Hle j); [exact Hj|]. by rewrite abs_diff_lookup, Hx. }
  exists i, c. unfold IdxSouth, IdxWest, IdxNorth, IdxEast. rewrite Harg.
  repeat (split; [done|]).
  intros Hnum. rewrite Forall_forall in Hnum.
  assert (Hin : forall j x, coords !! j = Some x ->
            PrimFloat.is_nan (Np.distance x bound) = false).
  { intros j x Hx. apply Hnum. eapply list_elem_of_lookup_2, Hx. }
  split.
  - intros j x Hx. apply FloatOrder.not_ltb_leb; eauto.
  - intros j x Hj Hx. apply FloatOrder.not_leb_ltb; eauto.
Qed.

Lemma bounding_box_nearest_witness :
  exists (i : nat) (c : float),
    [0.25; 0.75; 1.25; 1.75]%float !! i = Some c /\
    IdxSouth [0.25; 0.75; 1.25; 1.75]%float 1%float = Ok (Z.of_nat i) /\
    IdxWest [0.25; 0.75; 1.25; 1.75]%float 1%float = Ok (Z.of_nat i) /\
    IdxNorth [0.25; 0.75; 1.25; 1.75]%float 1%float = Ok (Z.of_nat i + 1) /\
    IdxEast [0.25; 0.75; 1.25; 1.75]%float 1%float = Ok (Z.of_nat i + 1) /\
    (forall j x, [0.25; 0.75; 1.25; 1.75]%float !! j = Some x ->
       PrimFloat.ltb (Np.distance x 1%float) (Np.distance c 1%float) = false) /\
    (forall j x, (j < i)%nat -> [0.25; 0.75; 1.25; 1.75]%float !! j = Some x ->
       PrimFloat.leb (Np.distance x 1%float) (Np.distance c 1%float) = false) /\
    (Forall (fun x => PrimFloat.is_nan (Np.distance x 1%float) = false)
            [0.25; 0.75; 1.25; 1.75]%float ->
     (forall j x, [0.25; 0.75; 1.25; 1.75]%float !! j = Some x ->
        PrimFloat.leb (Np.distance c 1%float) (Np.distance x 1%float) = true) /\
     (forall j x, (j < i)%nat -> [0.25; 0.75; 1.25; 1.75]%float !! j = Some x ->
        PrimFloat.ltb (Np.distance c 1%float) (Np.distance x 1%float) = true)).
Proof.
  apply (bounding_box_nearest [0.25; 0.75; 1.25; 1.75]%float 1%float). discriminate.
Defined.

(** On a tie the first of the two nearest coordinates is taken: 0.75 and
    1.25 are equally far from 1. *)
Example bounding_box_tie :
  IdxSouth [0.25; 0.75; 1.25; 1.75]%float 1%float = Ok 1 /\
  IdxNorth [0.25; 0.75; 1.25; 1.75]%float 1%float = Ok 2.
Proof. split; reflexivity. Qed.

(** ** Sums of integers in binary64 *)

Section Exact.

Lemma digits2_size (p : positive) : digits2_pos p = Pos.size p.
Proof. induction p; simpl; congruence. Qed.



















End Exact.

(** ** The clipper *)

Section Clipper.

Lemma bind_run {A B} (m : M A) (k : A -> M B) (fs : FS) :
  (m ≫= k) fs =
  match m fs with
  | (Ok a, fs') => k a fs'
  | (Raise e, fs') => (Raise e, fs')
  end.
Proof. reflexivity. Qed.

Lemma getvar_data (Data : Dataset) (name : string) (a : ndarray) :
  var_data Data name = Some a ->
  exists v, getvar Data name = Ok v /\ ncdata v = a.
Proof.
  unfold var_data, getvar. destruct (variables Data !! name) as [v|]; [|discriminate].
  simpl. intros [= <-]. by exists v.
Qed.

Lemma wrap_int64_id (z : Z) : int64 z -> wrap_int64 z = z.
Proof.
  unfold int64, wrap_int64. intros H.
  rewrite Z.mod_small by lia. lia.
Qed.

Lemma map_wrap_int64 (l : list Z) : Forall int64 l -> map wrap_int64 l = l.
Proof.
  induction 1 as [|z l Hz _ IH]; simpl; [reflexivity|].
  by rewrite wrap_int64_id, IH.
Qed.

Lemma getvar_lookup (Data : Dataset) (name : string) (a : ndarray) :
  var_data Data name = Some a ->
  exists v, variables Data !! name = Some v /\ ncdata v = a.
Proof.
  unfold var_data. destruct (variables Data !! name) as [v|]; [|discriminate].
  simpl. intros [= <-]. by exists v.
Qed.

Lemma update_var_run (path name : string) (f : option ncvar -> ncvar) (d : Dataset) (fs : FS) :
  fs !! path = Some (NcFile d) ->
  Nc.update_var path name f fs =
  (Ok tt, <[path := NcFile (mk_Dataset (<[name := f (variables d !! name)]> (variables d)))]> fs).
Proof. intros H. unfold Nc.update_var. rewrite H. reflexivity. Qed.

(** Creating a variable, naming its units and storing its data, on an
    open dataset, and what follows. *)
Lemma write_variable_then {B} (path name units : string) (blank stored : ndarray)
    (data : masked_array) (store : masked_array -> result ndarray)
    (d : Dataset) (fs : FS) (k : M B) :
  fs !! path = Some (NcFile d) ->
  store data = Ok stored ->
  (Nc.createVariable path name blank;;
   Nc.setncattr path name "units" units;;
   Nc.assign path name store data;;
   k) fs =
  k (<[path := NcFile (mk_Dataset (<[name := mk_ncvar {["units" := units]} default_masked stored]>
                                     (variables d)))]> fs).
Proof.
  intros Hfs Hstore.
  unfold Nc.createVariable, Nc.setncattr, Nc.assign.
  rewrite bind_run, (update_var_run _ _ _ _ _ Hfs).
  rewrite bind_run. erewrite update_var_run by apply lookup_insert_eq.
  rewrite !bind_run. unfold lift. rewrite Hstore.
  erewrite update_var_run by apply lookup_insert_eq.
  simpl. rewrite !lookup_insert_eq, !insert_insert_eq. simpl.
  rewrite insert_empty. reflexivity.
Qed.

Lemma write_variable (path name units : string) (blank stored : ndarray)
    (data : masked_array) (store : masked_array -> result ndarray)
    (d : Dataset) (fs : FS) :
  fs !! path = Some (NcFile d) ->
  store data = Ok stored ->
  (Nc.createVariable path name blank;;
   Nc.setncattr path name "units" units;;
   Nc.assign path name store data) fs =
  (Ok tt,
   <[path := NcFile (mk_Dataset (<[name := mk_ncvar {["units" := units]} default_masked stored]>
                                    (variables d)))]> fs).
Proof.
  intros Hfs Hstore.
  unfold Nc.createVariable, Nc.setncattr, Nc.assign.
  rewrite bind_run, (update_var_run _ _ _ _ _ Hfs).
  rewrite bind_run. erewrite update_var_run by apply lookup_insert_eq.
  rewrite bind_run. unfold lift. rewrite Hstore.
  erewrite update_var_run by apply lookup_insert_eq.
  simpl. rewrite !lookup_insert_eq, !insert_insert_eq. simpl.
  rewrite insert_empty. reflexivity.
Qed.

(** What the stores make of the arrays read from a grid dataset. *)
Lemma store_int1_read (v : ncvar) (time : list Z) :
  ncdata v = NdInt1 time -> Forall int64 time ->
  store_int1 (read v) = Ok (NdInt1 (map (stored_int (ncmasked v)) time)).
Proof.
  intros Hv Hint. unfold read. rewrite Hv. simpl. do 2 f_equal.
  rewrite map_map. apply Forall_fmap_ext_1. eapply Forall_impl; [exact Hint|].
  intros z Hz. unfold mask_int, stored_int.
  destruct (ncmasked v (Int z)); simpl; [reflexivity|by apply wrap_int64_id].
Qed.

Lemma default_mask_float (v : ncvar) (l : list float) :
  map (default default_fill_float) (map (mask_float v) l) = map (stored_float (ncmasked v)) l.
Proof.
  rewrite map_map. apply map_ext. intros x. unfold mask_float, stored_float.
  by destruct (ncmasked v (Float x)).
Qed.

Lemma store_float1_slice (v : ncvar) (a : list float) (lo hi : Z) :
  ncdata v = NdFloat1 a ->
  store_float1 (slice1 v lo hi) =
  Ok (NdFloat1 (map (stored_float (ncmasked v)) (slice a lo hi))).
Proof.
  intros Hv. unfold slice1. rewrite Hv. simpl. by rewrite default_mask_float.
Qed.

Lemma concat_concat_map {A B} (f : A -> B) (a : list (list (list A))) :
  List.concat (List.concat (map (map (map f)) a)) = map f (List.concat (List.concat a)).
Proof. by rewrite <- !concat_map. Qed.

Lemma store_float3_slice (v : ncvar) (rainf : list (list (list float))) (s0 s1 w0 w1 : Z) :
  ncdata v = NdFloat3 rainf ->
  slice3 v s0 s1 w0 w1 ≫= store_float3 =
  Ok (NdFloat3
        match List.concat (List.concat (window rainf w0 w1 s1 s0)) with
        | [] => []
        | _ => map (map (map (stored_float (ncmasked v)))) (window rainf w0 w1 s1 s0)
        end).
Proof.
  intros Hv. unfold slice3. rewrite Hv. simpl.
  assert (Hw : map (fun plane => map (fun row => map (mask_float v) (slice row w0 w1))
                                     (slice plane s0 s1)) rainf =
               map (map (map (mask_float v))) (window rainf w0 w1 s1 s0)).
  { unfold window. rewrite map_map. apply map_ext. intros plane. by rewrite map_map. }
  rewrite Hw, concat_concat_map.
  destruct (List.concat (List.concat (window rainf w0 w1 s1 s0))) as [|x l]; simpl; [reflexivity|].
  do 2 f_equal. rewrite map_map. apply map_ext. intros plane.
  rewrite map_map. apply map_ext. intros row. apply default_mask_float.
Qed.

(** The run of the clipper on a dataset with the four variables of a
    grid, for any window. *)
Lemma clipper_run_vars (Path FileClipped : string) (FileRaw : Dataset)
    (IdxWest IdxEast IdxNorth IdxSouth : Z) (fs : FS)
    time lon lat rainf :
  var_data FileRaw "time" = Some (NdInt1 time) ->
  var_data FileRaw "lon" = Some (NdFloat1 lon) ->
  var_data FileRaw "lat" = Some (NdFloat1 lat) ->
  var_data FileRaw "Rainf" = Some (NdFloat3 rainf) ->
  Forall int64 time ->
  WFDE5NetCDFClipper Path FileRaw IdxWest IdxEast IdxNorth IdxSouth FileClipped fs =
  (Ok tt,
   <[FileClipped :=
       NcFile (clipped (var_masked FileRaw "time") (var_masked FileRaw "lon")
                 (var_masked FileRaw "lat") (var_masked FileRaw "Rainf")
                 time lon lat rainf IdxWest IdxEast IdxNorth IdxSouth)]> fs).
Proof.
  intros Ht Hlon Hlat Hvar Hint.
  apply getvar_lookup in Ht as (vt & Ht & Et), Hlon as (vlon & Hlon & Elon),
    Hlat as (vlat & Hlat & Elat), Hvar as (vr & Hvar & Er).
  unfold var_masked. rewrite Ht, Hlon, Hlat, Hvar.
  assert (Gt : getvar FileRaw "time" = Ok vt) by (unfold getvar; by rewrite Ht).
  assert (Glon : getvar FileRaw "lon" = Ok vlon) by (unfold getvar; by rewrite Hlon).
  assert (Glat : getvar FileRaw "lat" = Ok vlat) by (unfold getvar; by rewrite Hlat).
  assert (Gvar : getvar FileRaw "Rainf" = Ok vr) by (unfold getvar; by rewrite Hvar).
  unfold WFDE5NetCDFClipper.
  rewrite bind_run. unfold lift at 1. rewrite Gt.
  rewrite bind_run. unfold lift at 1. rewrite Glon.
  rewrite bind_run. unfold lift at 1. rewrite Glat.
  rewrite bind_run. unfold lift at 1. rewrite Gvar.
  pose proof (store_float3_slice vr rainf IdxSouth IdxNorth IdxWest IdxEast Er) as Hstore.
  destruct (slice3 vr IdxSouth IdxNorth IdxWest IdxEast) as [w|e] eqn:Hslice;
    [|discriminate Hstore].
  rewrite bind_run. unfold lift at 1.
  rewrite bind_run. unfold Nc.create at 1.
  set (fs0 := <[FileClipped := NcFile Nc.empty]> fs).
  assert (H0 : fs0 !! FileClipped = Some (NcFile Nc.empty)) by apply lookup_insert_eq.
  erewrite write_variable_then; [|exact H0|by apply store_int1_read].
  erewrite write_variable_then; [|apply lookup_insert_eq|by apply store_float1_slice].
  erewrite write_variable_then; [|apply lookup_insert_eq|by apply store_float1_slice].
  erewrite write_variable; [|apply lookup_insert_eq|exact Hstore].
  subst fs0. rewrite !insert_insert_eq. reflexivity.
Qed.

Lemma clipper_run (Path FileClipped : string) (FileRaw : Dataset)
    (IdxWest IdxEast IdxNorth IdxSouth : Z) (fs : FS)
    time lon lat rainf :
  is_grid FileRaw "Rainf" "lon" "lat" time lon lat rainf ->
  WFDE5NetCDFClipper Path FileRaw IdxWest IdxEast IdxNorth IdxSouth FileClipped fs =
  (Ok tt,
   <[FileClipped :=
       NcFile (clipped (var_masked FileRaw "time") (var_masked FileRaw "lon")
                 (var_masked FileRaw "lat") (var_masked FileRaw "Rainf")
                 time lon lat rainf IdxWest IdxEast IdxNorth IdxSouth)]> fs).
Proof. intros [Ht Hlon Hlat Hvar Hint _]. by apply clipper_run_vars. Qed.

(** A slice whose bounds lie within the sequence holds the elements from
    [lo] up to, not including, [hi]. *)
Lemma slice_within {A} (l : list A) (lo hi : Z) :
  0 <= lo <= hi -> hi <= Z.of_nat (length l) ->
  length (slice l lo hi) = Z.to_nat (hi - lo) /\
  forall k : nat, (k < Z.to_nat (hi - lo))%nat ->
    slice l lo hi !! k = l !! (Z.to_nat lo + k)%nat.
Proof.
  intros Hlo Hhi. unfold slice, clamp_index.
  destruct (Z.ltb_spec lo 0), (Z.ltb_spec hi 0); try lia.
  rewrite !Z.min_l by lia. split.
  - rewrite length_take, length_drop. lia.
  - intros k Hk. rewrite lookup_take_lt by exact Hk. apply lookup_drop.
Qed.

Lemma clamp_index_min (len i : Z) :
  0 <= len -> clamp_index len (Z.min i len) = clamp_index len i.
Proof.
  intros Hlen. unfold clamp_index.
  destruct (Z.ltb_spec (Z.min i len) 0), (Z.ltb_spec i 0); lia.
Qed.

(** A bound past the end of the sequence acts as the end. *)
Lemma slice_clamped {A} (l : list A) (lo hi : Z) :
  slice l lo hi =
  slice l (Z.min lo (Z.of_nat (length l))) (Z.min hi (Z.of_nat (length l))).
Proof. unfold slice. rewrite !clamp_index_min by lia. reflexivity. Qed.

Lemma at3_window (rainf : list (list (list float))) (T L O : nat)
    (west east south north : Z) (t i j : nat) :
  has_shape rainf T L O ->
  0 <= west <= east -> east <= Z.of_nat O ->
  0 <= south <= north -> north <= Z.of_nat L ->
  (i < Z.to_nat (north - south))%nat -> (j < Z.to_nat (east - west))%nat ->
  at3 (window rainf west east north south) t i j =
  at3 rainf t (Z.to_nat south + i) (Z.to_nat west + j).
Proof.
  intros [_ Hshape] Hw He Hs Hn Hi Hj. unfold at3, window.
  rewrite list_lookup_fmap.
  destruct (rainf !! t) as [plane|] eqn:Hplane; simpl; [|reflexivity].
  rewrite Forall_forall in Hshape.
  destruct (Hshape plane) as [Hlen Hrows]; [eapply list_elem_of_lookup_2, Hplane|].
  rewrite list_lookup_fmap.
  destruct (slice_within plane south north) as [_ Hsl]; [lia..|].
  rewrite Hsl by exact Hi.
  destruct (plane !! (Z.to_nat south + i)%nat) as [row|] eqn:Hrow; simpl; [|reflexivity].
  rewrite Forall_forall in Hrows.
  pose proof (Hrows row (list_elem_of_lookup_2 _ _ _ Hrow)) as Hrl.
  destruct (slice_within row west east) as [_ Hsr]; [lia..|].
  by apply Hsr.
Qed.

Lemma window_shape (rainf : list (list (list float))) (T L O : nat)
    (west east south north : Z) :
  has_shape rainf T L O ->
  0 <= west <= east -> east <= Z.of_nat O ->
  0 <= south <= north -> north <= Z.of_nat L ->
  has_shape (window rainf west east north south)
            T (Z.to_nat (north - south)) (Z.to_nat (east - west)).
Proof.
  intros [HT Hshape] Hw He Hs Hn. split; [unfold window; by rewrite length_map|].
  unfold window. rewrite Forall_fmap. eapply Forall_impl; [exact Hshape|].
  intros plane [Hlen Hrows]. simpl. split.
  - rewrite length_map. apply slice_within; lia.
  - rewrite Forall_fmap. apply Forall_forall. intros row Hrow. simpl.
    assert (Hin : row ∈ plane).
    { unfold slice in Hrow. eapply subseteq_drop, subseteq_take, Hrow. }
    rewrite Forall_forall in Hrows. apply slice_within; [lia|].
    rewrite (Hrows row Hin). lia.
Qed.

Lemma at3_map (f : float -> float) (a : list (list (list float))) (t i j : nat) :
  at3 (map (map (map f)) a) t i j = f <$> at3 a t i j.
Proof.
  unfold at3. rewrite list_lookup_fmap.
  destruct (a !! t) as [plane|]; simpl; [|reflexivity].
  rewrite list_lookup_fmap.
  destruct (plane !! i) as [row|]; simpl; [|reflexivity].
  apply list_lookup_fmap.
Qed.

Lemma has_shape_map (f : float -> float) (a : list (list (list float))) (T L O : nat) :
  has_shape a T L O -> has_shape (map (map (map f)) a) T L O.
Proof.
  intros [HT Hshape]. split; [by rewrite length_map|].
  rewrite Forall_fmap. eapply Forall_impl; [exact Hshape|].
  intros plane [Hlen Hrows]. simpl. split; [by rewrite length_map|].
  rewrite Forall_fmap. eapply Forall_impl; [exact Hrows|].
  intros row Hrow. simpl. by rewrite length_map.
Qed.

(** An array with an axis of length 0 has no element, and only such an
    array. *)
Lemma has_shape_no_element (a : list (list (list float))) (T L O : nat) :
  has_shape a T L O -> (T = 0 \/ L = 0 \/ O = 0)%nat ->
  List.concat (List.concat a) = [].
Proof.
  intros [HT Hshape] [->|Hzero].
  - apply length_zero_iff_nil in HT. by subst a.
  - apply concat_nil_Forall, List.Forall_concat.
    eapply Forall_impl; [exact Hshape|]. intros plane [Hlen Hrows]. simpl in *.
    destruct Hzero as [->| ->].
    + apply length_zero_iff_nil in Hlen. subst plane. constructor.
    + eapply Forall_impl; [exact Hrows|]. intros row Hrow. by apply length_zero_iff_nil.
Qed.

Lemma has_shape_element (a : list (list (list float))) (T L O : nat) :
  has_shape a T L O -> (0 < T)%nat -> (0 < L)%nat -> (0 < O)%nat ->
  List.concat (List.concat a) <> [].
Proof.
  intros [HT Hshape] HT0 HL0 HO0.
  destruct a as [|plane a]; [simpl in HT; lia|].
  apply Forall_cons in Hshape as [[Hlen Hrows] _].
  destruct plane as [|row plane]; [simpl in Hlen; lia|].
  apply Forall_cons in Hrows as [Hrow _].
  destruct row as [|x row]; [simpl in Hrow; lia|].
  discriminate.
Qed.

End Clipper.

Lemma sample_grid_is_grid :
  is_grid sample_grid "Rainf" "lon" "lat" sample_time sample_lon sample_lat sample_rainf.
Proof.
  split.
  - vm_compute. reflexivity.
  - vm_compute. reflexivity.
  - vm_compute. reflexivity.
  - vm_compute. reflexivity.
  - unfold sample_time.
    repeat (apply List.Forall_cons; [unfold int64; lia|]). apply List.Forall_nil.
  - split; [reflexivity|]. unfold sample_rainf.
    repeat (apply List.Forall_cons;
            [split; [reflexivity|];
             repeat (apply List.Forall_cons; [reflexivity|]); apply List.Forall_nil|]).
    apply List.Forall_nil.
Qed.

Lemma missing_grid_is_grid :
  is_grid missing_grid "Rainf" "lon" "lat" sample_time sample_lon sample_lat missing_rainf.
Proof.
  split.
  - vm_compute. reflexivity.
  - vm_compute. reflexivity.
  - vm_compute. reflexivity.
  - vm_compute. reflexivity.
  - unfold sample_time.
    repeat (apply List.Forall_cons; [unfold int64; lia|]). apply List.Forall_nil.
  - split; [reflexivity|]. unfold missing_rainf.
    repeat (apply List.Forall_cons;
            [split; [reflexivity|];
             repeat (apply List.Forall_cons; [reflexivity|]); apply List.Forall_nil|]).
    apply List.Forall_nil.
Qed.

(** The axes and the variable of the dataset written for a window within
    bounds. *)
Lemma clipped_axis (m : scalar -> bool) (a : list float) (lo hi : Z) :
  0 <= lo <= hi -> hi <= Z.of_nat (length a) ->
  length (map (stored_float m) (slice a lo hi)) = Z.to_nat (hi - lo) /\
  forall (k : nat) (x : float), (k < Z.to_nat (hi - lo))%nat ->
    a !! (Z.to_nat lo + k)%nat = Some x ->
    map (stored_float m) (slice a lo hi) !! k =
    Some (if m (Float x) then 9.969209968386869e36%float else x).
Proof.
  intros Hlo Hhi. destruct (slice_within a lo hi) as [Hlen Hlook]; [lia..|].
  split; [by rewrite length_map|].
  intros k x Hk Hx. rewrite list_lookup_fmap, Hlook, Hx by exact Hk. reflexivity.
Qed.

Lemma clipped_time (m : scalar -> bool) (time : list Z) :
  length (map (stored_int m) time) = length time /\
  forall (k : nat) (z : Z), time !! k = Some z ->
    map (stored_int m) time !! k =
    Some (if m (Int z) then -9223372036854775806 else z).
Proof.
  split; [by rewrite length_map|].
  intros k z Hz. rewrite list_lookup_fmap, Hz. reflexivity.
Qed.

Lemma clipped_rainf (m : scalar -> bool) (rainf : list (list (list float))) (T L O : nat)
    (west east south north : Z) (out : list (list (list float))) :
  has_shape rainf T L O ->
  0 <= west <= east -> east <= Z.of_nat O ->
  0 <= south <= north -> north <= Z.of_nat L ->
  out = match List.concat (List.concat (window rainf west east north south)) with
        | [] => []
        | _ => map (map (map (stored_float m))) (window rainf west east north south)
        end ->
  ((0 < T)%nat -> south < north -> west < east ->
   has_shape out T (Z.to_nat (north - south)) (Z.to_nat (east - west))) /\
  (T = 0%nat \/ south = north \/ west = east -> out = []) /\
  (forall (t i j : nat) (x : float),
     (i < Z.to_nat (north - south))%nat -> (j < Z.to_nat (east - west))%nat ->
     at3 rainf t (Z.to_nat south + i) (Z.to_nat west + j) = Some x ->
     at3 out t i j = Some (if m (Float x) then 9.969209968386869e36%float else x)).
Proof.
  intros Hshape Hw He Hs Hn ->.
  pose proof (window_shape rainf T L O west east south north Hshape Hw He Hs Hn) as Hwin.
  split; [|split].
  - intros HT Hsn Hwe.
    pose proof (has_shape_element _ _ _ _ Hwin) as Hne.
    destruct (List.concat (List.concat (window rainf west east north south)));
      [exfalso; apply Hne; [lia..|reflexivity]|].
    by apply has_shape_map.
  - intros Hzero.
    rewrite (has_shape_no_element _ _ _ _ Hwin); [reflexivity|]. lia.
  - intros t i j x Hi Hj Hx.
    assert (Hat : at3 (window rainf west east north south) t i j = Some x).
    { erewrite at3_window; eauto. }
    destruct (List.concat (List.concat (window rainf west east north south))) eqn:Hc.
    + exfalso. 
      assert (HT : (0 < T)%nat).
      { destruct Hshape as [<- _]. unfold at3 in Hx.
        destruct (rainf !! t) eqn:Hp; [|discriminate].
        apply lookup_lt_Some in Hp. lia. }
      apply (has_shape_element _ _ _ _ Hwin); [lia..|exact Hc].
    + rewrite at3_map, Hat. reflexivity.
Qed.

(** C4 (as amended): within bounds, the clipper writes a dataset whose time
    coordinate is the source's, whose longitudes and latitudes are the
    elements [west .. east - 1] and [south .. north - 1] of the source's, and
    whose variable holds at [t, i, j] the source's value at
    [t, south + i, west + j], except that a value masked in the source is
    stored as the default fill value (9.969209968386869e36, and
    -9223372036854775806 in the time coordinate), and that the variable has
    no plane at all when the window or the time axis is empty; the source is
    only read, and no file but the one written is changed. *)
Theorem clipper_window (Path FileClipped : string) (FileRaw : Dataset)
    (IdxWest IdxEast IdxNorth IdxSouth : Z) (fs : FS)
    (time : list Z) (lon lat : list float) (rainf : list (list (list float))) :
  is_grid FileRaw "Rainf" "lon" "lat" time lon lat rainf ->
  0 <= IdxWest <= IdxEast -> IdxEast <= Z.of_nat (length lon) ->
  0 <= IdxSouth <= IdxNorth -> IdxNorth <= Z.of_nat (length lat) ->
  exists (out : Dataset) (out_time : list Z) (out_lon out_lat : list float)
         (out_rainf : list (list (list float))),
    WFDE5NetCDFClipper Path FileRaw IdxWest IdxEast IdxNorth IdxSouth FileClipped fs =
      (Ok tt, <[FileClipped := NcFile out]> fs) /\
    var_data out "time" = Some (NdInt1 out_time) /\
    var_data out "lon" = Some (NdFloat1 out_lon) /\
    var_data out "lat" = Some (NdFloat1 out_lat) /\
    var_data out "Rainf" = Some (NdFloat3 out_rainf) /\
    length out_time = length time /\
    (forall (k : nat) (z : Z), time !! k = Some z ->
       out_time !! k =
       Some (if var_masked FileRaw "time" (Int z) then -9223372036854775806 else z)) /\
    length out_lon = Z.to_nat (IdxEast - IdxWest) /\
    (forall (k : nat) (x : float), (k < Z.to_nat (IdxEast - IdxWest))%nat ->
       lon !! (Z.to_nat IdxWest + k)%nat = Some x ->
       out_lon !! k =
       Some (if var_masked FileRaw "lon" (Float x)
             then 9.969209968386869e36%float else x)) /\
    length out_lat = Z.to_nat (IdxNorth - IdxSouth) /\
    (forall (k : nat) (x : float), (k < Z.to_nat (IdxNorth - IdxSouth))%nat ->
       lat !! (Z.to_nat IdxSouth + k)%nat = Some x ->
       out_lat !! k =
       Some (if var_masked FileRaw "lat" (Float x)
             then 9.969209968386869e36%float else x)) /\
    ((0 < length time)%nat -> IdxSouth < IdxNorth -> IdxWest < IdxEast ->
     has_shape out_rainf (length time)
       (Z.to_nat (IdxNorth - IdxSouth)) (Z.to_nat (IdxEast - IdxWest))) /\
    (length time = 0%nat \/ IdxSouth = IdxNorth \/ IdxWest = IdxEast -> out_rainf = []) /\
    (forall (t i j : nat) (x : float),
       (i < Z.to_nat (IdxNorth - IdxSouth))%nat -> (j < Z.to_nat (IdxEast - IdxWest))%nat ->
       at3 rainf t (Z.to_nat IdxSouth + i) (Z.to_nat IdxWest + j) = Some x ->
       at3 out_rainf t i j =
       Some (if var_masked FileRaw "Rainf" (Float x)
             then 9.969209968386869e36%float else x)) /\
    (forall p : string, p <> FileClipped ->
       (<[FileClipped := NcFile out]> fs) !! p = fs !! p).
Proof.
  intros Hgrid Hw He Hs Hn.
  eexists _, _, _, _, _.
  split; [by eapply clipper_run|].
  do 4 (split; [reflexivity|]).
  destruct (clipped_time (var_masked FileRaw "time") time) as [Ht1 Ht2].
  destruct (clipped_axis (var_masked FileRaw "lon") lon IdxWest IdxEast) as [Hl1 Hl2];
    [lia..|].
  destruct (clipped_axis (var_masked FileRaw "lat") lat IdxSouth IdxNorth) as [Hl3 Hl4];
    [lia..|].
  destruct (clipped_rainf (var_masked FileRaw "Rainf") rainf _ _ _
              IdxWest IdxEast IdxSouth IdxNorth _
              (grid_shape _ _ _ _ _ _ _ _ Hgrid) Hw He Hs Hn eq_refl) as (Hr1 & Hr2 & Hr3).
  do 4 (split; [assumption|]).
  split; [exact Hl3|]. split; [exact Hl4|].
  split; [exact Hr1|]. split; [exact Hr2|]. split; [exact Hr3|].
  intros p Hp. by apply lookup_insert_ne.
Qed.

Lemma clipper_window_witness :
  exists (out : Dataset) (out_time : list Z) (out_lon out_lat : list float)
         (out_rainf : list (list (list float))),
    WFDE5NetCDFClipper "clipped/" missing_grid 0 2 2 0 "clipped/a_Clip.nc" ∅ =
      (Ok tt, <["clipped/a_Clip.nc" := NcFile out]> ∅) /\
    var_data out "time" = Some (NdInt1 out_time) /\
    var_data out "lon" = Some (NdFloat1 out_lon) /\
    var_data out "lat" = Some (NdFloat1 out_lat) /\
    var_data out "Rainf" = Some (NdFloat3 out_rainf) /\
    length out_time = length sample_time /\
    (forall (k : nat) (z : Z), sample_time !! k = Some z ->
       out_time !! k =
       Some (if var_masked missing_grid "time" (Int z) then -9223372036854775806 else z)) /\
    length out_lon = Z.to_nat (2 - 0) /\
    (forall (k : nat) (x : float), (k < Z.to_nat (2 - 0))%nat ->
       sample_lon !! (Z.to_nat 0 + k)%nat = Some x ->
       out_lon !! k =
       Some (if var_masked missing_grid "lon" (Float x)
             then 9.969209968386869e36%float else x)) /\
    length out_lat = Z.to_nat (2 - 0) /\
    (forall (k : nat) (x : float), (k < Z.to_nat (2 - 0))%nat ->
       sample_lat !! (Z.to_nat 0 + k)%nat = Some x ->
       out_lat !! k =
       Some (if var_masked missing_grid "lat" (Float x)
             then 9.969209968386869e36%float else x)) /\
    ((0 < length sample_time)%nat -> 0 < 2 -> 0 < 2 ->
     has_shape out_rainf (length sample_time) (Z.to_nat (2 - 0)) (Z.to_nat (2 - 0))) /\
    (length sample_time = 0%nat \/ 0 = 2 \/ 0 = 2 -> out_rainf = []) /\
    (forall (t i j : nat) (x : float),
       (i < Z.to_nat (2 - 0))%nat -> (j < Z.to_nat (2 - 0))%nat ->
       at3 missing_rainf t (Z.to_nat 0 + i) (Z.to_nat 0 + j) = Some x ->
       at3 out_rainf t i j =
       Some (if var_masked missing_grid "Rainf" (Float x)
             then 9.969209968386869e36%float else x)) /\
    (forall p : string, p <> "clipped/a_Clip.nc" ->
       (<["clipped/a_Clip.nc" := NcFile out]> (∅ : FS)) !! p = (∅ : FS) !! p).
Proof.
  apply (clipper_window "clipped/" "clipped/a_Clip.nc" missing_grid 0 2 2 0 ∅
           sample_time sample_lon sample_lat missing_rainf missing_grid_is_grid);
    simpl; lia.
Defined.

(** C4 (as stated) fails.  The first cell of the source holds 1e20, the
    fill value of its variable: the clipper stores 9.969209968386869e36
    there, so the variable written is not the slice of the source.  And for
    the window of the latitudes from 1 to 1, which is within bounds, the
    slice of the source has two planes without rows, the variable written
    none. *)
Lemma clipper_rewrites_missing_values :
  (exists (out : Dataset) (out_rainf : list (list (list float))),
     WFDE5NetCDFClipper "clipped/" missing_grid 0 2 2 0 "clipped/a_Clip.nc" ∅ =
       (Ok tt, <["clipped/a_Clip.nc" := NcFile out]> ∅) /\
     var_data out "Rainf" = Some (NdFloat3 out_rainf) /\
     map (fun plane => map (fun row => slice row 0 2) (slice plane 0 2)) missing_rainf =
       [[[1e20; 2]; [4; 5]]; [[7; 8]; [10; 11]]]%float /\
     out_rainf = [[[9.969209968386869e36; 2]; [4; 5]]; [[7; 8]; [10; 11]]]%float /\
     out_rainf <>
       map (fun plane => map (fun row => slice row 0 2) (slice plane 0 2)) missing_rainf) /\
  (exists (out : Dataset) (out_rainf : list (list (list float))),
     WFDE5NetCDFClipper "clipped/" sample_grid 1 3 1 1 "clipped/a_Clip.nc" ∅ =
       (Ok tt, <["clipped/a_Clip.nc" := NcFile out]> ∅) /\
     var_data out "Rainf" = Some (NdFloat3 out_rainf) /\
     map (fun plane => map (fun row => slice row 1 3) (slice plane 1 1)) sample_rainf =
       [[]; []] /\
     out_rainf = [] /\
     out_rainf <>
       map (fun plane => map (fun row => slice row 1 3) (slice plane 1 1)) sample_rainf).
Proof.
  split.
  - eexists _, _.
    split; [apply (clipper_run "clipped/" "clipped/a_Clip.nc" missing_grid 0 2 2 0 ∅
                     sample_time sample_lon sample_lat missing_rainf missing_grid_is_grid)|].
    split; [reflexivity|].
    split; [vm_compute; reflexivity|].
    split; [vm_compute; reflexivity|].
    intros H. apply (f_equal (fun a => Prim2SF <$> at3 a 0 0 0)) in H.
    vm_compute in H. discriminate H.
  - eexists _, _.
    split; [apply (clipper_run "clipped/" "clipped/a_Clip.nc" sample_grid 1 3 1 1 ∅
                     sample_time sample_lon sample_lat sample_rainf sample_grid_is_grid)|].
    split; [reflexivity|].
    split; [vm_compute; reflexivity|].
    split; [vm_compute; reflexivity|].
    intros H. vm_compute in H. discriminate H.
Qed.

(** C7 (as amended): on a grid dataset the clipper never fails, whatever
    the window; it writes the same dataset as for the window whose bounds
    past the end of an axis are replaced by the length of that axis, and the
    axes written hold the part of the window that lies within the source. *)
Theorem clipper_window_clamped (Path FileClipped : string) (FileRaw : Dataset)
    (IdxWest IdxEast IdxNorth IdxSouth : Z) (fs : FS)
    (time : list Z) (lon lat : list float) (rainf : list (list (list float))) :
  is_grid FileRaw "Rainf" "lon" "lat" time lon lat rainf ->
  exists (out : Dataset) (out_lon out_lat : list float),
    WFDE5NetCDFClipper Path FileRaw IdxWest IdxEast IdxNorth IdxSouth FileClipped fs =
      (Ok tt, <[FileClipped := NcFile out]> fs) /\
    WFDE5NetCDFClipper Path FileRaw
      (Z.min IdxWest (Z.of_nat (length lon))) (Z.min IdxEast (Z.of_nat (length lon)))
      (Z.min IdxNorth (Z.of_nat (length lat))) (Z.min IdxSouth (Z.of_nat (length lat)))
      FileClipped fs =
      (Ok tt, <[FileClipped := NcFile out]> fs) /\
    var_data out "lon" = Some (NdFloat1 out_lon) /\
    var_data out "lat" = Some (NdFloat1 out_lat) /\
    (0 <= IdxWest <= IdxEast ->
     length out_lon =
     Z.to_nat (Z.min IdxEast (Z.of_nat (length lon)) - Z.min IdxWest (Z.of_nat (length lon)))) /\
    (0 <= IdxSouth <= IdxNorth ->
     length out_lat =
     Z.to_nat (Z.min IdxNorth (Z.of_nat (length lat)) - Z.min IdxSouth (Z.of_nat (length lat)))).
Proof.
  intros Hgrid.
  eexists _, _, _.
  split; [by eapply clipper_run|].
  split.
  { rewrite (clipper_run _ _ _ _ _ _ _ _ _ _ _ _ Hgrid). do 3 f_equal.
    destruct (grid_shape _ _ _ _ _ _ _ _ Hgrid) as [_ Hshape].
    unfold clipped.
    rewrite <- (slice_clamped lon), <- (slice_clamped lat).
    assert (Hwin : window rainf
                     (Z.min IdxWest (Z.of_nat (length lon)))
                     (Z.min IdxEast (Z.of_nat (length lon)))
                     (Z.min IdxNorth (Z.of_nat (length lat)))
                     (Z.min IdxSouth (Z.of_nat (length lat))) =
                   window rainf IdxWest IdxEast IdxNorth IdxSouth).
    { unfold window. apply Forall_fmap_ext_1. eapply Forall_impl; [exact Hshape|].
      intros plane [Hlen Hrows]. simpl.
      rewrite (slice_clamped plane IdxSouth IdxNorth), Hlen.
      apply Forall_fmap_ext_1. apply Forall_forall. intros row Hrow.
      assert (Hin : row ∈ plane).
      { unfold slice in Hrow. eapply subseteq_drop, subseteq_take, Hrow. }
      rewrite Forall_forall in Hrows.
      rewrite (slice_clamped row IdxWest IdxEast), (Hrows row Hin). reflexivity. }
    rewrite Hwin. reflexivity. }
  do 2 (split; [reflexivity|]).
  split.
  - intros Hw. rewrite length_map, (slice_clamped lon).
    apply slice_within; lia.
  - intros Hs. rewrite length_map, (slice_clamped lat).
    apply slice_within; lia.
Qed.

Lemma clipper_window_clamped_witness :
  exists (out : Dataset) (out_lon out_lat : list float),
    WFDE5NetCDFClipper "clipped/" sample_grid 1 5 2 0 "clipped/a_Clip.nc" ∅ =
      (Ok tt, <["clipped/a_Clip.nc" := NcFile out]> ∅) /\
    WFDE5NetCDFClipper "clipped/" sample_grid
      (Z.min 1 (Z.of_nat (length sample_lon))) (Z.min 5 (Z.of_nat (length sample_lon)))
      (Z.min 2 (Z.of_nat (length sample_lat))) (Z.min 0 (Z.of_nat (length sample_lat)))
      "clipped/a_Clip.nc" ∅ =
      (Ok tt, <["clipped/a_Clip.nc" := NcFile out]> ∅) /\
    var_data out "lon" = Some (NdFloat1 out_lon) /\
    var_data out "lat" = Some (NdFloat1 out_lat) /\
    (0 <= 1 <= 5 ->
     length out_lon =
     Z.to_nat (Z.min 5 (Z.of_nat (length sample_lon)) -
               Z.min 1 (Z.of_nat (length sample_lon)))) /\
    (0 <= 0 <= 2 ->
     length out_lat =
     Z.to_nat (Z.min 2 (Z.of_nat (length sample_lat)) -
               Z.min 0 (Z.of_nat (length sample_lat)))).
Proof.
  apply (clipper_window_clamped "clipped/" "clipped/a_Clip.nc" sample_grid 1 5 2 0 ∅
           sample_time sample_lon sample_lat sample_rainf sample_grid_is_grid).
Defined.

(** C7 (as stated) fails: the east bound 5 lies past the three longitudes of
    the source, and the clipper returns normally, having written a dataset
    with the longitudes from index 1 to the end. *)
Lemma clipper_accepts_window_out_of_range :
  Z.of_nat (length sample_lon) < 5 /\
  exists out : Dataset,
    WFDE5NetCDFClipper "clipped/" sample_grid 1 5 2 0 "clipped/a_Clip.nc" ∅ =
      (Ok tt, <["clipped/a_Clip.nc" := NcFile out]> ∅) /\
    var_data out "lon" = Some (NdFloat1 [-62.75; -62.25]%float).
Proof.
  split; [simpl; lia|].
  eexists.
  split; [apply (clipper_run "clipped/" "clipped/a_Clip.nc" sample_grid 1 5 2 0 ∅
                   sample_time sample_lon sample_lat sample_rainf sample_grid_is_grid)|].
  vm_compute. reflexivity.
Qed.

(** ** The flattener *)

Section Flattener.

Lemma for_each_ok {A B} (f : A -> result B) (g : A -> B) (xs : list A) :
  Forall (fun x => f x = Ok (g x)) xs -> for_each f xs = Ok (map g xs).
Proof.
  induction 1 as [|x xs Hx _ IH]; simpl; [reflexivity|].
  rewrite Hx, IH. reflexivity.
Qed.

Lemma cell_series_ok (v : ncvar) (var : list (list (list float))) (T L O Lat Lon : nat) :
  ncdata v = NdFloat3 var -> has_shape var T L O ->
  (Lat < L)%nat -> (Lon < O)%nat ->
  cell_series v Lat Lon = Ok (raw_series var Lat Lon).
Proof.
  intros Hv [_ Hshape] HLat HLon. unfold cell_series, raw_series. rewrite Hv.
  apply for_each_ok. eapply Forall_impl; [exact Hshape|].
  intros plane [Hlen Hrows]. simpl.
  destruct (lookup_lt_is_Some_2 plane Lat) as [row Hrow]; [lia|].
  rewrite Hrow. simpl.
  rewrite Forall_forall in Hrows.
  pose proof (Hrows row (list_elem_of_lookup_2 _ _ _ Hrow)) as Hrl.
  destruct (lookup_lt_is_Some_2 row Lon) as [x Hx]; [lia|].
  rewrite Hx. reflexivity.
Qed.

Lemma raw_series_lookup (var : list (list (list float))) (T L O Lat Lon t : nat) :
  has_shape var T L O -> (Lat < L)%nat -> (Lon < O)%nat ->
  raw_series var Lat Lon !! t = at3 var t Lat Lon.
Proof.
  intros [_ Hshape] HLat HLon. unfold raw_series, at3.
  rewrite list_lookup_fmap.
  destruct (var !! t) as [plane|] eqn:Hplane; simpl; [|reflexivity].
  rewrite Forall_forall in Hshape.
  destruct (Hshape plane) as [Hlen Hrows]; [eapply list_elem_of_lookup_2, Hplane|].
  destruct (lookup_lt_is_Some_2 plane Lat) as [row Hrow]; [lia|].
  rewrite Hrow. simpl.
  rewrite Forall_forall in Hrows.
  pose proof (Hrows row (list_elem_of_lookup_2 _ _ _ Hrow)) as Hrl.
  destruct (lookup_lt_is_Some_2 row Lon) as [x Hx]; [lia|].
  rewrite Hx. reflexivity.
Qed.

Lemma cells_of_S (NRows NCols : nat) :
  cells_of (S NRows) NCols =
  cells_of NRows NCols ++ map (fun Lon => (NRows, Lon)) (range NCols).
Proof.
  unfold cells_of, range. rewrite seq_S, bind_app. f_equal. simpl.
  rewrite app_nil_r. induction (seq 0 NCols) as [|x xs IH]; [reflexivity|].
  cbn. by f_equal.
Qed.

Lemma cells_of_length (NRows NCols : nat) :
  length (cells_of NRows NCols) = (NRows * NCols)%nat.
Proof.
  induction NRows as [|n IH]; [reflexivity|].
  rewrite cells_of_S, length_app, IH, length_map. unfold range. rewrite length_seq. lia.
Qed.

(** The cell [(Lat, Lon)] is visited at position [Lat * NCols + Lon]. *)
Lemma cells_of_lookup (NRows NCols Lat Lon : nat) :
  (Lat < NRows)%nat -> (Lon < NCols)%nat ->
  cells_of NRows NCols !! (Lat * NCols + Lon)%nat = Some (Lat, Lon).
Proof.
  induction NRows as [|n IH]; intros HLat HLon; [lia|].
  rewrite cells_of_S.
  destruct (decide (Lat = n)) as [->|Hne].
  - rewrite lookup_app_r; rewrite cells_of_length; [|lia].
    replace (n * NCols + Lon - n * NCols)%nat with Lon by lia.
    rewrite list_lookup_fmap. unfold range. rewrite lookup_seq_lt by lia. reflexivity.
  - rewrite lookup_app_l; [apply IH; lia|].
    rewrite cells_of_length. nia.
Qed.

Lemma cells_of_bound (NRows NCols : nat) :
  Forall (fun cell : nat * nat => (cell.1 < NRows)%nat /\ (cell.2 < NCols)%nat)
         (cells_of NRows NCols).
Proof.
  induction NRows as [|n IH]; [constructor|].
  rewrite cells_of_S. apply Forall_app. split.
  - eapply Forall_impl; [exact IH|]. simpl. intros cell [? ?]. lia.
  - rewrite Forall_fmap. apply Forall_forall. intros Lon HLon. simpl.
    unfold range in HLon. apply elem_of_seq in HLon. lia.
Qed.

(** The run of the flattener on a grid dataset. *)
Lemma flattener_run (Data : Dataset) (VariableName LongitudeName LatitudeName Path File : string)
    (UnitConversion : float) (fs : FS) time lon lat var :
  is_grid Data VariableName LongitudeName LatitudeName time lon lat var ->
  NetCDFToSHETRAN Data VariableName LongitudeName LatitudeName Path File UnitConversion fs =
  match assign_index
          (transpose (of_rows (converted_cells UnitConversion var (length lat) (length lon))))
          (map Int time) with
  | Ok df =>
      (Ok df,
       <[Path +:+ File :=
           CsvFile (mk_DataFrame (df_ncols df)
                      (map (fun row : scalar * list float => (LScalar (row.1), row.2))
                           (df_rows df)))]> fs)
  | Raise e => (Raise e, fs)
  end.
Proof.
  intros [Ht Hlon Hlat Hvar Hint Hshape].
  apply getvar_data in Ht as (vt & Ht & Et), Hlon as (vlon & Hlon & Elon),
    Hlat as (vlat & Hlat & Elat), Hvar as (vr & Hvar & Er).
  unfold NetCDFToSHETRAN.
  rewrite bind_run. unfold lift at 1. rewrite Hlon.
  rewrite bind_run. unfold lift at 1. rewrite Hlat.
  assert (Hlen_lon : len vlon = length lon) by (unfold len; by rewrite Elon).
  assert (Hlen_lat : len vlat = length lat) by (unfold len; by rewrite Elat).
  rewrite Hlen_lon, Hlen_lat.
  rewrite bind_run. unfold lift at 1.
  erewrite (for_each_ok _ (fun cell : nat * nat =>
              map Np.round1 (map (fun x => PrimFloat.mul x UnitConversion)
                                 (raw_series var (cell.1) (cell.2))))).
  2:{ fold (cells_of (length lat) (length lon)).
      eapply Forall_impl; [apply cells_of_bound|].
      intros [Lat Lon] [HLat HLon]. simpl in *.
      rewrite Hvar. simpl.
      unfold mbind, result_bind, Py.bind.
      erewrite cell_series_ok by eauto. reflexivity. }
  fold (cells_of (length lat) (length lon)).
  fold (converted_cells UnitConversion var (length lat) (length lon)).
  cbv zeta. unfold mbind, M_bind, lift. rewrite Ht, Et. simpl index_labels.
  cbv iota beta.
  destruct (assign_index _ (map Int time)) as [df|e]; reflexivity.
Qed.

Lemma max_length_uniform (T : nat) (cells : list (list float)) :
  Forall (fun c => length c = T) cells -> cells <> [] ->
  foldr Nat.max 0%nat (map length cells) = T.
Proof.
  induction 1 as [|c cells Hc Hcells IH]; [congruence|]. intros _. simpl.
  destruct cells as [|c' cells']; simpl in *; [lia|].
  rewrite IH by discriminate. lia.
Qed.

Lemma pad_uniform (T : nat) (cells : list (list float)) :
  Forall (fun c => length c = T) cells -> map (pad T) cells = cells.
Proof.
  induction 1 as [|c cells Hc _ IH]; simpl; [reflexivity|].
  rewrite IH. f_equal. unfold pad. rewrite Hc, Nat.sub_diag. apply app_nil_r.
Qed.

Lemma zip_constant {A B} (l : list A) (b : B) (k : nat) :
  zip l (map (fun _ : nat => b) (seq k (length l))) = map (fun a => (a, b)) l.
Proof.
  revert k. induction l as [|a l IH]; intros k; [reflexivity|].
  simpl. f_equal. apply IH.
Qed.

(** Transposing the table of the series and giving it its index. *)
Lemma assign_index_transpose {I} (labels : list I) (T : nat) (cells : list (list float)) :
  Forall (fun c => length c = T) cells ->
  length labels = T ->
  assign_index (transpose (of_rows cells)) labels = Ok (table_of_cells labels T cells).
Proof.
  intros Hcells Hlabels. destruct cells as [|c cells'].
  { (* no series: a table without columns takes the labels *)
    unfold assign_index, transpose, of_rows, nrows, table_of_cells. cbn [df_ncols df_rows].
    simpl. subst T. unfold range. by rewrite zip_constant. }
  assert (Hn : foldr Nat.max 0%nat (map length (c :: cells')) = T)
    by (apply max_length_uniform; [exact Hcells|discriminate]).
  unfold assign_index, transpose, of_rows, nrows, column, values, table_of_cells.
  cbn [df_ncols df_rows]. rewrite Hn, pad_uniform by exact Hcells.
  unfold range. rewrite length_zip, length_seq, Nat.min_id.
  destruct (decide (length (c :: cells') = 0%nat)) as [H0|_]; [discriminate H0|].
  rewrite length_map, length_seq.
  destruct (decide (length labels = T)) as [_|]; [|congruence].
  rewrite map_map. cbn [snd]. rewrite snd_zip by (rewrite length_seq; lia).
  reflexivity.
Qed.

Lemma iloc_table_of_cells {I} (labels : list I) (T : nat) (cells : list (list float))
    (t k : nat) :
  length labels = T ->
  iloc (table_of_cells labels T cells) t k =
  if decide (t < T)%nat then (fun c => default PrimFloat.nan (c !! t)) <$> cells !! k
  else None.
Proof.
  intros Hlabels. unfold iloc, table_of_cells, values. cbn [df_rows].
  rewrite snd_zip by (rewrite length_map; unfold range; rewrite length_seq; lia).
  rewrite list_lookup_fmap. unfold range.
  destruct (decide (t < T)%nat) as [Ht|Ht].
  - rewrite lookup_seq_lt by exact Ht. simpl. apply list_lookup_fmap.
  - rewrite lookup_seq_ge by lia. reflexivity.
Qed.

Lemma converted_cells_uniform (UnitConversion : float) (var : list (list (list float)))
    (NRows NCols : nat) :
  Forall (fun c => length c = length var) (converted_cells UnitConversion var NRows NCols).
Proof.
  unfold converted_cells. rewrite Forall_fmap. apply Forall_forall.
  intros cell _. simpl. unfold raw_series. by rewrite !length_map.
Qed.

(** The value the table holds for cell [(Lat, Lon)] at time step [t]. *)
Lemma iloc_converted_cells (UnitConversion : float) (var : list (list (list float)))
    (labels : list scalar) (T L O Lat Lon t : nat) :
  has_shape var T L O -> length labels = T ->
  (Lat < L)%nat -> (Lon < O)%nat ->
  iloc (table_of_cells labels T (converted_cells UnitConversion var L O)) t (Lat * O + Lon) =
  convert UnitConversion <$> at3 var t Lat Lon.
Proof.
  intros Hshape Hlabels HLat HLon.
  rewrite iloc_table_of_cells by exact Hlabels.
  unfold converted_cells. rewrite list_lookup_fmap.
  rewrite cells_of_lookup by assumption. simpl.
  rewrite !list_lookup_fmap.
  rewrite (raw_series_lookup var T L O) by assumption.
  destruct (decide (t < T)%nat) as [Ht|Ht].
  - destruct (at3 var t Lat Lon) as [x|] eqn:E; [reflexivity|].
    rewrite <- (raw_series_lookup var T L O) in E by assumption.
    apply lookup_ge_None in E. unfold raw_series in E. rewrite length_map in E.
    destruct Hshape as [HT _]. lia.
  - unfold at3. rewrite lookup_ge_None_2; [reflexivity|].
    destruct Hshape as [-> _]. lia.
Qed.

End Flattener.

(** The flattener on a grid dataset. *)
Lemma flattener_table (Data : Dataset)
    (VariableName LongitudeName LatitudeName Path File : string)
    (UnitConversion : float) (fs : FS)
    (time : list Z) (lon lat : list float) (var : list (list (list float))) :
  is_grid Data VariableName LongitudeName LatitudeName time lon lat var ->
  let df := table_of_cells (map Int time) (length time)
              (converted_cells UnitConversion var (length lat) (length lon)) in
  NetCDFToSHETRAN Data VariableName LongitudeName LatitudeName Path File UnitConversion fs =
  (Ok df,
   <[Path +:+ File :=
       CsvFile (mk_DataFrame (df_ncols df)
                  (map (fun row : scalar * list float => (LScalar (row.1), row.2))
                       (df_rows df)))]> fs).
Proof.
  intros Hgrid df.
  rewrite (flattener_run _ _ _ _ _ _ _ _ _ _ _ _ Hgrid).
  destruct (grid_shape _ _ _ _ _ _ _ _ Hgrid) as [HT _].
  rewrite (assign_index_transpose _ (length time)); [reflexivity| |by rewrite length_map].
  rewrite <- HT. apply converted_cells_uniform.
Qed.

Lemma table_of_cells_shape {I} (labels : list I) (T : nat) (cells : list (list float)) :
  length labels = T ->
  shape (table_of_cells labels T cells) = (T, length cells) /\
  index (table_of_cells labels T cells) = labels.
Proof.
  intros Hlabels. unfold shape, nrows, index, table_of_cells. cbn [df_rows df_ncols].
  assert (Hlen : length (map (fun t => map (fun c : list float => default PrimFloat.nan (c !! t)) cells)
                             (range T)) = T).
  { rewrite length_map. unfold range. apply length_seq. }
  split.
  - rewrite length_zip, Hlen, Hlabels, Nat.min_id. reflexivity.
  - apply fst_zip. lia.
Qed.

(** What both statements on the flattener rest on. *)
Lemma flattener_shape_and_order_aux (Data : Dataset)
    (VariableName LongitudeName LatitudeName Path File : string)
    (UnitConversion : float) (fs : FS)
    (time : list Z) (lon lat : list float) (var : list (list (list float))) :
  is_grid Data VariableName LongitudeName LatitudeName time lon lat var ->
  exists df : DataFrame scalar,
    (NetCDFToSHETRAN Data VariableName LongitudeName LatitudeName Path File
       UnitConversion fs).1 = Ok df /\
    shape df = (length time, (length lat * length lon)%nat) /\
    forall Lat Lon t : nat,
      (Lat < length lat)%nat -> (Lon < length lon)%nat ->
      iloc df t (Lat * length lon + Lon) = convert UnitConversion <$> at3 var t Lat Lon.
Proof.
  intros Hgrid. eexists.
  split; [by rewrite (flattener_table _ _ _ _ _ _ _ _ _ _ _ _ Hgrid)|].
  destruct (table_of_cells_shape (map Int time) (length time)
              (converted_cells UnitConversion var (length lat) (length lon))) as [Hs Hi];
    [by rewrite length_map|].
  split; [rewrite Hs; unfold converted_cells; by rewrite length_map, cells_of_length|].
  intros Lat Lon t HLat HLon.
  eapply iloc_converted_cells; eauto using grid_shape. by rewrite length_map.
Qed.

(** C3: for every grid dataset the flattener returns, and writes, a table
    of [L * O] columns and [T] rows whose index is the raw time coordinate
    and whose column [Lat * O + Lon] holds, row by row, the converted series
    of the cell [(Lat, Lon)].  (A grid without cells gives a table of [T]
    rows and no column.) *)
Theorem flattener_shape_and_order (Data : Dataset)
    (VariableName LongitudeName LatitudeName Path File : string)
    (UnitConversion : float) (fs : FS)
    (time : list Z) (lon lat : list float) (var : list (list (list float))) :
  is_grid Data VariableName LongitudeName LatitudeName time lon lat var ->
  exists (df : DataFrame scalar) (fs' : FS),
    NetCDFToSHETRAN Data VariableName LongitudeName LatitudeName Path File UnitConversion fs =
      (Ok df, fs') /\
    fs' !! (Path +:+ File) =
      Some (CsvFile (mk_DataFrame (df_ncols df)
                       (map (fun row : scalar * list float => (LScalar (row.1), row.2))
                            (df_rows df)))) /\
    shape df = (length time, (length lat * length lon)%nat) /\
    index df = map Int time /\
    forall Lat Lon t : nat,
      (Lat < length lat)%nat -> (Lon < length lon)%nat ->
      iloc df t (Lat * length lon + Lon) = convert UnitConversion <$> at3 var t Lat Lon.
Proof.
  intros Hgrid. eexists _, _.
  split; [apply (flattener_table _ _ _ _ _ _ _ _ _ _ _ _ Hgrid)|].
  split; [apply lookup_insert_eq|].
  destruct (table_of_cells_shape (map Int time) (length time)
              (converted_cells UnitConversion var (length lat) (length lon))) as [Hs Hi];
    [by rewrite length_map|].
  split; [rewrite Hs; unfold converted_cells; by rewrite length_map, cells_of_length|].
  split; [exact Hi|].
  intros Lat Lon t HLat HLon.
  eapply iloc_converted_cells; eauto using grid_shape. by rewrite length_map.
Qed.

Lemma flattener_shape_and_order_witness :
  exists (df : DataFrame scalar) (fs' : FS),
    NetCDFToSHETRAN sample_grid "Rainf" "lon" "lat" "clipped/" "a_Clip.csv" 3.6%float ∅ =
      (Ok df, fs') /\
    fs' !! ("clipped/" +:+ "a_Clip.csv") =
      Some (CsvFile (mk_DataFrame (df_ncols df)
                       (map (fun row : scalar * list float => (LScalar (row.1), row.2))
                            (df_rows df)))) /\
    shape df = (length sample_time, (length sample_lat * length sample_lon)%nat) /\
    index df = map Int sample_time /\
    forall Lat Lon t : nat,
      (Lat < length sample_lat)%nat -> (Lon < length sample_lon)%nat ->
      iloc df t (Lat * length sample_lon + Lon) =
      convert 3.6%float <$> at3 sample_rainf t Lat Lon.
Proof.
  apply (flattener_shape_and_order sample_grid "Rainf" "lon" "lat" "clipped/" "a_Clip.csv"
           3.6%float ∅ sample_time sample_lon sample_lat sample_rainf sample_grid_is_grid).
Defined.

Lemma empty_grid_is_grid :
  is_grid empty_grid "Rainf" "lon" "lat" [0] [1%float] [] [[]].
Proof.
  split.
  - vm_compute. reflexivity.
  - vm_compute. reflexivity.
  - vm_compute. reflexivity.
  - vm_compute. reflexivity.
  - apply List.Forall_cons; [unfold int64; lia|apply List.Forall_nil].
  - split; [reflexivity|].
    apply List.Forall_cons; [|apply List.Forall_nil].
    split; [reflexivity|apply List.Forall_nil].
Qed.

(** A grid with one time step and no cell: the table has one row, labelled
    by the time value, and no column, and it is written as it is. *)
Example flattener_empty_grid :
  NetCDFToSHETRAN empty_grid "Rainf" "lon" "lat" "clipped/" "a_Clip.csv" 3.6%float ∅ =
  (Ok (mk_DataFrame 0 [(Int 0, [])]),
   {["clipped/a_Clip.csv" := CsvFile (mk_DataFrame 0 [(LScalar (Int 0), [])])]}).
Proof. vm_compute. reflexivity. Qed.

Lemma hourly48_grid_is_grid :
  is_grid hourly48_grid "Rainf" "lon" "lat" hourly48_time sample_lon sample_lat hourly48_rainf.
Proof.
  split.
  - vm_compute. reflexivity.
  - vm_compute. reflexivity.
  - vm_compute. reflexivity.
  - vm_compute. reflexivity.
  - apply Forall_seqZ. intros z Hz. unfold int64. lia.
  - split; [reflexivity|]. apply Forall_replicate.
    split; [reflexivity|].
    repeat (apply List.Forall_cons; [reflexivity|]). apply List.Forall_nil.
Qed.

(** The binary64 of an integer that fits 63 bits, through the primitive
    conversion. *)
Lemma of_int_of_uint63 (n : Z) :
  0 <= n < 2 ^ 63 -> Np.of_int n = PrimFloat.of_uint63 (Uint63.of_Z n).
Proof.
  intros Hn. unfold Np.of_int.
  rewrite <- (SF2Prim_Prim2SF (PrimFloat.of_uint63 (Uint63.of_Z n))).
  rewrite of_uint63_spec, Uint63.of_Z_spec.
  rewrite Z.mod_small; [reflexivity|]. exact Hn.
Qed.

(** The mantissa of a binary64 has at most 53 bits. *)
Lemma mantissa_bound (y : float) :
  match Prim2SF y with
  | S754_finite _ m _ => Z.pos m < 2 ^ 53
  | _ => True
  end.
Proof.
  pose proof (Prim2SF_valid y) as Hvalid.
  destruct (Prim2SF y) as [s|s| |s m e]; try exact I.
  unfold valid_binary, bounded, canonical_mantissa in Hvalid.
  apply andb_prop in Hvalid as [Hc _]. apply Z.eqb_eq in Hc.
  rewrite digits2_size in Hc.
  assert (Hs : Z.pos (Pos.size m) <= 53).
  { unfold fexp, SpecFloat.emin, prec, emax in Hc. lia. }
  pose proof (Pos.size_gt m) as Hgt. apply Pos2Z.pos_lt_pos in Hgt.
  rewrite Pos2Z.inj_pow in Hgt.
  assert (2 ^ Z.pos (Pos.size m) <= 2 ^ 53) by (apply Z.pow_le_mono_r; lia).
  lia.
Qed.

(** What [rint] returns on a finite value [m * 2^e] that is not integral by
    its exponent: an integer [n] that is nearest to it, the even one when two
    are equally near, with the sign of the argument. *)
Lemma rint_nearest_even (y : float) :
  match Prim2SF y with
  | S754_finite s m e =>
      if e <? 0 then
        exists n : Z,
          0 <= n /\
          2 * Z.abs (Z.pos m - n * 2 ^ (- e)) <= 2 ^ (- e) /\
          (2 * Z.abs (Z.pos m - n * 2 ^ (- e)) = 2 ^ (- e) -> Z.even n = true) /\
          Np.rint y = if s then PrimFloat.opp (PrimFloat.of_uint63 (Uint63.of_Z n))
                      else PrimFloat.of_uint63 (Uint63.of_Z n)
      else Np.rint y = y
  | _ => Np.rint y = y
  end.
Proof.
  pose proof (mantissa_bound y) as Hm.
  unfold Np.rint. destruct (Prim2SF y) as [s|s| |s m e]; try reflexivity.
  destruct (Z.ltb_spec e 0) as [He|He]; destruct (Z.leb_spec 0 e) as [He'|He'];
    try lia; [|reflexivity].
  assert (Hd : 0 < 2 ^ (- e)) by (apply Z.pow_pos_nonneg; lia).
  pose proof (Z.div_mod (Z.pos m) (2 ^ (- e)) ltac:(lia)) as Hdm.
  pose proof (Z.mod_pos_bound (Z.pos m) (2 ^ (- e)) Hd) as Hr.
  assert (Hq : 0 <= Z.pos m / 2 ^ (- e)) by (apply Z.div_pos; lia).
  assert (Hqm : Z.pos m / 2 ^ (- e) <= Z.pos m).
  { apply Z.div_le_upper_bound; [exact Hd|]. nia. }
  assert (H63 : 2 ^ 53 + 1 < 2 ^ 63) by reflexivity.
  cbv zeta.
  generalize dependent (Z.pos m / 2 ^ (- e)). intros q Hdm Hq Hqm.
  generalize dependent (Z.pos m mod 2 ^ (- e)). intros r Hdm Hr.
  generalize dependent (2 ^ (- e)). intros d Hd Hdm Hr.
  destruct (Z.ltb_spec (2 * r) d) as [H1|H1].
  { exists q. split; [exact Hq|]. replace (Z.pos m - q * d) with r by lia.
    split; [lia|]. split; [lia|]. by rewrite of_int_of_uint63 by lia. }
  destruct (Z.ltb_spec d (2 * r)) as [H2|H2].
  { exists (q + 1). split; [lia|]. replace (Z.pos m - (q + 1) * d) with (r - d) by lia.
    split; [lia|]. split; [lia|]. by rewrite of_int_of_uint63 by lia. }
  destruct (Z.even q) eqn:Heven.
  - exists q. split; [exact Hq|]. replace (Z.pos m - q * d) with r by lia.
    split; [lia|]. split; [intros _; exact Heven|]. by rewrite of_int_of_uint63 by lia.
  - exists (q + 1). split; [lia|]. replace (Z.pos m - (q + 1) * d) with (r - d) by lia.
    split; [lia|]. split; [|by rewrite of_int_of_uint63 by lia].
    intros _. replace (q + 1) with (Z.succ q) by lia.
    by rewrite Z.even_succ, <- Z.negb_even, Heven.
Qed.

(** C8: for every cell of a grid the table holds, at every time step, the
    raw value [x] multiplied by the conversion factor and rounded to one
    decimal: with [y] the binary64 product of [x], the factor and ten, the
    value is [n / 10] in binary64 for the integer [n] nearest to [y] (the
    even one on a tie; a [y] that is integral, infinite or no number is
    divided as it is).  The table of a grid of 48 steps, 2 latitudes and 3
    longitudes has shape (48, 6), and with the factor 3.6 the raw value 10
    becomes exactly 36. *)
Theorem flattener_converts (Data : Dataset)
    (VariableName LongitudeName LatitudeName Path File : string)
    (UnitConversion : float) (fs : FS)
    (time : list Z) (lon lat : list float) (var : list (list (list float))) :
  is_grid Data VariableName LongitudeName LatitudeName time lon lat var ->
  exists df : DataFrame scalar,
    (NetCDFToSHETRAN Data VariableName LongitudeName LatitudeName Path File
       UnitConversion fs).1 = Ok df /\
    (forall Lat Lon t : nat,
       (Lat < length lat)%nat -> (Lon < length lon)%nat -> (t < length time)%nat ->
       exists x v : float,
         at3 var t Lat Lon = Some x /\
         iloc df t (Lat * length lon + Lon) = Some v /\
         match Prim2SF (PrimFloat.mul (PrimFloat.mul x UnitConversion) 10%float) with
         | S754_finite s m e =>
             if e <? 0 then
               exists n : Z,
                 0 <= n /\
                 2 * Z.abs (Z.pos m - n * 2 ^ (- e)) <= 2 ^ (- e) /\
                 (2 * Z.abs (Z.pos m - n * 2 ^ (- e)) = 2 ^ (- e) -> Z.even n = true) /\
                 v = PrimFloat.div
                       (if s then PrimFloat.opp (PrimFloat.of_uint63 (Uint63.of_Z n))
                        else PrimFloat.of_uint63 (Uint63.of_Z n))
                       10%float
             else
               v = PrimFloat.div
                     (PrimFloat.mul (PrimFloat.mul x UnitConversion) 10%float) 10%float
         | _ =>
             v = PrimFloat.div
                   (PrimFloat.mul (PrimFloat.mul x UnitConversion) 10%float) 10%float
         end) /\
    (length time = 48%nat -> length lat = 2%nat -> length lon = 3%nat ->
     shape df = (48%nat, 6%nat)) /\
    (UnitConversion = 3.6%float ->
     forall Lat Lon t : nat,
       (Lat < length lat)%nat -> (Lon < length lon)%nat ->
       at3 var t Lat Lon = Some 10%float ->
       iloc df t (Lat * length lon + Lon) = Some 36%float).
Proof.
  intros Hgrid.
  destruct (flattener_shape_and_order_aux Data VariableName LongitudeName LatitudeName Path File
              UnitConversion fs time lon lat var Hgrid) as (df & Hrun & Hshape & Hcell).
  exists df. split; [exact Hrun|].
  split.
  { intros Lat Lon t HLat HLon Ht.
    assert (Hsome : is_Some (at3 var t Lat Lon)).
    { rewrite <- (raw_series_lookup var (length time) (length lat) (length lon))
        by eauto using grid_shape.
      apply lookup_lt_is_Some_2. unfold raw_series. rewrite length_map.
      destruct (grid_shape _ _ _ _ _ _ _ _ Hgrid) as [-> _]. exact Ht. }
    destruct Hsome as [x Hx].
    exists x, (convert UnitConversion x). split; [exact Hx|].
    split; [by rewrite Hcell, Hx|].
    unfold convert, Np.round1.
    pose proof (rint_nearest_even (PrimFloat.mul (PrimFloat.mul x UnitConversion) 10%float))
      as Hrint.
    destruct (Prim2SF (PrimFloat.mul (PrimFloat.mul x UnitConversion) 10%float))
      as [s|s| |s m e]; try (by rewrite Hrint).
    destruct (e <? 0); [|by rewrite Hrint].
    destruct Hrint as (n & Hn & Hnear & Htie & ->). exists n. by repeat split. }
  split.
  { intros HT HL HO. rewrite Hshape, HT, HL, HO. reflexivity. }
  intros -> Lat Lon t HLat HLon Hx. rewrite Hcell, Hx by assumption. vm_compute. reflexivity.
Qed.

Lemma flattener_converts_witness :
  exists df : DataFrame scalar,
    (NetCDFToSHETRAN hourly48_grid "Rainf" "lon" "lat" "clipped/" "a_Clip.csv"
       3.6%float ∅).1 = Ok df /\
    (forall Lat Lon t : nat,
       (Lat < length sample_lat)%nat -> (Lon < length sample_lon)%nat ->
       (t < length hourly48_time)%nat ->
       exists x v : float,
         at3 hourly48_rainf t Lat Lon = Some x /\
         iloc df t (Lat * length sample_lon + Lon) = Some v /\
         match Prim2SF (PrimFloat.mul (PrimFloat.mul x 3.6%float) 10%float) with
         | S754_finite s m e =>
             if e <? 0 then
               exists n : Z,
                 0 <= n /\
                 2 * Z.abs (Z.pos m - n * 2 ^ (- e)) <= 2 ^ (- e) /\
                 (2 * Z.abs (Z.pos m - n * 2 ^ (- e)) = 2 ^ (- e) -> Z.even n = true) /\
                 v = PrimFloat.div
                       (if s then PrimFloat.opp (PrimFloat.of_uint63 (Uint63.of_Z n))
                        else PrimFloat.of_uint63 (Uint63.of_Z n))
                       10%float
             else
               v = PrimFloat.div (PrimFloat.mul (PrimFloat.mul x 3.6%float) 10%float) 10%float
         | _ =>
             v = PrimFloat.div (PrimFloat.mul (PrimFloat.mul x 3.6%float) 10%float) 10%float
         end) /\
    (length hourly48_time = 48%nat -> length sample_lat = 2%nat ->
     length sample_lon = 3%nat -> shape df = (48%nat, 6%nat)) /\
    (3.6%float = 3.6%float ->
     forall Lat Lon t : nat,
       (Lat < length sample_lat)%nat -> (Lon < length sample_lon)%nat ->
       at3 hourly48_rainf t Lat Lon = Some 10%float ->
       iloc df t (Lat * length sample_lon + Lon) = Some 36%float).
Proof.
  apply (flattener_converts hourly48_grid "Rainf" "lon" "lat" "clipped/" "a_Clip.csv"
           3.6%float ∅ hourly48_time sample_lon sample_lat hourly48_rainf
           hourly48_grid_is_grid).
Defined.

(** The scenario of the specification, evaluated: shape (48, 6), 36 in
    the last row of the last column, and in the first row the six raw
    values 10, 0.0123, 2.5, 0.125, 1.23456 and 10 converted with the factor
    3.6 and rounded (0.125 * 3.6 * 10 is 4.5, a tie, and goes to 4). *)
Example flattener_hourly48 :
  match (NetCDFToSHETRAN hourly48_grid "Rainf" "lon" "lat" "clipped/" "a_Clip.csv"
           3.6%float ∅).1 with
  | Ok df =>
      shape df = (48%nat, 6%nat) /\ iloc df 47 5 = Some 36%float /\
      values df !! 0%nat = Some [36; 0; 9; 0.4; 4.4; 36]%float
  | Raise _ => False
  end.
Proof. vm_compute. repeat split; reflexivity. Qed.

(** [rint] rounds ties to the even neighbour and keeps the sign. *)
Example rint_ties :
  map Np.rint [0.5; 1.5; 2.5; -0.5; -2.5; 0.3; 359.99999999999994]%float =
  [0; 2; 2; -0; -2; 0; 360]%float.
Proof. vm_compute. reflexivity. Qed.

(** The conversion factor of the script is 3600. *)
Example UnitConversion_value : UnitConversion = 3600%float.
Proof. vm_compute. reflexivity. Qed.

(** ** The merger *)

Section Merger.

Lemma hours_from_seqZ (t : Timestamp) (n : nat) :
  hours_from t n = seqZ t (Z.of_nat n).
Proof.
  revert t. induction n as [|n IH]; intros t; [reflexivity|].
  rewrite seqZ_cons by lia. cbn [hours_from]. rewrite IH.
  do 2 f_equal; lia.
Qed.

(** The calendar has 973009 hourly stamps, the first at the epoch. *)
Lemma DateIndex_seqZ : DateIndex = seqZ 0 973009.
Proof.
  unfold DateIndex, date_range_H. rewrite hours_from_seqZ.
  rewrite Z2Nat.id by (vm_compute; discriminate).
  apply (f_equal (seqZ 0)). vm_compute. reflexivity.
Qed.



(** The steps of [MdfHourly] once the tables are concatenated and the first
    and last raw time values are known. *)
Lemma MdfHourly_run (DfList : list (DataFrame Z)) (C : DataFrame Z) (first last_ : Z) :
  concat DfList = Ok C ->
  head (index (sort_index C)) = Some first ->
  last (index (sort_index C)) = Some last_ ->
  MdfHourly DfList =
  assign_index (sort_index C) (slice DateIndex first (wrap_int64 (last_ + 1))).
Proof.
  intros HC Hfirst Hlast. unfold MdfHourly.
  unfold mbind, result_bind, Py.bind. rewrite HC, Hfirst, Hlast. reflexivity.
Qed.

Lemma assign_index_ok {I J} (df : DataFrame I) (labels : list J) (df' : DataFrame J) :
  assign_index df labels = Ok df' ->
  index df' = labels /\ df_ncols df' = df_ncols df /\
  (df_ncols df <> 0%nat -> length labels = nrows df /\ values df' = values df).
Proof.
  unfold assign_index. destruct (decide (df_ncols df = 0%nat)) as [H0|H0].
  { intros [= <-]. unfold index. cbn [df_rows df_ncols]. rewrite map_map. cbn [fst].
    rewrite map_id. split; [reflexivity|]. split; [by rewrite H0|]. intros H. contradiction. }
  destruct (decide (length labels = nrows df)) as [Hlen|]; [|discriminate].
  intros [= <-]. unfold index, values, nrows in *. cbn [df_rows df_ncols].
  split; [apply fst_zip; rewrite length_map; lia|]. split; [reflexivity|].
  intros _. split; [exact Hlen|]. apply snd_zip. rewrite length_map. lia.
Qed.

Lemma assign_index_mismatch {I J} (df : DataFrame I) (labels : list J) :
  df_ncols df <> 0%nat -> length labels <> nrows df ->
  assign_index df labels = (Raise ValueError : result (DataFrame J)).
Proof.
  intros H0 H. unfold assign_index.
  destruct (decide (df_ncols df = 0%nat)); [contradiction|].
  destruct (decide (length labels = nrows df)); [contradiction|].
  reflexivity.
Qed.

Lemma sort_index_ncols (C : DataFrame Z) : df_ncols (sort_index C) = df_ncols C.
Proof. reflexivity. Qed.

End Merger.

(** Whenever the calendar index is assigned, it has exactly one label per
    row of the combined table. *)
Lemma Mdf_index_assigned_fits (DfList : list (DataFrame Z)) (C : DataFrame Z)
    (first last_ : Z) (Hourly : DataFrame Timestamp) :
  concat DfList = Ok C ->
  df_ncols C <> 0%nat ->
  head (index (sort_index C)) = Some first ->
  last (index (sort_index C)) = Some last_ ->
  MdfHourly DfList = Ok Hourly ->
  nrows (sort_index C) = length (slice DateIndex first (wrap_int64 (last_ + 1))) /\
  index Hourly = slice DateIndex first (wrap_int64 (last_ + 1)).
Proof.
  intros HC H0 Hfirst Hlast HH. rewrite (MdfHourly_run _ _ _ _ HC Hfirst Hlast) in HH.
  apply assign_index_ok in HH as (Hidx & _ & Hrest).
  destruct (Hrest H0) as [Hlen _]. by rewrite Hlen.
Qed.

(** C6 (as amended): when the combined table has at least one column and
    its row count differs from the length of the calendar subset computed
    from its first and last raw time values, the index assignment raises, no
    index is assigned, and the run ends with that exception before anything
    is written. *)
Theorem Mdf_index_mismatch_aborts (DfList : list (DataFrame Z)) (DirectoryConcat : string)
    (fs : FS) (C : DataFrame Z) (first last_ : Z) :
  concat DfList = Ok C ->
  df_ncols C <> 0%nat ->
  head (index (sort_index C)) = Some first ->
  last (index (sort_index C)) = Some last_ ->
  nrows C <> length (slice DateIndex first (wrap_int64 (last_ + 1))) ->
  MdfHourly DfList = Raise ValueError /\
  MdfDaily DfList DirectoryConcat fs = (Raise ValueError, fs).
Proof.
  intros HC H0 Hfirst Hlast Hne.
  assert (HH : MdfHourly DfList = Raise ValueError).
  { rewrite (MdfHourly_run _ _ _ _ HC Hfirst Hlast).
    apply assign_index_mismatch; [exact H0|].
    unfold nrows, sort_index. cbn [df_rows]. rewrite merge_sort_Permutation.
    fold (nrows C). congruence. }
  split; [exact HH|]. rewrite MdfDaily_run, HH. reflexivity.
Qed.

Lemma Mdf_index_mismatch_aborts_witness :
  MdfHourly [gapped] = Raise ValueError /\
  MdfDaily [gapped] "out/" ∅ = (Raise ValueError, ∅).
Proof.
  apply (Mdf_index_mismatch_aborts [gapped] "out/" ∅ gapped 0 5); try reflexivity.
  - discriminate.
  - vm_compute. intros H. discriminate H.
Defined.

(** C6 (as stated) fails on a table without columns: two rows, at the raw
    times 0 and 5, against a calendar subset of six hours; the index is
    assigned all the same, and the daily table, one row and no column, is
    written. *)
Lemma Mdf_columnless_mismatch_written :
  concat [columnless] = Ok columnless /\
  head (index (sort_index columnless)) = Some 0 /\
  last (index (sort_index columnless)) = Some 5 /\
  nrows columnless = 2%nat /\
  length (slice DateIndex 0 (wrap_int64 (5 + 1))) = 6%nat /\
  MdfHourly [columnless] = Ok (mk_DataFrame 0 (map (fun t => (t, [])) (seqZ 0 6))) /\
  MdfDaily [columnless] "out/" ∅ =
  (Ok (mk_DataFrame 0 [(0, [])]),
   {["out/Rainf_WFDE5_CRU+GPCC_2000-2010_v2.1_ClipConcat.csv" :=
       CsvFile (mk_DataFrame 0 [(LTime 0, [])])]}).
Proof.
  split; [vm_compute; reflexivity|]. split; [vm_compute; reflexivity|].
  split; [vm_compute; reflexivity|]. split; [vm_compute; reflexivity|].
  split; [vm_compute; reflexivity|]. split; vm_compute; reflexivity.
Qed.

(** The run on the table with the gap: six calendar hours for two rows. *)
Example Mdf_gap_aborts :
  MdfDaily [gapped] "out/" ∅ = (Raise ValueError, ∅).
Proof. vm_compute. reflexivity. Qed.

(** A repeated raw time value next to a gap of one hour leaves the row
    count equal to the length of the calendar subset: the index is assigned,
    and the rows of raw time 1 and 1 are stamped with hours 1 and 2. *)
Example Mdf_duplicate_fills_gap :
  MdfHourly [mk_DataFrame 1 [(0, [1%float]); (1, [2%float]); (1, [3%float]); (3, [4%float])]] =
  Ok (mk_DataFrame 1 [(0, [1%float]); (1, [2%float]); (2, [3%float]); (3, [4%float])]).
Proof. vm_compute. reflexivity. Qed.

Section Concat.

#[local] Instance row_le_total : Total row_le.
Proof. intros r1 r2. unfold row_le. lia. Qed.

Lemma concat_ok (DfList : list (DataFrame Z)) (C : DataFrame Z) :
  concat DfList = Ok C ->
  DfList <> [] /\
  C = mk_DataFrame (foldr Nat.max 0%nat (map df_ncols DfList))
        (df ← DfList;
         map (fun row : Z * list float =>
                (row.1, pad (foldr Nat.max 0%nat (map df_ncols DfList)) (row.2)))
             (df_rows df)).
Proof.
  unfold concat. destruct DfList as [|df frames]; [discriminate|].
  intros [= <-]. split; [discriminate|reflexivity].
Qed.

Lemma concat_index (DfList : list (DataFrame Z)) (C : DataFrame Z) :
  concat DfList = Ok C -> index C = (df ← DfList; index df).
Proof.
  intros HC. apply concat_ok in HC as [_ ->]. unfold index. cbn [df_rows].
  generalize (foldr Nat.max 0%nat (map df_ncols DfList)) as n. intros n.
  induction DfList as [|df frames IH]; [reflexivity|].
  cbn [mbind list_bind]. rewrite map_app, IH. f_equal.
  rewrite map_map. reflexivity.
Qed.



Lemma sort_index_sorted (C : DataFrame Z) :
  Sorted Z.le (index (sort_index C)) /\ df_rows (sort_index C) ≡ₚ df_rows C.
Proof.
  unfold sort_index, index. cbn [df_rows]. split.
  - eapply Sorted_fmap; [|apply (Sorted_merge_sort row_le)].
    intros r1 r2 Hr. exact Hr.
  - apply merge_sort_Permutation.
Qed.

Lemma sorted_head_le_last (l : list Z) (a b : Z) :
  Sorted Z.le l -> head l = Some a -> last l = Some b -> a <= b.
Proof.
  intros Hs Ha Hb. apply Sorted_StronglySorted in Hs; [|apply _].
  destruct l as [|x l]; [discriminate|]. injection Ha as ->.
  apply StronglySorted_inv in Hs as [_ Hall].
  destruct l as [|y l]; [injection Hb as ->; lia|].
  rewrite Forall_forall in Hall. apply Hall.
  change (last (a :: y :: l)) with (last (y :: l)) in Hb.
  apply last_Some_elem_of in Hb. exact Hb.
Qed.

End Concat.

Section Resample.













End Resample.





(** The two months evaluated: 62 days of 24 millimetres each. *)
Example Mdf_two_months_daily :
  (MdfDaily [month1; month0] "out/" ∅).1 =
  Ok (mk_DataFrame 1 (map (fun d => (24 * d, [24%float])) (seqZ 0 62))).
Proof. vm_compute. reflexivity. Qed.

(** ** The ASC parser *)

Section ASCProofs.

Lemma for_fold_app {S A} (body : S -> A -> result S) (xs ys : list A) (s : S) :
  for_fold body (xs ++ ys) s = (s' ← for_fold body xs s; for_fold body ys s').
Proof.
  revert s. induction xs as [|x xs IH]; intros s; simpl; [reflexivity|].
  unfold mbind, result_bind, Py.bind. destruct (body s x) as [s'|e]; [|reflexivity].
  apply IH.
Qed.

Lemma zeros_shape (R C : nat) : shape2 (zeros R C) R C.
Proof.
  unfold zeros. split; [apply length_replicate|].
  apply Forall_replicate. apply length_replicate.
Qed.

Lemma zeros_get2 (R C r c : nat) :
  (r < R)%nat -> (c < C)%nat -> get2 (zeros R C) r c = Some (CFloat 0%float).
Proof.
  intros Hr Hc. unfold get2, zeros.
  rewrite lookup_replicate_2 by exact Hr. simpl. by apply lookup_replicate_2.
Qed.

Lemma iloc_set_spec (t : list (list cell)) (R C i j : nat) (v : cell) :
  shape2 t R C -> (i < R)%nat -> (j < C)%nat ->
  exists t', iloc_set t i j v = Ok t' /\ shape2 t' R C /\
    forall r c, get2 t' r c = if decide (r = i /\ c = j) then Some v else get2 t r c.
Proof.
  intros [Hlen Hrows] Hi Hj. unfold iloc_set.
  destruct (lookup_lt_is_Some_2 t i) as [row Hrow]; [lia|]. rewrite Hrow.
  assert (Hrl : length row = C).
  { rewrite Forall_forall in Hrows. apply Hrows. eapply list_elem_of_lookup_2, Hrow. }
  destruct (decide (j < length row)%nat) as [_|]; [|lia].
  eexists. split; [reflexivity|]. split.
  - split; [by rewrite length_insert|].
    apply Forall_insert; [exact Hrows|]. by rewrite length_insert.
  - intros r c. unfold get2.
    destruct (decide (r = i)) as [->|Hne].
    + rewrite list_lookup_insert_eq by lia. rewrite Hrow. simpl.
      destruct (decide (c = j)) as [->|Hne].
      * rewrite list_lookup_insert_eq by lia.
        destruct (decide (i = i /\ j = j)) as [_|]; [reflexivity|tauto].
      * rewrite list_lookup_insert_ne by congruence.
        destruct (decide (i = i /\ c = j)) as [[_ ?]|_]; [congruence|reflexivity].
    + rewrite list_lookup_insert_ne by congruence.
      destruct (decide (r = i /\ c = j)) as [[? _]|_]; [congruence|reflexivity].
Qed.

(** The loop over the tokens of one line. *)
Lemma line_loop (t : list (list cell)) (R C Line : nat) (ColList : list string) (n : nat) :
  shape2 t R C -> (Line < R)%nat -> (n <= C)%nat ->
  exists t',
    for_fold (fun DfParam Col =>
                iloc_set DfParam Line Col (CStr (default EmptyString (ColList !! Col))))
             (range n) t = Ok t' /\
    shape2 t' R C /\
    forall r c, get2 t' r c =
                if decide (r = Line /\ (c < n)%nat)
                then Some (CStr (default EmptyString (ColList !! c)))
                else get2 t r c.
Proof.
  intros Hshape HLine. induction n as [|n IH]; intros Hn.
  - exists t. split; [reflexivity|]. split; [exact Hshape|].
    intros r c. destruct (decide (r = Line /\ (c < 0)%nat)) as [[_ ?]|_]; [lia|reflexivity].
  - destruct IH as (t1 & Hrun & Hshape1 & Hget1); [lia|].
    destruct (iloc_set_spec t1 R C Line n (CStr (default EmptyString (ColList !! n)))
                Hshape1 HLine) as (t2 & Hset & Hshape2 & Hget2); [lia|].
    exists t2. unfold range in *. rewrite seq_S, for_fold_app, Hrun. simpl.
    unfold mbind, result_bind, Py.bind. rewrite Hset.
    split; [reflexivity|]. split; [exact Hshape2|].
    intros r c. rewrite Hget2, Hget1.
    destruct (decide (r = Line /\ c = n)) as [[-> ->]|Hne].
    + destruct (decide (Line = Line /\ (n < S n)%nat)) as [_|]; [reflexivity|lia].
    + destruct (decide (r = Line /\ (c < n)%nat)) as [[? ?]|?],
        (decide (r = Line /\ (c < S n)%nat)) as [[? ?]|?]; try reflexivity; lia.
Qed.

(** The loop over the lines. *)
Lemma lines_loop (t : list (list cell)) (R C : nat) (Lines : list string) (m : nat) :
  shape2 t R C -> (m <= R)%nat ->
  Forall (fun l => (length (Text.split l) <= C)%nat) Lines ->
  exists t',
    for_fold (fun DfParam Line =>
                let ColList := Text.split (default EmptyString (Lines !! Line)) in
                for_fold (fun DfParam Col =>
                            let ParamStr := default EmptyString (ColList !! Col) in
                            iloc_set DfParam Line Col (CStr ParamStr))
                         (range (length ColList)) DfParam)
             (range m) t = Ok t' /\
    shape2 t' R C /\
    forall r c, get2 t' r c =
                if decide ((r < m)%nat /\
                           (c < length (Text.split (default EmptyString (Lines !! r))))%nat)
                then Some (CStr (default EmptyString
                                   (Text.split (default EmptyString (Lines !! r)) !! c)))
                else get2 t r c.
Proof.
  intros Hshape Hm Htok. induction m as [|m IH].
  - exists t. split; [reflexivity|]. split; [exact Hshape|].
    intros r c. destruct (decide _) as [[? _]|_]; [lia|reflexivity].
  - destruct IH as (t1 & Hrun & Hshape1 & Hget1); [lia|].
    set (ColList := Text.split (default EmptyString (Lines !! m))).
    assert (Hlen : (length ColList <= C)%nat).
    { subst ColList. destruct (Lines !! m) as [l|] eqn:Hl; simpl.
      - rewrite Forall_forall in Htok. apply Htok. eapply list_elem_of_lookup_2, Hl.
      - vm_compute. lia. }
    destruct (line_loop t1 R C m ColList (length ColList) Hshape1)
      as (t2 & Hline & Hshape2 & Hget2); [lia|exact Hlen|].
    exists t2. unfold range in *. rewrite seq_S, for_fold_app, Hrun. simpl.
    unfold mbind, result_bind, Py.bind. fold ColList. rewrite Hline.
    split; [reflexivity|]. split; [exact Hshape2|].
    intros r c. rewrite Hget2, Hget1.
    destruct (decide (r = m /\ (c < length ColList)%nat)) as [[-> Hc]|Hne].
    + fold ColList. destruct (decide _) as [_|Hn]; [reflexivity|]. exfalso. apply Hn. lia.
    + destruct (decide ((r < m)%nat /\ _)) as [[? ?]|Hn1],
        (decide ((r < S m)%nat /\ _)) as [[? ?]|Hn2]; try reflexivity.
      * exfalso. apply Hn2. split; [lia|assumption].
      * exfalso. destruct (decide (r = m)) as [->|]; [apply Hne; split; [reflexivity|assumption]|].
        apply Hn1. split; [lia|assumption].
Qed.

End ASCProofs.

(** C10 (as amended): when the file has at most [Nrows] data lines after
    the six lines of the header, each with at most [Ncols] tokens, and every
    token is a float literal, the parser returns a table of [Nrows] rows and
    [Ncols] columns of floats: the value of the token where the file has one,
    and exactly 0 everywhere else. *)
Theorem ASCtoDfParam_table (files : gmap string string) (Path File : string)
    (Nrows Ncols : nat) :
  files !! Path = Some File ->
  (length (data_lines File) <= Nrows)%nat ->
  Forall (fun l => (length (Text.split l) <= Ncols)%nat) (data_lines File) ->
  Forall (fun l => Forall (fun tok => is_Some (PyFloat.parse tok)) (Text.split l))
         (data_lines File) ->
  exists df : DataFrame nat,
    ASCtoDfParam files Path Nrows Ncols = Ok df /\
    shape df = (Nrows, Ncols) /\
    index df = range Nrows /\
    Forall (fun row => length row = Ncols) (values df) /\
    forall r c : nat, (r < Nrows)%nat -> (c < Ncols)%nat ->
      iloc df r c =
      match token_at (data_lines File) r c with
      | Some tok => PyFloat.parse tok
      | None => Some 0%float
      end.
Proof.
  intros Hfile Hlines Hcount Hparse.
  destruct (lines_loop (zeros Nrows Ncols) Nrows Ncols (data_lines File)
              (length (data_lines File)) (zeros_shape Nrows Ncols) Hlines Hcount)
    as (t & Hloop & [Hlen Hrows] & Hget).
  (* what a cell of the filled table is *)
  assert (Hcell : forall r c, (r < Nrows)%nat -> (c < Ncols)%nat ->
            get2 t r c =
            match token_at (data_lines File) r c with
            | Some tok => Some (CStr tok)
            | None => Some (CFloat 0%float)
            end).
  { intros r c Hr Hc. rewrite Hget. unfold token_at.
    destruct (data_lines File !! r) as [l|] eqn:Hl; simpl.
    - apply lookup_lt_Some in Hl as Hrm.
      destruct (Text.split l !! c) as [tok|] eqn:Htok.
      + apply lookup_lt_Some in Htok as Hcl.
        destruct (decide _) as [_|Hn]; [reflexivity|]. exfalso. apply Hn. lia.
      + apply lookup_ge_None in Htok.
        destruct (decide _) as [[_ ?]|_]; [lia|]. by apply zeros_get2.
    - apply lookup_ge_None in Hl.
      destruct (decide _) as [[? _]|_]; [lia|]. by apply zeros_get2. }
  (* every cell converts *)
  assert (Hconv : Forall (fun row => for_each to_float64 row = Ok (map cell_value row)) t).
  { apply Forall_lookup. intros r row Hrow.
    apply for_each_ok. apply Forall_lookup. intros c v Hv.
    assert (Hr : (r < Nrows)%nat) by (rewrite <- Hlen; by eapply lookup_lt_Some).
    assert (Hc : (c < Ncols)%nat).
    { rewrite Forall_forall in Hrows.
      rewrite <- (Hrows row) by (eapply list_elem_of_lookup_2, Hrow). by eapply lookup_lt_Some. }
    pose proof (Hcell r c Hr Hc) as Hrc. unfold get2 in Hrc. rewrite Hrow in Hrc. simpl in Hrc.
    rewrite Hv in Hrc. unfold token_at in Hrc.
    destruct (data_lines File !! r) as [l|] eqn:Hl; simpl in Hrc;
      [|injection Hrc as ->; reflexivity].
    destruct (Text.split l !! c) as [tok|] eqn:Htok; injection Hrc as ->; [|reflexivity].
    rewrite Forall_forall in Hparse.
    pose proof (Hparse l (list_elem_of_lookup_2 _ _ _ Hl)) as Htoks.
    rewrite Forall_forall in Htoks.
    destruct (Htoks tok (list_elem_of_lookup_2 _ _ _ Htok)) as [x Hx].
    simpl. rewrite Hx. reflexivity. }
  exists (mk_DataFrame Ncols (zip (range Nrows) (map (map cell_value) t))).
  assert (Hzip : length (range Nrows) = length (map (map cell_value) t)).
  { unfold range. by rewrite length_seq, length_map. }
  split.
  { unfold ASCtoDfParam. unfold mbind, result_bind, Py.bind. rewrite Hfile. simpl of_option.
    cbv beta iota zeta. fold (data_lines File).
    cbv zeta in Hloop. rewrite Hloop.
    rewrite (for_each_ok _ (map cell_value)) by exact Hconv. reflexivity. }
  split.
  { unfold shape, nrows. cbn [df_rows df_ncols]. rewrite length_zip, <- Hzip, Nat.min_id.
    unfold range. by rewrite length_seq. }
  split; [unfold index; cbn [df_rows]; apply fst_zip; lia|].
  assert (Hvals : values (mk_DataFrame Ncols (zip (range Nrows) (map (map cell_value) t))) =
                  map (map cell_value) t).
  { unfold values. cbn [df_rows]. apply snd_zip. lia. }
  split.
  { rewrite Hvals, Forall_fmap. eapply Forall_impl; [exact Hrows|].
    intros row Hrow. simpl. by rewrite length_map. }
  intros r c Hr Hc. unfold iloc. rewrite Hvals, list_lookup_fmap.
  pose proof (Hcell r c Hr Hc) as Hrc. unfold get2 in Hrc.
  destruct (t !! r) as [row|] eqn:Hrow; simpl in *;
    [|destruct (token_at (data_lines File) r c); discriminate].
  rewrite list_lookup_fmap, Hrc.
  destruct (token_at (data_lines File) r c) as [tok|] eqn:Htok; [|reflexivity].
  simpl. unfold token_at in Htok.
  destruct (data_lines File !! r) as [l|] eqn:Hl; simpl in Htok; [|discriminate].
  rewrite Forall_forall in Hparse.
  pose proof (Hparse l (list_elem_of_lookup_2 _ _ _ Hl)) as Htoks.
  rewrite Forall_forall in Htoks.
  destruct (Htoks tok (list_elem_of_lookup_2 _ _ _ Htok)) as [x Hx].
  rewrite Hx. reflexivity.
Qed.

Lemma ASCtoDfParam_table_witness :
  exists df : DataFrame nat,
    ASCtoDfParam {["grid.asc" := asc_text]} "grid.asc" 3 2 = Ok df /\
    shape df = (3%nat, 2%nat) /\
    index df = range 3 /\
    Forall (fun row => length row = 2%nat) (values df) /\
    forall r c : nat, (r < 3)%nat -> (c < 2)%nat ->
      iloc df r c =
      match token_at (data_lines asc_text) r c with
      | Some tok => PyFloat.parse tok
      | None => Some 0%float
      end.
Proof.
  apply (ASCtoDfParam_table {["grid.asc" := asc_text]} "grid.asc" asc_text 3 2).
  - vm_compute. reflexivity.
  - vm_compute. lia.
  - apply (bool_decide_unpack _). vm_compute. exact I.
  - apply (bool_decide_unpack _). vm_compute. exact I.
Defined.

(** The table read from that file. *)
Example ASCtoDfParam_asc_text :
  ASCtoDfParam {["grid.asc" := asc_text]} "grid.asc" 3 2 =
  Ok (mk_DataFrame 2 [(0%nat, [1.5; 2]%float); (1%nat, [-9999; 0]%float);
                      (2%nat, [0; 0]%float)]).
Proof. vm_compute. reflexivity. Qed.

(** C10 (as stated) fails on a token that is no float literal: the file has
    one data line for one row and one token for one column, and the parser
    raises instead of returning a table. *)
Lemma ASCtoDfParam_rejects_bad_token :
  (length (data_lines asc_bad_token) <= 1)%nat /\
  Forall (fun l => (length (Text.split l) <= 1)%nat) (data_lines asc_bad_token) /\
  ASCtoDfParam {["grid.asc" := asc_bad_token]} "grid.asc" 1 1 = Raise ValueError.
Proof.
  split; [vm_compute; lia|]. split; [|vm_compute; reflexivity].
  apply (bool_decide_unpack _). vm_compute. exact I.
Qed.

(** * Further properties of the code *)

(** ** The clipper: failures, overwriting, composition *)

Section ClipperMore.

(** The length of a slice depends on the length of the sequence only. *)
Lemma slice_length {A} (l : list A) (lo hi : Z) :
  length (slice l lo hi) =
  Z.to_nat (clamp_index (Z.of_nat (length l)) hi - clamp_index (Z.of_nat (length l)) lo).
Proof.
  unfold slice. rewrite length_take, length_drop.
  unfold clamp_index.
  destruct (Z.ltb_spec lo 0), (Z.ltb_spec hi 0); lia.
Qed.

Lemma slice_slice {A} (l : list A) (a b c d : Z) :
  0 <= a <= b -> b <= Z.of_nat (length l) ->
  0 <= c <= d -> d <= b - a ->
  slice (slice l a b) c d = slice l (a + c) (a + d).
Proof.
  intros Ha Hb Hc Hd.
  destruct (slice_within l a b) as [Hlen Hlook]; [lia..|].
  destruct (slice_within (slice l a b) c d) as [Hlen1 Hlook1]; [lia|lia|].
  destruct (slice_within l (a + c) (a + d)) as [Hlen2 Hlook2]; [lia..|].
  apply list_eq. intros k.
  destruct (decide (k < Z.to_nat (d - c))%nat) as [Hk|Hk].
  - rewrite Hlook1 by exact Hk. rewrite Hlook by lia.
    rewrite Hlook2 by lia. f_equal. lia.
  - rewrite (lookup_ge_None_2 (slice (slice l a b) c d)) by lia.
    rewrite (lookup_ge_None_2 (slice l (a + c) (a + d))) by lia. reflexivity.
Qed.

Lemma slice_map {A B} (f : A -> B) (l : list A) (lo hi : Z) :
  slice (map f l) lo hi = map f (slice l lo hi).
Proof. unfold slice. by rewrite length_map, <- fmap_drop, <- fmap_take. Qed.

Lemma window_map (f : float -> float) (a : list (list (list float)))
    (west east north south : Z) :
  window (map (map (map f)) a) west east north south =
  map (map (map f)) (window a west east north south).
Proof.
  unfold window. rewrite !map_map. apply map_ext. intros plane.
  rewrite slice_map, !map_map. apply map_ext. intros row. apply slice_map.
Qed.

Lemma window_window (rainf : list (list (list float))) (T L O : nat)
    (West1 East1 North1 South1 West2 East2 North2 South2 : Z) :
  has_shape rainf T L O ->
  0 <= West1 <= East1 -> East1 <= Z.of_nat O ->
  0 <= South1 <= North1 -> North1 <= Z.of_nat L ->
  0 <= West2 <= East2 -> East2 <= East1 - West1 ->
  0 <= South2 <= North2 -> North2 <= North1 - South1 ->
  window (window rainf West1 East1 North1 South1) West2 East2 North2 South2 =
  window rainf (West1 + West2) (West1 + East2) (South1 + North2) (South1 + South2).
Proof.
  intros [_ Hshape] Hw1 He1 Hs1 Hn1 Hw2 He2 Hs2 Hn2. unfold window.
  rewrite map_map.
  apply Forall_fmap_ext_1. eapply Forall_impl; [exact Hshape|].
  intros plane [Hlen Hrows]. simpl.
  rewrite <- (slice_slice plane South1 North1 South2 North2) by lia.
  assert (Hsub : Forall (fun row => length row = O) (slice plane South1 North1)).
  { apply Forall_forall. intros row Hrow. rewrite Forall_forall in Hrows. apply Hrows.
    unfold slice in Hrow. eapply subseteq_drop, subseteq_take, Hrow. }
  rewrite slice_map, map_map.
  apply Forall_fmap_ext_1. apply Forall_forall. intros row Hrow.
  assert (Hin : row ∈ slice plane South1 North1).
  { unfold slice in Hrow. eapply subseteq_drop, subseteq_take, Hrow. }
  rewrite Forall_forall in Hsub.
  apply slice_slice; rewrite ?(Hsub row Hin); lia.
Qed.

(** The default fill value is the only binary64 equal to it, and a value
    stored by the clipper is stored again as it is. *)
Lemma eqb_default_fill (y : float) :
  PrimFloat.eqb y default_fill_float = true -> y = default_fill_float.
Proof.
  rewrite FloatAxioms.eqb_spec. unfold SFeqb. intros H.
  apply Prim2SF_inj.
  assert (Hfill : Prim2SF default_fill_float <> S754_nan) by (vm_compute; discriminate).
  destruct (FloatOrder.nan_or_not (Prim2SF y)) as [Ey|Ey].
  { rewrite FloatOrder.SFcompare_nan in H by auto. discriminate. }
  destruct (FloatOrder.SFcompare_cases _ _ Ey Hfill) as [[E _]|[[_ Hrank]|[E _]]];
    try (rewrite E in H; discriminate).
  revert Hrank. generalize (Prim2SF y). intros sy.
  pose (fill := Prim2SF default_fill_float).
  change (Prim2SF default_fill_float) with fill. vm_compute in fill. subst fill.
  destruct sy as [[]|[]| |[] m e]; simpl; intros [=]; subst. reflexivity.
Qed.

Lemma stored_float_default (m : scalar -> bool) (x : float) :
  stored_float default_masked (stored_float m x) = stored_float m x.
Proof.
  unfold stored_float at 1. simpl.
  destruct (PrimFloat.eqb (stored_float m x) default_fill_float) eqn:E; [|reflexivity].
  symmetry. by apply eqb_default_fill.
Qed.

Lemma stored_int_default (z : Z) : stored_int default_masked z = z.
Proof.
  unfold stored_int. simpl. destruct (Z.eqb_spec z default_fill_int); congruence.
Qed.

Lemma stored_int_int64 (m : scalar -> bool) (time : list Z) :
  Forall int64 time -> Forall int64 (map (stored_int m) time).
Proof.
  intros H. rewrite Forall_fmap. eapply Forall_impl; [exact H|].
  intros z Hz. simpl. unfold stored_int.
  destruct (m (Int z)); [|exact Hz]. unfold int64, default_fill_int. lia.
Qed.

(** The variables of a dataset written by the clipper have the default
    mask. *)
Lemma var_masked_clipped (mtime mlon mlat mrainf : scalar -> bool) (time : list Z)
    (lon lat : list float) (rainf : list (list (list float))) (west east north south : Z) :
  var_masked (clipped mtime mlon mlat mrainf time lon lat rainf west east north south) "time"
    = default_masked /\
  var_masked (clipped mtime mlon mlat mrainf time lon lat rainf west east north south) "lon"
    = default_masked /\
  var_masked (clipped mtime mlon mlat mrainf time lon lat rainf west east north south) "lat"
    = default_masked /\
  var_masked (clipped mtime mlon mlat mrainf time lon lat rainf west east north south) "Rainf"
    = default_masked.
Proof. repeat split; reflexivity. Qed.

(** The dataset the clipper writes is named by its run. *)
Lemma clipper_output (Path FileClipped : string) (FileRaw : Dataset)
    (IdxWest IdxEast IdxNorth IdxSouth : Z) (fs : FS) (out : Dataset)
    time lon lat rainf :
  is_grid FileRaw "Rainf" "lon" "lat" time lon lat rainf ->
  WFDE5NetCDFClipper Path FileRaw IdxWest IdxEast IdxNorth IdxSouth FileClipped fs =
    (Ok tt, <[FileClipped := NcFile out]> fs) ->
  out = clipped (var_masked FileRaw "time") (var_masked FileRaw "lon")
          (var_masked FileRaw "lat") (var_masked FileRaw "Rainf")
          time lon lat rainf IdxWest IdxEast IdxNorth IdxSouth.
Proof.
  intros Hgrid Hrun. rewrite (clipper_run _ _ _ _ _ _ _ _ _ _ _ _ Hgrid) in Hrun.
  injection Hrun as Hfs.
  apply (f_equal (fun m : FS => m !! FileClipped)) in Hfs.
  rewrite !lookup_insert_eq in Hfs. congruence.
Qed.

(** The dataset written for a window with at least one cell is a grid
    dataset again. *)
Lemma clipped_is_grid (mtime mlon mlat mrainf : scalar -> bool) (time : list Z)
    (lon lat : list float) (rainf : list (list (list float))) (west east north south : Z) :
  Forall int64 time ->
  has_shape rainf (length time) (length lat) (length lon) ->
  0 <= west < east -> east <= Z.of_nat (length lon) ->
  0 <= south < north -> north <= Z.of_nat (length lat) ->
  exists out_rainf : list (list (list float)),
    is_grid (clipped mtime mlon mlat mrainf time lon lat rainf west east north south)
      "Rainf" "lon" "lat"
      (map (stored_int mtime) time) (map (stored_float mlon) (slice lon west east))
      (map (stored_float mlat) (slice lat south north)) out_rainf /\
    forall (t i j : nat) (x : float),
      (i < Z.to_nat (north - south))%nat -> (j < Z.to_nat (east - west))%nat ->
      at3 rainf t (Z.to_nat south + i) (Z.to_nat west + j) = Some x ->
      at3 out_rainf t i j = Some (stored_float mrainf x).
Proof.
  intros Hint Hshape Hw He Hs Hn.
  destruct (clipped_rainf mrainf rainf _ _ _ west east south north _ Hshape
              ltac:(lia) He ltac:(lia) Hn eq_refl) as (Hr1 & Hr2 & Hr3).
  eexists. split; [|exact Hr3].
  destruct (slice_within lon west east) as [Hl1 _]; [lia..|].
  destruct (slice_within lat south north) as [Hl2 _]; [lia..|].
  split; try reflexivity.
  - by apply stored_int_int64.
  - rewrite !length_map, Hl1, Hl2.
    destruct (decide (length time = 0%nat)) as [HT|HT].
    + rewrite Hr2 by auto. rewrite HT. split; [reflexivity|constructor].
    + apply Hr1; lia.
Qed.

End ClipperMore.

(** X1: a variable missing from the source makes the clipper raise
    [KeyError] before it creates the output: no file is changed. *)
Theorem clipper_missing_variable (Path FileClipped : string) (FileRaw : Dataset)
    (IdxWest IdxEast IdxNorth IdxSouth : Z) (fs : FS) (name : string) :
  In name ["time"; "lon"; "lat"; "Rainf"] ->
  variables FileRaw !! name = None ->
  WFDE5NetCDFClipper Path FileRaw IdxWest IdxEast IdxNorth IdxSouth FileClipped fs =
  (Raise KeyError, fs).
Proof.
  intros Hin Hnone. unfold WFDE5NetCDFClipper, getvar, mbind, M_bind, lift.
  destruct (variables FileRaw !! "time") as [vt|] eqn:Ht; [|reflexivity].
  destruct (variables FileRaw !! "lon") as [vlon|] eqn:Hlon; [|reflexivity].
  destruct (variables FileRaw !! "lat") as [vlat|] eqn:Hlat; [|reflexivity].
  destruct (variables FileRaw !! "Rainf") as [vr|] eqn:Hr; [|reflexivity].
  exfalso. simpl in Hin.
  destruct Hin as [<-|[<-|[<-|[<-|[]]]]]; congruence.
Qed.

Lemma clipper_missing_variable_witness :
  WFDE5NetCDFClipper "clipped/" (mk_Dataset (delete "lat" (variables sample_grid)))
    1 3 2 0 "clipped/a_Clip.nc" ∅ = (Raise KeyError, ∅).
Proof.
  apply (clipper_missing_variable "clipped/" "clipped/a_Clip.nc"
           (mk_Dataset (delete "lat" (variables sample_grid))) 1 3 2 0 ∅ "lat").
  - simpl. tauto.
  - vm_compute. reflexivity.
Defined.

(** X2: the clipper replaces whatever the output path held, so that a
    second run with the same arguments changes nothing. *)
Theorem clipper_overwrites (Path FileClipped : string) (FileRaw : Dataset)
    (IdxWest IdxEast IdxNorth IdxSouth : Z) (fs : FS) (old : file)
    (time : list Z) (lon lat : list float) (rainf : list (list (list float))) :
  is_grid FileRaw "Rainf" "lon" "lat" time lon lat rainf ->
  WFDE5NetCDFClipper Path FileRaw IdxWest IdxEast IdxNorth IdxSouth FileClipped
    (<[FileClipped := old]> fs) =
  WFDE5NetCDFClipper Path FileRaw IdxWest IdxEast IdxNorth IdxSouth FileClipped fs /\
  (let fs1 := (WFDE5NetCDFClipper Path FileRaw IdxWest IdxEast IdxNorth IdxSouth
                 FileClipped fs).2 in
   WFDE5NetCDFClipper Path FileRaw IdxWest IdxEast IdxNorth IdxSouth FileClipped fs1 =
   (Ok tt, fs1)).
Proof.
  intros Hgrid.
  rewrite !(clipper_run _ _ _ _ _ _ _ _ _ _ _ _ Hgrid).
  split; [by rewrite insert_insert_eq|].
  cbn [snd]. rewrite (clipper_run _ _ _ _ _ _ _ _ _ _ _ _ Hgrid).
  by rewrite insert_insert_eq.
Qed.

Lemma clipper_overwrites_witness :
  WFDE5NetCDFClipper "clipped/" sample_grid 1 3 2 0 "clipped/a_Clip.nc"
    (<["clipped/a_Clip.nc" := NcFile empty_grid]> ∅) =
  WFDE5NetCDFClipper "clipped/" sample_grid 1 3 2 0 "clipped/a_Clip.nc" ∅ /\
  (let fs1 := (WFDE5NetCDFClipper "clipped/" sample_grid 1 3 2 0 "clipped/a_Clip.nc" ∅).2 in
   WFDE5NetCDFClipper "clipped/" sample_grid 1 3 2 0 "clipped/a_Clip.nc" fs1 = (Ok tt, fs1)).
Proof.
  apply (clipper_overwrites "clipped/" "clipped/a_Clip.nc" sample_grid 1 3 2 0 ∅
           (NcFile empty_grid) sample_time sample_lon sample_lat sample_rainf
           sample_grid_is_grid).
Defined.

(** X3: clipping the dataset that a first clip wrote, with a window inside
    it, writes the same dataset as one clip of the source with the second
    window shifted by the lower bounds of the first. *)
Theorem clipper_composes (Path File1 File2 : string) (FileRaw Clip1 : Dataset) (fs fs' : FS)
    (West1 East1 North1 South1 West2 East2 North2 South2 : Z)
    (time : list Z) (lon lat : list float) (rainf : list (list (list float))) :
  is_grid FileRaw "Rainf" "lon" "lat" time lon lat rainf ->
  0 <= West1 <= East1 -> East1 <= Z.of_nat (length lon) ->
  0 <= South1 <= North1 -> North1 <= Z.of_nat (length lat) ->
  0 <= West2 <= East2 -> East2 <= East1 - West1 ->
  0 <= South2 <= North2 -> North2 <= North1 - South1 ->
  WFDE5NetCDFClipper Path FileRaw West1 East1 North1 South1 File1 fs =
    (Ok tt, <[File1 := NcFile Clip1]> fs) ->
  WFDE5NetCDFClipper Path Clip1 West2 East2 North2 South2 File2 fs' =
  WFDE5NetCDFClipper Path FileRaw
    (West1 + West2) (West1 + East2) (South1 + North2) (South1 + South2) File2 fs'.
Proof.
  intros Hgrid Hw1 He1 Hs1 Hn1 Hw2 He2 Hs2 Hn2 Hrun.
  pose proof (grid_shape _ _ _ _ _ _ _ _ Hgrid) as Hshape.
  rewrite (clipper_output _ _ _ _ _ _ _ _ _ _ _ _ _ Hgrid Hrun).
  rewrite (clipper_run _ _ _ _ _ _ _ _ _ _ _ _ Hgrid).
  erewrite clipper_run_vars;
    [|reflexivity..|apply stored_int_int64, (grid_int64 _ _ _ _ _ _ _ _ Hgrid)].
  do 3 f_equal.
  pose proof (window_shape rainf _ _ _ West1 East1 South1 North1 Hshape Hw1 He1 Hs1 Hn1)
    as Hwin.
  assert (Hrainf :
    match List.concat (List.concat
            (window match List.concat (List.concat (window rainf West1 East1 North1 South1)) with
                    | [] => []
                    | _ => map (map (map (stored_float (var_masked FileRaw "Rainf"))))
                             (window rainf West1 East1 North1 South1)
                    end West2 East2 North2 South2)) with
    | [] => []
    | _ => map (map (map (stored_float default_masked)))
             (window match List.concat (List.concat (window rainf West1 East1 North1 South1)) with
                     | [] => []
                     | _ => map (map (map (stored_float (var_masked FileRaw "Rainf"))))
                              (window rainf West1 East1 North1 South1)
                     end West2 East2 North2 South2)
    end =
    match List.concat (List.concat
            (window rainf (West1 + West2) (West1 + East2) (South1 + North2)
               (South1 + South2))) with
    | [] => []
    | _ => map (map (map (stored_float (var_masked FileRaw "Rainf"))))
             (window rainf (West1 + West2) (West1 + East2) (South1 + North2)
                (South1 + South2))
    end).
  { rewrite <- (window_window rainf _ _ _ West1 East1 North1 South1
                  West2 East2 North2 South2 Hshape) by assumption.
    destruct (List.concat (List.concat (window rainf West1 East1 North1 South1))) eqn:Hc.
    - assert (Hnil : List.concat (List.concat
                       (window (window rainf West1 East1 North1 South1)
                          West2 East2 North2 South2)) = []).
      { destruct (decide (length time = 0%nat)) as [HT|HT].
        - destruct Hshape as [Hlen _]. rewrite HT in Hlen.
          apply length_zero_iff_nil in Hlen. by subst rainf.
        - eapply has_shape_no_element.
          + eapply (window_shape _ _ _ _ West2 East2 South2 North2 Hwin); lia.
          + destruct (decide (South1 < North1 /\ West1 < East1)) as [[]|Hno].
            * exfalso. eapply (has_shape_element _ _ _ _ Hwin); [lia..|exact Hc].
            * lia. }
      rewrite Hnil. reflexivity.
    - rewrite window_map, concat_concat_map.
      destruct (List.concat (List.concat
                  (window (window rainf West1 East1 North1 South1)
                     West2 East2 North2 South2))); [reflexivity|].
      cbn [map]. rewrite map_map. apply map_ext. intros plane.
      rewrite map_map. apply map_ext. intros row.
      rewrite map_map. apply map_ext. intros x. apply stored_float_default. }
  destruct (var_masked_clipped (var_masked FileRaw "time") (var_masked FileRaw "lon")
              (var_masked FileRaw "lat") (var_masked FileRaw "Rainf")
              time lon lat rainf West1 East1 North1 South1) as (-> & -> & -> & ->).
  unfold clipped. rewrite Hrainf.
  rewrite !slice_map, !map_map.
  rewrite (slice_slice lon), (slice_slice lat) by lia.
  rewrite (map_ext _ _ (fun x => stored_float_default (var_masked FileRaw "lon") x)).
  rewrite (map_ext _ _ (fun x => stored_float_default (var_masked FileRaw "lat") x)).
  rewrite (map_ext _ (stored_int (var_masked FileRaw "time"))
             (fun z => stored_int_default _)).
  reflexivity.
Qed.

Lemma clipper_composes_witness :
  WFDE5NetCDFClipper "clipped/" missing_clipped 0 2 2 1 "clipped/b_Clip.nc" ∅ =
  WFDE5NetCDFClipper "clipped/" missing_grid (0 + 0) (0 + 2) (0 + 2) (0 + 1)
    "clipped/b_Clip.nc" ∅.
Proof.
  apply (clipper_composes "clipped/" "clipped/a_Clip.nc" "clipped/b_Clip.nc" missing_grid
           missing_clipped ∅ ∅ 0 3 2 0 0 2 2 1
           sample_time sample_lon sample_lat missing_rainf missing_grid_is_grid);
    try (simpl; lia).
  vm_compute. reflexivity.
Defined.

(** X4: flattening the dataset the clipper wrote for a window with at
    least one cell gives a table of one column per cell of the window; the
    column [i * (east - west) + j] holds, wherever the source value is not
    masked, what the column [(south + i) * O + (west + j)] of the flattened
    source holds. *)
Theorem clip_then_flatten (Path File FileClipped : string) (FileRaw Clip : Dataset)
    (fs fs1 fs2 : FS) (IdxWest IdxEast IdxNorth IdxSouth : Z) (UnitConversion : float)
    (time : list Z) (lon lat : list float) (rainf : list (list (list float))) :
  is_grid FileRaw "Rainf" "lon" "lat" time lon lat rainf ->
  0 <= IdxWest < IdxEast -> IdxEast <= Z.of_nat (length lon) ->
  0 <= IdxSouth < IdxNorth -> IdxNorth <= Z.of_nat (length lat) ->
  WFDE5NetCDFClipper Path FileRaw IdxWest IdxEast IdxNorth IdxSouth FileClipped fs =
    (Ok tt, <[FileClipped := NcFile Clip]> fs) ->
  exists df src : DataFrame scalar,
    (NetCDFToSHETRAN Clip "Rainf" "lon" "lat" Path File UnitConversion fs1).1 = Ok df /\
    (NetCDFToSHETRAN FileRaw "Rainf" "lon" "lat" Path File UnitConversion fs2).1 = Ok src /\
    shape df = (length time,
                (Z.to_nat (IdxNorth - IdxSouth) * Z.to_nat (IdxEast - IdxWest))%nat) /\
    forall (t i j : nat) (x : float),
      (i < Z.to_nat (IdxNorth - IdxSouth))%nat -> (j < Z.to_nat (IdxEast - IdxWest))%nat ->
      at3 rainf t (Z.to_nat IdxSouth + i) (Z.to_nat IdxWest + j) = Some x ->
      var_masked FileRaw "Rainf" (Float x) = false ->
      iloc df t (i * Z.to_nat (IdxEast - IdxWest) + j) =
      iloc src t ((Z.to_nat IdxSouth + i) * length lon + (Z.to_nat IdxWest + j)).
Proof.
  intros Hgrid Hw He Hs Hn Hrun.
  pose proof (grid_shape _ _ _ _ _ _ _ _ Hgrid) as Hshape.
  rewrite (clipper_output _ _ _ _ _ _ _ _ _ _ _ _ _ Hgrid Hrun).
  destruct (clipped_is_grid (var_masked FileRaw "time") (var_masked FileRaw "lon")
              (var_masked FileRaw "lat") (var_masked FileRaw "Rainf")
              time lon lat rainf IdxWest IdxEast IdxNorth IdxSouth
              (grid_int64 _ _ _ _ _ _ _ _ Hgrid) Hshape Hw He Hs Hn)
    as (out_rainf & Hgrid1 & Hat).
  destruct (flattener_shape_and_order_aux _ _ _ _ Path File UnitConversion fs1 _ _ _ _ Hgrid1)
    as (df & Hdf & Hshape1 & Hcell1).
  destruct (flattener_shape_and_order_aux _ _ _ _ Path File UnitConversion fs2 _ _ _ _ Hgrid)
    as (src & Hsrc & _ & Hcell).
  destruct (slice_within lon IdxWest IdxEast) as [Hl1 _]; [lia..|].
  destruct (slice_within lat IdxSouth IdxNorth) as [Hl2 _]; [lia..|].
  assert (E1 : length (map (stored_float (var_masked FileRaw "lon"))
                        (slice lon IdxWest IdxEast)) = Z.to_nat (IdxEast - IdxWest))
    by (by rewrite length_map).
  assert (E2 : length (map (stored_float (var_masked FileRaw "lat"))
                        (slice lat IdxSouth IdxNorth)) = Z.to_nat (IdxNorth - IdxSouth))
    by (by rewrite length_map).
  rewrite E1, E2, length_map in Hshape1. rewrite E1, E2 in Hcell1.
  exists df, src. split; [exact Hdf|]. split; [exact Hsrc|]. split; [exact Hshape1|].
  intros t i j x Hi Hj Hx Hmask.
  rewrite Hcell1 by assumption. rewrite Hcell by lia.
  rewrite (Hat t i j x Hi Hj Hx), Hx. unfold stored_float. rewrite Hmask. reflexivity.
Qed.

Lemma clip_then_flatten_witness :
  exists df src : DataFrame scalar,
    (NetCDFToSHETRAN missing_clipped "Rainf" "lon" "lat" "clipped/" "a_Clip.csv"
       3.6%float ∅).1 = Ok df /\
    (NetCDFToSHETRAN missing_grid "Rainf" "lon" "lat" "clipped/" "a_Clip.csv"
       3.6%float ∅).1 = Ok src /\
    shape df = (length sample_time, (Z.to_nat (2 - 0) * Z.to_nat (3 - 0))%nat) /\
    forall (t i j : nat) (x : float),
      (i < Z.to_nat (2 - 0))%nat -> (j < Z.to_nat (3 - 0))%nat ->
      at3 missing_rainf t (Z.to_nat 0 + i) (Z.to_nat 0 + j) = Some x ->
      var_masked missing_grid "Rainf" (Float x) = false ->
      iloc df t (i * Z.to_nat (3 - 0) + j) =
      iloc src t ((Z.to_nat 0 + i) * length sample_lon + (Z.to_nat 0 + j)).
Proof.
  apply (clip_then_flatten "clipped/" "a_Clip.csv" "clipped/a_Clip.nc" missing_grid
           missing_clipped ∅ ∅ ∅ 0 3 2 0 3.6%float
           sample_time sample_lon sample_lat missing_rainf missing_grid_is_grid);
    try (simpl; lia).
  vm_compute. reflexivity.
Defined.

(** ** The flattener: failures *)

(** X5: on a grid dataset without any cell (no latitude or no longitude)
    the flattener does not fail: it returns the table of the time values
    alone, one row for each time step and no column, and writes it. *)
Theorem flattener_no_cells (Data : Dataset)
    (VariableName LongitudeName LatitudeName Path File : string)
    (UnitConversion : float) (fs : FS)
    (time : list Z) (lon lat : list float) (var : list (list (list float))) :
  is_grid Data VariableName LongitudeName LatitudeName time lon lat var ->
  (length lat * length lon = 0)%nat ->
  NetCDFToSHETRAN Data VariableName LongitudeName LatitudeName Path File UnitConversion fs =
  (Ok (mk_DataFrame 0 (map (fun t => (Int t, [])) time)),
   <[Path +:+ File :=
       CsvFile (mk_DataFrame 0 (map (fun t => (LScalar (Int t), [])) time))]> fs).
Proof.
  intros Hgrid Hcells. rewrite (flattener_run _ _ _ _ _ _ _ _ _ _ _ _ Hgrid).
  assert (Hnil : converted_cells UnitConversion var (length lat) (length lon) = []).
  { apply length_zero_iff_nil. unfold converted_cells.
    by rewrite length_map, cells_of_length. }
  rewrite Hnil. unfold assign_index, transpose, of_rows, nrows. cbn [df_ncols df_rows].
  simpl. rewrite !map_map. reflexivity.
Qed.

Lemma flattener_no_cells_witness :
  NetCDFToSHETRAN empty_grid "Rainf" "lon" "lat" "clipped/" "a_Clip.csv" 3.6%float ∅ =
  (Ok (mk_DataFrame 0 (map (fun t => (Int t, [])) [0])),
   <["clipped/" +:+ "a_Clip.csv" :=
       CsvFile (mk_DataFrame 0 (map (fun t => (LScalar (Int t), [])) [0]))]> ∅).
Proof.
  apply (flattener_no_cells empty_grid "Rainf" "lon" "lat" "clipped/" "a_Clip.csv"
           3.6%float ∅ [0] [1%float] [] [[]] empty_grid_is_grid).
  reflexivity.
Defined.

(** X6: a missing longitude or latitude variable makes the flattener raise
    [KeyError], and so does a missing data variable as soon as the grid has a
    cell; nothing is written. *)
Theorem flattener_missing_variable (Data : Dataset)
    (VariableName LongitudeName LatitudeName Path File : string)
    (UnitConversion : float) (fs : FS) :
  variables Data !! LongitudeName = None \/
  variables Data !! LatitudeName = None \/
  (exists vlon vlat,
     variables Data !! LongitudeName = Some vlon /\
     variables Data !! LatitudeName = Some vlat /\
     (0 < len vlon)%nat /\ (0 < len vlat)%nat /\
     variables Data !! VariableName = None) ->
  NetCDFToSHETRAN Data VariableName LongitudeName LatitudeName Path File UnitConversion fs =
  (Raise KeyError, fs).
Proof.
  intros H. unfold NetCDFToSHETRAN, getvar, mbind at 1, M_bind, lift.
  destruct H as [Hlon|[Hlat|(vlon & vlat & Hlon & Hlat & Hn & Hm & Hvar)]].
  - rewrite Hlon. reflexivity.
  - destruct (variables Data !! LongitudeName); [|reflexivity].
    simpl. unfold mbind, M_bind. rewrite Hlat. reflexivity.
  - rewrite Hlon. simpl. unfold mbind at 1, M_bind. rewrite Hlat. simpl.
    destruct (len vlat) as [|n]; [lia|]. destruct (len vlon) as [|m]; [lia|].
    unfold mbind at 1, M_bind. unfold range. cbn [seq mbind list_bind app for_each].
    rewrite Hvar. reflexivity.
Qed.

Lemma flattener_missing_variable_witness :
  NetCDFToSHETRAN sample_grid "Snowf" "lon" "lat" "clipped/" "a_Clip.csv" 3.6%float ∅ =
  (Raise KeyError, ∅).
Proof.
  apply (flattener_missing_variable sample_grid "Snowf" "lon" "lat" "clipped/" "a_Clip.csv"
           3.6%float ∅).
  right. right. eexists _, _.
  split; [vm_compute; reflexivity|]. split; [vm_compute; reflexivity|].
  split; [vm_compute; lia|]. split; [vm_compute; lia|]. vm_compute. reflexivity.
Defined.

(** ** The resolver: failures and coordinates that are no numbers *)

Section ResolverMore.

Import FloatOrder.

Lemma argmin_scan_nan (ip : list float) (i : nat) (mp : float) (mi : nat) :
  PrimFloat.is_nan mp = true -> Np.argmin_scan ip i mp mi = mi.
Proof. intros H. destruct ip; simpl; [reflexivity|]. by rewrite H. Qed.

(** Nothing is below or equal to a value that is no number. *)
Lemma leb_nan_r (mp x : float) :
  PrimFloat.is_nan x = true -> PrimFloat.leb mp x = false.
Proof.
  intros H. apply is_nan_spec in H. apply leb_false. unfold FloatKey.is_num. tauto.
Qed.

(** The scan stops at the first distance that is no number. *)
Lemma argmin_scan_first_nan (b : float) (pre : list float) (x : float) (rest : list float) :
  forall (i : nat) (mp : float) (mi : nat),
    PrimFloat.is_nan mp = false ->
    Forall (fun y => PrimFloat.is_nan (Np.distance y b) = false) pre ->
    PrimFloat.is_nan (Np.distance x b) = true ->
    Np.argmin_scan (Np.abs_diff (pre ++ x :: rest) b) i mp mi = (i + length pre)%nat.
Proof.
  unfold Np.abs_diff, Np.distance.
  induction pre as [|y pre IH]; intros i mp mi Hmp Hpre Hx; simpl.
  - rewrite Hmp, (leb_nan_r mp _ Hx). simpl. rewrite argmin_scan_nan by exact Hx. lia.
  - inversion Hpre as [|? ? Hy Hpre']; subst. rewrite Hmp.
    destruct (PrimFloat.leb mp _); simpl; rewrite IH by assumption; lia.
Qed.

Lemma argmin_first_nan (b : float) (pre : list float) (x : float) (rest : list float) :
  Forall (fun y => PrimFloat.is_nan (Np.distance y b) = false) pre ->
  PrimFloat.is_nan (Np.distance x b) = true ->
  Np.argmin (Np.abs_diff (pre ++ x :: rest) b) = Ok (Z.of_nat (length pre)).
Proof.
  intros Hpre Hx. destruct pre as [|y pre].
  - unfold Np.abs_diff, Np.distance in *. simpl. by rewrite argmin_scan_nan.
  - inversion Hpre as [|? ? Hy Hpre']; subst.
    pose proof (argmin_scan_first_nan b pre x rest 1 (Np.distance y b) 0 Hy Hpre' Hx) as H.
    unfold Np.abs_diff, Np.distance in *. simpl. rewrite H. reflexivity.
Qed.

End ResolverMore.

(** X7: the resolver fails on an empty coordinate array and on nothing else,
    and the failure is a [ValueError]. *)
Theorem resolver_raises_iff_empty (coords : list float) (bound : float) (e : exn) :
  (IdxSouth coords bound = Raise e <-> coords = [] /\ e = ValueError) /\
  (IdxWest coords bound = Raise e <-> coords = [] /\ e = ValueError) /\
  (IdxNorth coords bound = Raise e <-> coords = [] /\ e = ValueError) /\
  (IdxEast coords bound = Raise e <-> coords = [] /\ e = ValueError).
Proof.
  assert (H : Np.argmin (Np.abs_diff coords bound) = Raise e <->
              coords = [] /\ e = ValueError).
  { destruct coords as [|x coords]; simpl; split.
    - intros [= <-]. split; reflexivity.
    - intros [_ ->]. reflexivity.
    - discriminate.
    - intros [? _]. discriminate. }
  assert (H1 : (i ← Np.argmin (Np.abs_diff coords bound); Ok (i + 1)) = Raise e <->
               coords = [] /\ e = ValueError).
  { rewrite <- H. unfold mbind, result_bind, Py.bind.
    destruct (Np.argmin (Np.abs_diff coords bound)); [|reflexivity].
    split; discriminate. }
  unfold IdxSouth, IdxWest, IdxNorth, IdxEast. split; [exact H|]. split; [exact H|]. split; exact H1.
Qed.

(** X8: a coordinate whose distance to the bound is no number (the
    coordinate itself is no number, say) takes the place of the nearest one:
    when the distances before it are numbers the resolver returns its
    position, whatever follows it. *)
Theorem resolver_first_nan (pre : list float) (x : float) (rest : list float)
    (bound : float) :
  Forall (fun y => PrimFloat.is_nan (Np.distance y bound) = false) pre ->
  PrimFloat.is_nan (Np.distance x bound) = true ->
  IdxSouth (pre ++ x :: rest) bound = Ok (Z.of_nat (length pre)) /\
  IdxWest (pre ++ x :: rest) bound = Ok (Z.of_nat (length pre)) /\
  IdxNorth (pre ++ x :: rest) bound = Ok (Z.of_nat (length pre) + 1) /\
  IdxEast (pre ++ x :: rest) bound = Ok (Z.of_nat (length pre) + 1).
Proof.
  intros Hpre Hx. unfold IdxSouth, IdxWest, IdxNorth, IdxEast.
  rewrite (argmin_first_nan bound pre x rest Hpre Hx). repeat split.
Qed.

Lemma resolver_first_nan_witness :
  IdxSouth ([0.25%float] ++ PrimFloat.nan :: [1%float]) 1%float = Ok (Z.of_nat 1) /\
  IdxWest ([0.25%float] ++ PrimFloat.nan :: [1%float]) 1%float = Ok (Z.of_nat 1) /\
  IdxNorth ([0.25%float] ++ PrimFloat.nan :: [1%float]) 1%float = Ok (Z.of_nat 1 + 1) /\
  IdxEast ([0.25%float] ++ PrimFloat.nan :: [1%float]) 1%float = Ok (Z.of_nat 1 + 1).
Proof.
  apply (resolver_first_nan [0.25%float] PrimFloat.nan [1%float] 1%float).
  - apply List.Forall_cons; [reflexivity|apply List.Forall_nil].
  - reflexivity.
Defined.

(** ** The merger: what it never holds, failures, the order of the months *)

Section MergerMore.

#[local] Instance row_le_total_more : Total row_le.
Proof. intros r1 r2. unfold row_le. lia. Qed.

#[local] Instance row_le_trans : Transitive row_le.
Proof. intros r1 r2 r3. unfold row_le. lia. Qed.

Lemma concat_raises (DfList : list (DataFrame Z)) (e : exn) :
  concat DfList = Raise e -> DfList = [].
Proof. destruct DfList; [reflexivity|discriminate]. Qed.

Lemma MdfHourly_concat (DfList : list (DataFrame Z)) (C : DataFrame Z) :
  concat DfList = Ok C ->
  MdfHourly DfList =
  (MdfStart ← of_option IndexError (head (index (sort_index C)));
   MdfEnd ← (i ← of_option IndexError (last (index (sort_index C))); Ok (wrap_int64 (i + 1)));
   assign_index (sort_index C) (slice DateIndex MdfStart MdfEnd)).
Proof. intros HC. unfold MdfHourly. rewrite HC. reflexivity. Qed.

Lemma rows_of_empty_tables {B} (g : DataFrame Z -> Z * list float -> B)
    (DfList : list (DataFrame Z)) :
  Forall (fun df => df_rows df = []) DfList ->
  (df ← DfList; map (g df) (df_rows df)) = [].
Proof.
  induction 1 as [|df frames Hdf _ IH]; [reflexivity|].
  cbn [mbind list_bind]. rewrite Hdf, IH. reflexivity.
Qed.

Lemma max_ncols_perm (l l' : list (DataFrame Z)) :
  l ≡ₚ l' ->
  foldr Nat.max 0%nat (map df_ncols l) = foldr Nat.max 0%nat (map df_ncols l').
Proof.
  induction 1 as [|x l l' _ IH|x y l|l1 l2 l3 _ IH1 _ IH2]; simpl;
    [reflexivity|lia|lia|congruence].
Qed.

(** Labels without repetition name their rows. *)
Lemma row_of_label (l : list (Z * list float)) (r1 r2 : Z * list float) :
  NoDup (map fst l) -> r1 ∈ l -> r2 ∈ l -> r1.1 = r2.1 -> r1 = r2.
Proof.
  intros Hnd H1 H2 Heq.
  apply list_elem_of_lookup_1 in H1 as [i Hi], H2 as [j Hj].
  assert (Hi' : map fst l !! i = Some (r1.1)) by (by rewrite list_lookup_fmap, Hi).
  assert (Hj' : map fst l !! j = Some (r1.1)) by (by rewrite list_lookup_fmap, Hj, Heq).
  pose proof (NoDup_lookup _ _ _ _ Hnd Hi' Hj') as ->. congruence.
Qed.

(** Sorting rows of distinct labels forgets the order they came in. *)
Lemma merge_sort_perm (l l' : list (Z * list float)) :
  l ≡ₚ l' -> NoDup (map fst l) -> merge_sort row_le l = merge_sort row_le l'.
Proof.
  intros Hperm Hnd. apply (Sorted_unique_strong row_le).
  - intros r1 r2 H1 H2 Hle Hge.
    rewrite merge_sort_Permutation in H1, H2. rewrite <- Hperm in H2.
    apply (row_of_label l); [assumption..|]. unfold row_le in *. lia.
  - apply (Sorted_merge_sort row_le).
  - apply (Sorted_merge_sort row_le).
  - rewrite !merge_sort_Permutation. exact Hperm.
Qed.

Lemma clamp_index_le (len i : Z) : 0 <= len -> 0 <= clamp_index len i <= len.
Proof. intros H. unfold clamp_index. destruct (Z.ltb_spec i 0); lia. Qed.

Lemma DateIndex_length : Z.of_nat (length DateIndex) = 973009.
Proof. rewrite DateIndex_seqZ, length_seqZ. lia. Qed.

End MergerMore.

(** X9: neither the table the merger returns nor the table it writes holds a
    value above 1000. *)
Theorem Mdf_never_above_threshold (DfList : list (DataFrame Z)) (DirectoryConcat : string)
    (fs : FS) (Mdf : DataFrame Timestamp) :
  (MdfDaily DfList DirectoryConcat fs).1 = Ok Mdf ->
  (forall (r c : nat) (v : float),
     iloc Mdf r c = Some v -> PrimFloat.ltb 1000%float v = false) /\
  (forall (T : DataFrame label) (r c : nat) (v : float),
     (MdfDaily DfList DirectoryConcat fs).2
       !! (DirectoryConcat +:+ "Rainf_WFDE5_CRU+GPCC_2000-2010_v2.1_ClipConcat.csv")
       = Some (CsvFile T) ->
     iloc T r c = Some v -> PrimFloat.ltb 1000%float v = false).
Proof.
  rewrite MdfDaily_run. destruct (MdfHourly DfList) as [Hourly|e]; [|discriminate].
  cbv zeta. cbn [fst snd]. intros [= <-].
  assert (Hcell : forall (r c : nat) (v : float),
            iloc (replace_columns (resample_D_sum Hourly)) r c = Some v ->
            PrimFloat.ltb 1000%float v = false).
  { intros r c v. rewrite iloc_replace_columns.
    destruct (decide (c < df_ncols (resample_D_sum Hourly))%nat) as [Hc|Hc].
    - destruct (iloc (resample_D_sum Hourly) r c) as [x|]; [|discriminate].
      simpl. intros [= <-]. destruct (PrimFloat.ltb 1000%float x) eqn:E.
      + rewrite (Replacer_above x E). reflexivity.
      + rewrite (Replacer_not_above x E). exact E.
    - rewrite iloc_width; [discriminate|apply resample_D_sum_width|lia]. }
  split; [exact Hcell|].
  intros T r c v. rewrite lookup_insert_eq. intros [= <-].
  unfold iloc, values. cbn [df_rows]. rewrite map_map. cbn [snd]. apply Hcell.
Qed.

Lemma Mdf_never_above_threshold_witness :
  (forall (r c : nat) (v : float),
     iloc (mk_DataFrame 1 [(0, [0.001%float])]) r c = Some v ->
     PrimFloat.ltb 1000%float v = false) /\
  (forall (T : DataFrame label) (r c : nat) (v : float),
     (MdfDaily [mk_DataFrame 1 [(0, [1e20%float])]] "out/" ∅).2
       !! ("out/" +:+ "Rainf_WFDE5_CRU+GPCC_2000-2010_v2.1_ClipConcat.csv")
       = Some (CsvFile T) ->
     iloc T r c = Some v -> PrimFloat.ltb 1000%float v = false).
Proof.
  apply (Mdf_never_above_threshold [mk_DataFrame 1 [(0, [1e20%float])]] "out/" ∅).
  vm_compute. reflexivity.
Defined.

(** X10: with nothing to merge the merger fails before it writes: without a
    monthly table the concatenation raises [ValueError], and with monthly
    tables that have no row the first time value is missing and the lookup
    raises [IndexError]. *)
Theorem Mdf_nothing_to_merge (DfList : list (DataFrame Z)) (DirectoryConcat : string)
    (fs : FS) :
  Forall (fun df => df_rows df = []) DfList ->
  MdfDaily DfList DirectoryConcat fs =
  (Raise (match DfList with [] => ValueError | _ :: _ => IndexError end), fs).
Proof.
  intros Hempty. rewrite MdfDaily_run.
  destruct (concat DfList) as [C|e] eqn:HC.
  - rewrite (MdfHourly_concat _ _ HC).
    apply concat_ok in HC as [Hne ->].
    assert (Hidx : index (sort_index
              (mk_DataFrame (foldr Nat.max 0%nat (map df_ncols DfList))
                 (df ← DfList;
                  map (fun row : Z * list float =>
                         (row.1, pad (foldr Nat.max 0%nat (map df_ncols DfList)) (row.2)))
                      (df_rows df)))) = []).
    { unfold sort_index, index. cbn [df_rows].
      rewrite (rows_of_empty_tables (fun _ row => (row.1, pad _ (row.2)))) by exact Hempty.
      reflexivity. }
    rewrite Hidx. destruct DfList; [congruence|reflexivity].
  - apply concat_raises in HC as ->. reflexivity.
Qed.

Lemma Mdf_nothing_to_merge_witness :
  MdfDaily [mk_DataFrame 3 []; mk_DataFrame 3 []] "out/" ∅ = (Raise IndexError, ∅).
Proof.
  apply (Mdf_nothing_to_merge [mk_DataFrame 3 []; mk_DataFrame 3 []] "out/" ∅).
  apply List.Forall_cons; [reflexivity|].
  apply List.Forall_cons; [reflexivity|apply List.Forall_nil].
Defined.

(** X11: when no raw time value occurs twice, the order in which the
    monthly tables are listed does not matter: the merger returns the same
    table, writes the same file, or fails in the same way. *)
Theorem Mdf_order_independent (DfList DfList' : list (DataFrame Z))
    (DirectoryConcat : string) (fs : FS) :
  DfList ≡ₚ DfList' ->
  NoDup (df ← DfList; index df) ->
  MdfDaily DfList DirectoryConcat fs = MdfDaily DfList' DirectoryConcat fs.
Proof.
  intros Hperm Hnd. rewrite !MdfDaily_run.
  assert (HH : MdfHourly DfList = MdfHourly DfList'); [|by rewrite HH].
  destruct (concat DfList) as [C|e] eqn:HC.
  2:{ apply concat_raises in HC as ->. apply Permutation_nil_l in Hperm as <-. reflexivity. }
  destruct (concat DfList') as [C'|e] eqn:HC'.
  2:{ apply concat_raises in HC' as ->. apply Permutation_nil_r in Hperm as ->. discriminate. }
  rewrite (MdfHourly_concat _ _ HC), (MdfHourly_concat _ _ HC').
  assert (Hsort : sort_index C = sort_index C'); [|by rewrite Hsort].
  pose proof (concat_index _ _ HC) as Hidx.
  apply concat_ok in HC as [_ ->], HC' as [_ ->].
  unfold sort_index. cbn [df_ncols df_rows].
  rewrite <- (max_ncols_perm _ _ Hperm). f_equal.
  apply merge_sort_perm.
  - by apply bind_Permutation.
  - unfold index in Hidx at 1. cbn [df_rows] in Hidx. rewrite Hidx. exact Hnd.
Qed.

Lemma Mdf_order_independent_witness :
  MdfDaily [mk_DataFrame 1 [(0, [1%float]); (1, [2%float])]; mk_DataFrame 1 [(2, [3%float])]]
           "out/" ∅ =
  MdfDaily [mk_DataFrame 1 [(2, [3%float])]; mk_DataFrame 1 [(0, [1%float]); (1, [2%float])]]
           "out/" ∅.
Proof.
  apply (Mdf_order_independent
           [mk_DataFrame 1 [(0, [1%float]); (1, [2%float])]; mk_DataFrame 1 [(2, [3%float])]]
           [mk_DataFrame 1 [(2, [3%float])]; mk_DataFrame 1 [(0, [1%float]); (1, [2%float])]]
           "out/" ∅).
  - apply perm_swap.
  - apply (bool_decide_unpack _). vm_compute. exact I.
Defined.

(** X12: raw time values that reach past the last hour of the calendar
    (2011-01-01 00:00, hour 973008) cannot be stamped: the slice of the
    calendar stops at its end, and a table with at least one column and at
    least one row for every hour from its first to its last time value has
    more rows than the slice has labels, so the index assignment raises
    [ValueError] and nothing is written. *)
Theorem Mdf_beyond_calendar (DfList : list (DataFrame Z)) (DirectoryConcat : string)
    (fs : FS) (C : DataFrame Z) (first last_ : Z) :
  concat DfList = Ok C ->
  df_ncols C <> 0%nat ->
  head (index (sort_index C)) = Some first ->
  last (index (sort_index C)) = Some last_ ->
  0 <= first -> 973008 < last_ ->
  last_ - first < Z.of_nat (nrows C) ->
  MdfDaily DfList DirectoryConcat fs = (Raise ValueError, fs).
Proof.
  intros HC Hcols Hfirst Hlast H0 Hend Hrows.
  rewrite MdfDaily_run, (MdfHourly_run _ _ _ _ HC Hfirst Hlast).
  rewrite assign_index_mismatch; [reflexivity|exact Hcols|].
  destruct (sort_index_sorted C) as [Hsorted Hperm].
  pose proof (sorted_head_le_last _ _ _ Hsorted Hfirst Hlast) as Hle.
  unfold nrows. rewrite Hperm. fold (nrows C).
  rewrite slice_length, DateIndex_length.
  pose proof (clamp_index_le 973009 (wrap_int64 (last_ + 1)) ltac:(lia)) as Hhi.
  assert (Hlo : clamp_index 973009 first = Z.min first 973009).
  { unfold clamp_index. destruct (Z.ltb_spec first 0); lia. }
  rewrite Hlo. lia.
Qed.

Lemma Mdf_beyond_calendar_witness :
  MdfDaily [mk_DataFrame 1 [(973008, [1%float]); (973009, [2%float])]] "out/" ∅ =
  (Raise ValueError, ∅).
Proof.
  apply (Mdf_beyond_calendar
           [mk_DataFrame 1 [(973008, [1%float]); (973009, [2%float])]] "out/" ∅
           (mk_DataFrame 1 [(973008, [1%float]); (973009, [2%float])]) 973008 973009).
  - vm_compute. reflexivity.
  - discriminate.
  - vm_compute. reflexivity.
  - vm_compute. reflexivity.
  - lia.
  - lia.
  - vm_compute. reflexivity.
Defined.

(** ** The ASC parser: tokens outside the table *)

Section ASCMore.

Lemma iloc_set_outside (t : list (list cell)) (R C i j : nat) (v : cell) :
  shape2 t R C -> (R <= i \/ C <= j)%nat -> iloc_set t i j v = Raise IndexError.
Proof.
  intros [Hlen Hrows] Hout. unfold iloc_set.
  destruct (t !! i) as [row|] eqn:Hrow; [|reflexivity].
  assert (Hi : (i < R)%nat) by (rewrite <- Hlen; by eapply lookup_lt_Some).
  assert (Hrl : length row = C).
  { rewrite Forall_forall in Hrows. apply Hrows. eapply list_elem_of_lookup_2, Hrow. }
  destruct (decide (j < length row)%nat); [lia|reflexivity].
Qed.

(** The loop over the tokens of a line that has none, or that is a row of
    the table with no more tokens than columns. *)
Lemma line_loop_fits (t : list (list cell)) (R C Line : nat) (ColList : list string)
    (n : nat) :
  shape2 t R C -> (n = 0 \/ (Line < R /\ n <= C))%nat ->
  exists t',
    for_fold (fun DfParam Col =>
                iloc_set DfParam Line Col (CStr (default EmptyString (ColList !! Col))))
             (range n) t = Ok t' /\
    shape2 t' R C.
Proof.
  intros Hshape [->|[HL Hn]].
  - exists t. split; [reflexivity|exact Hshape].
  - destruct (line_loop t R C Line ColList n Hshape HL Hn) as (t' & Hrun & Hs & _). eauto.
Qed.

(** The loop over the tokens of any other line. *)
Lemma line_loop_overflow (t : list (list cell)) (R C Line : nat) (ColList : list string)
    (n : nat) :
  shape2 t R C -> (0 < n)%nat -> (R <= Line \/ C < n)%nat ->
  for_fold (fun DfParam Col =>
              iloc_set DfParam Line Col (CStr (default EmptyString (ColList !! Col))))
           (range n) t = Raise IndexError.
Proof.
  intros Hshape. induction n as [|n IH]; intros Hpos Hout; [lia|].
  unfold range in *. rewrite seq_S, for_fold_app. simpl.
  destruct (decide (0 < n /\ (R <= Line \/ C < n))%nat) as [[Hn Ho]|Hfit].
  - rewrite IH by assumption. reflexivity.
  - destruct (line_loop_fits t R C Line ColList n Hshape) as (t1 & Hrun & Hs1); [lia|].
    unfold range in Hrun. rewrite Hrun. unfold mbind, result_bind, Py.bind.
    rewrite (iloc_set_outside t1 R C) by (assumption || lia). reflexivity.
Qed.

(** The loop over the lines: either every line so far fits and the table
    has kept its shape, or one does not and the loop has raised. *)
Lemma lines_loop_cases (t : list (list cell)) (R C : nat) (Lines : list string) (m : nat) :
  shape2 t R C ->
  ((forall r, (r < m)%nat ->
      (length (Text.split (default EmptyString (Lines !! r))) = 0 \/
       (r < R /\ length (Text.split (default EmptyString (Lines !! r))) <= C))%nat) /\
   exists t',
     for_fold (fun DfParam Line =>
                 let ColList := Text.split (default EmptyString (Lines !! Line)) in
                 for_fold (fun DfParam Col =>
                             let ParamStr := default EmptyString (ColList !! Col) in
                             iloc_set DfParam Line Col (CStr ParamStr))
                          (range (length ColList)) DfParam)
              (range m) t = Ok t' /\
     shape2 t' R C) \/
  ((exists r, (r < m)%nat /\
      (0 < length (Text.split (default EmptyString (Lines !! r))) /\
       (R <= r \/ C < length (Text.split (default EmptyString (Lines !! r)))))%nat) /\
   for_fold (fun DfParam Line =>
               let ColList := Text.split (default EmptyString (Lines !! Line)) in
               for_fold (fun DfParam Col =>
                           let ParamStr := default EmptyString (ColList !! Col) in
                           iloc_set DfParam Line Col (CStr ParamStr))
                        (range (length ColList)) DfParam)
            (range m) t = Raise IndexError).
Proof.
  intros Hshape. induction m as [|m IH].
  - left. split; [intros r Hr; lia|]. exists t. split; [reflexivity|exact Hshape].
  - unfold range in *. rewrite seq_S, for_fold_app.
    destruct IH as [[Hfit (t1 & Hrun & Hs1)]|[(r & Hr & Hbad) Hrun]].
    + rewrite Hrun. simpl. unfold mbind, result_bind, Py.bind.
      set (ColList := Text.split (default EmptyString (Lines !! m))).
      destruct (decide (length ColList = 0 \/ (m < R /\ length ColList <= C))%nat)
        as [Hm|Hm].
      * left. split.
        -- intros r Hr. destruct (decide (r = m)) as [->|Hne]; [exact Hm|].
           apply Hfit. lia.
        -- destruct (line_loop_fits t1 R C m ColList (length ColList) Hs1 Hm)
             as (t2 & Hline & Hs2).
           exists t2. unfold range in Hline. rewrite Hline. split; [reflexivity|exact Hs2].
      * right. split; [exists m; fold ColList; lia|].
        pose proof (line_loop_overflow t1 R C m ColList (length ColList) Hs1) as Hline.
        unfold range in Hline. rewrite Hline by lia. reflexivity.
    + right. split; [exists r; split; [lia|exact Hbad]|].
      rewrite Hrun. reflexivity.
Qed.

Lemma for_each_raises {A B} (f : A -> result B) (xs : list A) (e : exn) :
  for_each f xs = Raise e -> exists x, x ∈ xs /\ f x = Raise e.
Proof.
  induction xs as [|x xs IH]; simpl; [discriminate|].
  destruct (f x) as [y|e'] eqn:Hx; simpl.
  - destruct (for_each f xs) as [ys|e'] eqn:Hxs; simpl; [discriminate|].
    intros [= ->]. destruct IH as (x' & Hin & Hx'); [reflexivity|].
    exists x'. split; [by right|exact Hx'].
  - intros [= ->]. exists x. split; [by left|exact Hx].
Qed.

(** The conversion to floats raises [ValueError] and nothing else. *)
Lemma conversion_raises (t : list (list cell)) (e : exn) :
  for_each (for_each to_float64) t = Raise e -> e = ValueError.
Proof.
  intros H. apply for_each_raises in H as (row & _ & H).
  apply for_each_raises in H as (v & _ & H).
  destruct v as [f|s]; simpl in H; [discriminate|].
  destruct (PyFloat.parse s); simpl in H; [discriminate|]. by injection H.
Qed.

End ASCMore.

(** X13: the parser raises [IndexError] exactly when the file holds a token
    outside the table: on a data line past the last row, or past the last
    column of its line.  A line without tokens is harmless wherever it is. *)
Theorem ASCtoDfParam_IndexError (files : gmap string string) (Path File : string)
    (Nrows Ncols : nat) :
  files !! Path = Some File ->
  (ASCtoDfParam files Path Nrows Ncols = Raise IndexError <->
   exists (r c : nat) (tok : string),
     token_at (data_lines File) r c = Some tok /\ (Nrows <= r \/ Ncols <= c)%nat).
Proof.
  intros Hfile.
  unfold ASCtoDfParam. unfold mbind, result_bind, Py.bind. rewrite Hfile. simpl of_option.
  cbv beta iota zeta. fold (data_lines File).
  destruct (lines_loop_cases (zeros Nrows Ncols) Nrows Ncols (data_lines File)
              (length (data_lines File)) (zeros_shape Nrows Ncols))
    as [[Hfit (t' & Hrun & Hs)]|[(r & Hr & Hpos & Hout) Hrun]];
    cbv zeta in Hrun; rewrite Hrun.
  - split.
    + destruct (for_each (for_each to_float64) t') as [vals|e] eqn:Hconv; [discriminate|].
      apply conversion_raises in Hconv as ->. discriminate.
    + intros (r & c & tok & Htok & Hout). exfalso. unfold token_at in Htok.
      destruct (data_lines File !! r) as [l|] eqn:Hl; simpl in Htok; [|discriminate].
      apply lookup_lt_Some in Hl as Hr. apply lookup_lt_Some in Htok as Hc.
      specialize (Hfit r Hr). rewrite Hl in Hfit. simpl in Hfit. lia.
  - split; [intros _|reflexivity].
    destruct (lookup_lt_is_Some_2 (data_lines File) r Hr) as [l Hl].
    rewrite Hl in Hpos, Hout. simpl in Hpos, Hout.
    destruct (decide (Nrows <= r)%nat) as [HR|HR].
    + destruct (lookup_lt_is_Some_2 (Text.split l) 0 Hpos) as [tok Htok].
      exists r, 0%nat, tok. split; [|by left].
      unfold token_at. rewrite Hl. exact Htok.
    + destruct (lookup_lt_is_Some_2 (Text.split l) Ncols) as [tok Htok]; [lia|].
      exists r, Ncols, tok. split; [|right; lia].
      unfold token_at. rewrite Hl. exact Htok.
Qed.

Lemma ASCtoDfParam_IndexError_witness :
  ASCtoDfParam {["grid.asc" := asc_text]} "grid.asc" 1 2 = Raise IndexError <->
  exists (r c : nat) (tok : string),
    token_at (data_lines asc_text) r c = Some tok /\ (1 <= r \/ 2 <= c)%nat.
Proof.
  apply (ASCtoDfParam_IndexError {["grid.asc" := asc_text]} "grid.asc" asc_text 1 2).
  vm_compute. reflexivity.
Defined.

(** That file read into a table of one row: the second data line has no
    row to go to. *)
Example ASCtoDfParam_too_few_rows :
  ASCtoDfParam {["grid.asc" := asc_text]} "grid.asc" 1 2 = Raise IndexError.
Proof. vm_compute. reflexivity. Qed.

(** ** The file names *)

Section FileNames.

Lemma append_nil_l (s : string) : EmptyString +:+ s = s.
Proof. reflexivity. Qed.

Lemma append_cons (c : ascii) (s t : string) : String c s +:+ t = String c (s +:+ t).
Proof. reflexivity. Qed.

Lemma append_nil_r (s : string) : s +:+ EmptyString = s.
Proof.
  induction s as [|c s IH]; [reflexivity|]. by rewrite append_cons, IH.
Qed.

Lemma snoc_append (cur : string) (c : ascii) (s : string) :
  Text.snoc cur c +:+ s = cur +:+ String c s.
Proof.
  unfold Text.snoc. induction cur as [|x cur IH]; [reflexivity|].
  by rewrite !append_cons, IH.
Qed.

Lemma prefix_nil_r (sep : string) : sep <> EmptyString -> String.prefix sep EmptyString = false.
Proof. destruct sep; [congruence|reflexivity]. Qed.

(** Passing the rest of an occurrence. *)
Lemma split_from_skip (sep : string) (k : nat) :
  forall (cur s : string),
    Str.split_from sep k cur s = Str.split_from sep 0 cur (Str.drop k s).
Proof.
  induction k as [|k IH]; intros cur s.
  - destruct s; reflexivity.
  - destruct s as [|c s]; [reflexivity|]. simpl. apply IH.
Qed.

(** [split] cuts at the first occurrence and goes on behind it. *)
Lemma split_from_find (sep : string) (s : string) :
  sep <> EmptyString ->
  forall cur : string,
    Str.split_from sep 0 cur s =
    match Str.find sep s with
    | Some n =>
        (cur +:+ Str.take n s) ::
        Str.split_from sep 0 EmptyString (Str.drop (n + String.length sep) s)
    | None => [cur +:+ s]
    end.
Proof.
  intros Hsep. induction s as [|c s IH]; intros cur.
  - cbn [Str.split_from Str.find]. rewrite (prefix_nil_r sep Hsep). by rewrite append_nil_r.
  - cbn [Str.split_from Str.find].
    destruct (String.prefix sep (String c s)) eqn:Hp.
    + rewrite split_from_skip. cbn [Str.take]. rewrite append_nil_r.
      destruct sep as [|a sep]; [congruence|]. cbn [String.length Nat.add Nat.sub Str.drop].
      by rewrite Nat.sub_0_r.
    + rewrite IH. destruct (Str.find sep s) as [n|]; cbn [fmap option_fmap option_map].
      * cbn [Str.take Str.drop Nat.add]. by rewrite snoc_append.
      * by rewrite snoc_append.
Qed.

Lemma split_head (sep s : string) :
  sep <> EmptyString ->
  Str.split_from sep 0 EmptyString s !! 0%nat = Some (before sep s).
Proof.
  intros Hsep. rewrite (split_from_find sep s Hsep). unfold before.
  destruct (Str.find sep s); reflexivity.
Qed.

Lemma backslash_not_empty : backslash <> EmptyString.
Proof. discriminate. Qed.

(** The first occurrence of a single character behind a piece without it. *)
Lemma find_char_app (c : ascii) (a b : string) :
  Str.find (String c EmptyString) a = None ->
  Str.find (String c EmptyString) (a +:+ String c b) = Some (String.length a).
Proof.
  induction a as [|x a IH]; intros Ha.
  - rewrite append_nil_l. cbn [Str.find String.prefix].
    destruct (ascii_dec c c); [by destruct b|congruence].
  - rewrite append_cons. cbn [Str.find String.prefix String.length] in *.
    destruct (ascii_dec c x) as [Heq|Hne].
    + destruct a; discriminate.
    + destruct (Str.find (String c EmptyString) a) as [k|] eqn:Hf; [discriminate|].
      rewrite IH by reflexivity. reflexivity.
Qed.

Lemma drop_app (a b : string) : Str.drop (String.length a) (a +:+ b) = b.
Proof.
  induction a as [|x a IH]; [by destruct b|]. rewrite append_cons. exact IH.
Qed.

Lemma take_app (a b : string) : Str.take (String.length a) (a +:+ b) = a.
Proof.
  induction a as [|x a IH]; [by destruct b|].
  rewrite append_cons. cbn [String.length Str.take]. by rewrite IH.
Qed.

(** The two splits of [FileName], read as two cuts. *)
Lemma FileName_cuts (Path ExtIn : string) :
  FileName Path ExtIn =
  match after backslash Path with
  | None => Raise IndexError
  | Some rest =>
      if decide (ExtIn = EmptyString) then Raise ValueError
      else Ok (before ExtIn (before backslash rest))
  end.
Proof.
  unfold FileName, Str.split, after.
  destruct (decide (backslash = EmptyString)) as [H|_]; [discriminate H|].
  unfold mbind, result_bind, Py.bind.
  rewrite (split_from_find backslash Path backslash_not_empty).
  destruct (Str.find backslash Path) as [n|]; [|reflexivity].
  cbn [lookup list_lookup].
  rewrite (split_head backslash _ backslash_not_empty). cbn [of_option].
  destruct (decide (ExtIn = EmptyString)) as [HE|HE]; [reflexivity|].
  rewrite (split_head ExtIn _ HE). reflexivity.
Qed.

End FileNames.

(** X14: the name extracted from a path is what lies between the first
    backslash of the path and the next one (or the end), cut at the first
    occurrence of the extension; a path without a backslash raises
    [IndexError], and an empty extension raises [ValueError]. *)
Theorem FileName_pieces (Path ExtIn : string) :
  FileName Path ExtIn =
  match after backslash Path with
  | None => Raise IndexError
  | Some rest =>
      if decide (ExtIn = EmptyString) then Raise ValueError
      else Ok (before ExtIn (before backslash rest))
  end.
Proof. apply FileName_cuts. Qed.

(** The name of a monthly file, and what a second backslash does: the name
    of the directory is taken for the name of the file. *)
Example FileName_of_month :
  FileName ("C:/WFDE5/dataset" +:+ backslash +:+ "Rainf_WFDE5_CRU+GPCC_200001_v2.1.nc") ".nc" =
    Ok "Rainf_WFDE5_CRU+GPCC_200001_v2.1" /\
  FileName ("C:" +:+ backslash +:+ "dataset" +:+ backslash +:+ "Rainf_200001_v2.1.nc") ".nc" =
    Ok "dataset".
Proof. split; vm_compute; reflexivity. Qed.

(** X15: a path made of a directory without a backslash, a backslash, a
    name and the extension gives back the name, provided the name and the
    extension hold no backslash and the extension occurs in the file name at
    its end only. *)
Theorem FileName_round_trip (Dir Name ExtIn : string) :
  ExtIn <> EmptyString ->
  Str.find backslash Dir = None ->
  Str.find backslash (Name +:+ ExtIn) = None ->
  Str.find ExtIn (Name +:+ ExtIn) = Some (String.length Name) ->
  FileName (Dir +:+ backslash +:+ Name +:+ ExtIn) ExtIn = Ok Name /\
  FileNameList [Dir +:+ backslash +:+ Name +:+ ExtIn] ExtIn = Ok [Name].
Proof.
  intros HE HDir HName HExt.
  assert (HF : FileName (Dir +:+ backslash +:+ Name +:+ ExtIn) ExtIn = Ok Name).
  { rewrite FileName_cuts. unfold after, backslash.
    rewrite append_cons, append_nil_l.
    rewrite (find_char_app _ Dir _ HDir).
    replace (String.length Dir + String.length (String (ascii_of_nat 92) EmptyString))%nat
      with (S (String.length Dir)) by (simpl; lia).
    change (Str.drop (S (String.length Dir))
              (Dir +:+ String (ascii_of_nat 92) (Name +:+ ExtIn)))
      with (Str.drop (S (String.length Dir))
              (Dir +:+ (String (ascii_of_nat 92) (Name +:+ ExtIn)))).
    assert (Hdrop : Str.drop (S (String.length Dir))
                      (Dir +:+ String (ascii_of_nat 92) (Name +:+ ExtIn)) = Name +:+ ExtIn).
    { clear. induction Dir as [|x Dir IH]; [by destruct (Name +:+ ExtIn)|].
      rewrite append_cons. exact IH. }
    rewrite Hdrop.
    destruct (decide (ExtIn = EmptyString)) as [?|_]; [contradiction|].
    unfold before. fold backslash. rewrite HName, HExt, take_app. reflexivity. }
  split; [exact HF|]. unfold FileNameList. simpl. rewrite HF. reflexivity.
Qed.

Lemma FileName_round_trip_witness :
  FileName ("C:/WFDE5/dataset" +:+ backslash +:+ "Rainf_WFDE5_CRU+GPCC_200001_v2.1" +:+ ".nc")
           ".nc" = Ok "Rainf_WFDE5_CRU+GPCC_200001_v2.1" /\
  FileNameList
    ["C:/WFDE5/dataset" +:+ backslash +:+ "Rainf_WFDE5_CRU+GPCC_200001_v2.1" +:+ ".nc"]
    ".nc" = Ok ["Rainf_WFDE5_CRU+GPCC_200001_v2.1"].
Proof.
  apply (FileName_round_trip "C:/WFDE5/dataset" "Rainf_WFDE5_CRU+GPCC_200001_v2.1" ".nc").
  - discriminate.
  - vm_compute. reflexivity.
  - vm_compute. reflexivity.
  - vm_compute. reflexivity.
Defined.

(** ** The window of the script and the clipper *)

Section WindowMore.

(** A window from the start to the end of a sequence, or past it, takes
    all of it. *)
Lemma slice_all {A} (l : list A) (hi : Z) :
  Z.of_nat (length l) <= hi -> slice l 0 hi = l.
Proof.
  intros Hhi. unfold slice, clamp_index.
  destruct (Z.ltb_spec 0 0); [lia|]. destruct (Z.ltb_spec hi 0); [lia|].
  rewrite (Z.min_l 0), (Z.min_r hi) by lia. simpl drop.
  rewrite Z.sub_0_r, Nat2Z.id. apply firstn_all.
Qed.

(** An index the resolver returns is a position of the array. *)
Lemma argmin_position (a : list float) (i : Z) :
  Np.argmin a = Ok i -> 0 <= i < Z.of_nat (length a).
Proof.
  intros H. destruct (argmin_elim a) as (k & m & Hk & Hm & _).
  { intros ->. discriminate. }
  rewrite Hk in H. injection H as <-.
  apply lookup_lt_Some in Hm. lia.
Qed.

Lemma abs_diff_length (a : list float) (b : float) : length (Np.abs_diff a b) = length a.
Proof. unfold Np.abs_diff. by rewrite !length_map. Qed.

Lemma Replacer_twice (x : float) : Replacer (Replacer x) = Replacer x.
Proof.
  destruct (PrimFloat.ltb 1000%float x) eqn:E.
  - rewrite (Replacer_above x E). reflexivity.
  - rewrite (Replacer_not_above x E). apply Replacer_not_above, E.
Qed.

Lemma repair_row_twice (n : nat) (row : list float) :
  repair_row n (repair_row n row) = repair_row n row.
Proof.
  apply list_eq. intros c. rewrite !repair_row_lookup.
  destruct (decide (c < n)%nat); [|reflexivity].
  destruct (row !! c); simpl; [|reflexivity]. by rewrite Replacer_twice.
Qed.

End WindowMore.

(** X16: on a grid with at least one cell and one time step and without
    masked values, a window that starts at the first latitude and longitude
    and ends at or past the last ones copies the grid: the dataset written
    holds the four arrays of the source unchanged. *)
Theorem clipper_whole_grid (Path FileClipped : string) (FileRaw : Dataset) (fs : FS)
    (IdxEast IdxNorth : Z)
    (time : list Z) (lon lat : list float) (rainf : list (list (list float))) :
  is_grid FileRaw "Rainf" "lon" "lat" time lon lat rainf ->
  Z.of_nat (length lon) <= IdxEast -> Z.of_nat (length lat) <= IdxNorth ->
  time <> [] -> lon <> [] -> lat <> [] ->
  (forall z : Z, z ∈ time -> var_masked FileRaw "time" (Int z) = false) ->
  (forall x : float, x ∈ lon -> var_masked FileRaw "lon" (Float x) = false) ->
  (forall x : float, x ∈ lat -> var_masked FileRaw "lat" (Float x) = false) ->
  (forall (t i j : nat) (x : float),
     at3 rainf t i j = Some x -> var_masked FileRaw "Rainf" (Float x) = false) ->
  exists Out : Dataset,
    WFDE5NetCDFClipper Path FileRaw 0 IdxEast IdxNorth 0 FileClipped fs =
    (Ok tt, <[FileClipped := NcFile Out]> fs) /\
    is_grid Out "Rainf" "lon" "lat" time lon lat rainf.
Proof.
  intros Hgrid He Hn Htime Hlon Hlat Mtime Mlon Mlat Mrainf.
  eexists. split; [by apply clipper_run|].
  pose proof (grid_shape _ _ _ _ _ _ _ _ Hgrid) as Hshape.
  assert (Hsame : window rainf 0 IdxEast IdxNorth 0 = rainf).
  { destruct Hshape as [_ Hshape]. unfold window. rewrite <- (map_id rainf) at 2.
    apply Forall_fmap_ext_1. eapply Forall_impl; [exact Hshape|].
    intros plane [Hlen Hrows]. simpl.
    rewrite slice_all by lia. rewrite <- (map_id plane) at 2.
    apply Forall_fmap_ext_1. eapply Forall_impl; [exact Hrows|].
    intros row Hrow. simpl in *. apply slice_all. lia. }
  assert (Hstored : map (map (map (stored_float (var_masked FileRaw "Rainf")))) rainf = rainf).
  { rewrite <- (map_id rainf) at 2. apply Forall_fmap_ext_1, Forall_lookup.
    intros t plane Hplane. simpl.
    rewrite <- (map_id plane) at 2. apply Forall_fmap_ext_1, Forall_lookup.
    intros i row Hrow. simpl.
    rewrite <- (map_id row) at 2. apply Forall_fmap_ext_1, Forall_lookup.
    intros j x Hx. simpl. unfold stored_float.
    rewrite (Mrainf t i j x); [reflexivity|].
    unfold at3. rewrite Hplane. simpl. rewrite Hrow. exact Hx. }
  assert (Hne : List.concat (List.concat rainf) <> []).
  { eapply has_shape_element; [exact Hshape|..].
    - destruct time; [done|simpl; lia].
    - destruct lat; [done|simpl; lia].
    - destruct lon; [done|simpl; lia]. }
  unfold clipped. rewrite Hsame, Hstored, (slice_all lon), (slice_all lat) by assumption.
  destruct (List.concat (List.concat rainf)); [done|].
  split; try exact Hshape; try apply (grid_int64 _ _ _ _ _ _ _ _ Hgrid).
  - unfold var_data. cbn [variables]. rewrite ?lookup_insert_ne by done.
    rewrite lookup_insert_eq. simpl.
    do 2 f_equal. rewrite <- (map_id time) at 2. apply Forall_fmap_ext_1, Forall_forall.
    intros z Hz. unfold stored_int. by rewrite (Mtime z Hz).
  - unfold var_data. cbn [variables]. rewrite ?lookup_insert_ne by done.
    rewrite lookup_insert_eq. simpl.
    do 2 f_equal. rewrite <- (map_id lon) at 2. apply Forall_fmap_ext_1, Forall_forall.
    intros x Hx. unfold stored_float. by rewrite (Mlon x Hx).
  - unfold var_data. cbn [variables]. rewrite ?lookup_insert_ne by done.
    rewrite lookup_insert_eq. simpl.
    do 2 f_equal. rewrite <- (map_id lat) at 2. apply Forall_fmap_ext_1, Forall_forall.
    intros x Hx. unfold stored_float. by rewrite (Mlat x Hx).
  - reflexivity.
Qed.

Lemma clipper_whole_grid_witness :
  exists Out : Dataset,
    WFDE5NetCDFClipper "clipped/" sample_grid 0 720 360 0 "clipped/grid_Clip.nc" ∅ =
    (Ok tt, <["clipped/grid_Clip.nc" := NcFile Out]> ∅) /\
    is_grid Out "Rainf" "lon" "lat" sample_time sample_lon sample_lat sample_rainf.
Proof.
  apply (clipper_whole_grid "clipped/" "clipped/grid_Clip.nc" sample_grid ∅ 720 360
           sample_time sample_lon sample_lat sample_rainf sample_grid_is_grid).
  - vm_compute. discriminate.
  - vm_compute. discriminate.
  - discriminate.
  - discriminate.
  - discriminate.
  - intros z Hz. unfold sample_time in Hz.
    repeat (apply elem_of_cons in Hz as [->|Hz]; [vm_compute; reflexivity|]).
    by apply elem_of_nil in Hz.
  - intros x Hx. unfold sample_lon in Hx.
    repeat (apply elem_of_cons in Hx as [->|Hx]; [vm_compute; reflexivity|]).
    by apply elem_of_nil in Hx.
  - intros x Hx. unfold sample_lat in Hx.
    repeat (apply elem_of_cons in Hx as [->|Hx]; [vm_compute; reflexivity|]).
    by apply elem_of_nil in Hx.
  - intros t i j x Hx. unfold sample_rainf in Hx.
    destruct t as [|[|t]]; [| |discriminate Hx];
      (destruct i as [|[|i]]; [| |discriminate Hx]);
      (destruct j as [|[|[|j]]]; [| | |discriminate Hx]);
      injection Hx as <-; vm_compute; reflexivity.
Defined.

(** X17: the repair of the columns is idempotent on tables: a second pass
    over a repaired table changes nothing. *)
Theorem replace_columns_idempotent (Mdf : DataFrame Timestamp) :
  replace_columns (replace_columns Mdf) = replace_columns Mdf.
Proof.
  rewrite (replace_columns_rows (replace_columns Mdf)).
  rewrite (replace_columns_rows Mdf). cbn [df_ncols df_rows]. f_equal.
  rewrite map_map. apply map_ext. intros [t row]. cbn [fst snd].
  by rewrite repair_row_twice.
Qed.

(** X18: the window the script resolves lies inside the grid: the lower
    indices are positions of the axes and the upper indices are at most their
    lengths, so no bound of the clipper's slices is clamped and the clipped
    axes have [IdxNorth - IdxSouth] latitudes and [IdxEast - IdxWest]
    longitudes (none when the difference is negative). *)
Theorem resolved_window_inside (Lats Lons : list float) (North South West East : float)
    (n s w e : Z) :
  IdxNorth Lats North = Ok n -> IdxSouth Lats South = Ok s ->
  IdxWest Lons West = Ok w -> IdxEast Lons East = Ok e ->
  0 <= s < Z.of_nat (length Lats) /\ 0 < n <= Z.of_nat (length Lats) /\
  0 <= w < Z.of_nat (length Lons) /\ 0 < e <= Z.of_nat (length Lons) /\
  length (slice Lats s n) = Z.to_nat (n - s) /\
  length (slice Lons w e) = Z.to_nat (e - w).
Proof.
  unfold IdxNorth, IdxSouth, IdxWest, IdxEast, mbind, result_bind, Py.bind.
  intros Hn Hs Hw He.
  destruct (Np.argmin (Np.abs_diff Lats North)) as [i|] eqn:Hi; [|discriminate].
  destruct (Np.argmin (Np.abs_diff Lons East)) as [j|] eqn:Hj; [|discriminate].
  injection Hn as <-. injection He as <-.
  apply argmin_position in Hi, Hj, Hs, Hw. rewrite abs_diff_length in Hi, Hj, Hs, Hw.
  rewrite !slice_length. unfold clamp_index.
  destruct (Z.ltb_spec s 0), (Z.ltb_spec (i + 1) 0), (Z.ltb_spec w 0),
    (Z.ltb_spec (j + 1) 0); lia.
Qed.

Lemma resolved_window_inside_witness :
  0 <= 0 < Z.of_nat (length sample_lat) /\ 0 < 2 <= Z.of_nat (length sample_lat) /\
  0 <= 0 < Z.of_nat (length sample_lon) /\ 0 < 3 <= Z.of_nat (length sample_lon) /\
  length (slice sample_lat 0 2) = Z.to_nat (2 - 0) /\
  length (slice sample_lon 0 3) = Z.to_nat (3 - 0).
Proof.
  apply (resolved_window_inside sample_lat sample_lon 1.8%float 1%float (-63)%float
           (-62.3)%float 2 0 0 3); vm_compute; reflexivity.
Defined.

(** ** The ASC parser: tokens that are no numbers *)

Section ASCValues.

(** The loop over the tokens of a line that fits, with the cells it
    leaves. *)
Lemma line_loop_cells (t : list (list cell)) (R C Line : nat) (ColList : list string)
    (n : nat) :
  shape2 t R C -> (n = 0 \/ (Line < R /\ n <= C))%nat ->
  exists t',
    for_fold (fun DfParam Col =>
                iloc_set DfParam Line Col (CStr (default EmptyString (ColList !! Col))))
             (range n) t = Ok t' /\
    shape2 t' R C /\
    forall r c, get2 t' r c =
                if decide (r = Line /\ (c < n)%nat)
                then Some (CStr (default EmptyString (ColList !! c)))
                else get2 t r c.
Proof.
  intros Hshape [->|[HL Hn]].
  - exists t. split; [reflexivity|]. split; [exact Hshape|].
    intros r c. destruct (decide (r = Line /\ (c < 0)%nat)) as [[_ ?]|_]; [lia|reflexivity].
  - by apply line_loop.
Qed.

(** The loop over the lines when every line fits, with the cells it
    leaves. *)
Lemma lines_loop_cells (t : list (list cell)) (R C : nat) (Lines : list string) (m : nat) :
  shape2 t R C ->
  (forall r, (r < m)%nat ->
     (length (Text.split (default EmptyString (Lines !! r))) = 0 \/
      (r < R /\ length (Text.split (default EmptyString (Lines !! r))) <= C))%nat) ->
  exists t',
    for_fold (fun DfParam Line =>
                let ColList := Text.split (default EmptyString (Lines !! Line)) in
                for_fold (fun DfParam Col =>
                            let ParamStr := default EmptyString (ColList !! Col) in
                            iloc_set DfParam Line Col (CStr ParamStr))
                         (range (length ColList)) DfParam)
             (range m) t = Ok t' /\
    shape2 t' R C /\
    forall r c, get2 t' r c =
                if decide ((r < m)%nat /\
                           (c < length (Text.split (default EmptyString (Lines !! r))))%nat)
                then Some (CStr (default EmptyString
                                   (Text.split (default EmptyString (Lines !! r)) !! c)))
                else get2 t r c.
Proof.
  intros Hshape. induction m as [|m IH]; intros Hfit.
  - exists t. split; [reflexivity|]. split; [exact Hshape|].
    intros r c. destruct (decide _) as [[? _]|_]; [lia|reflexivity].
  - destruct IH as (t1 & Hrun & Hshape1 & Hget1); [intros r Hr; apply Hfit; lia|].
    set (ColList := Text.split (default EmptyString (Lines !! m))).
    destruct (line_loop_cells t1 R C m ColList (length ColList) Hshape1)
      as (t2 & Hline & Hshape2 & Hget2); [apply Hfit; lia|].
    exists t2. unfold range in *. rewrite seq_S, for_fold_app, Hrun. simpl.
    unfold mbind, result_bind, Py.bind. fold ColList. rewrite Hline.
    split; [reflexivity|]. split; [exact Hshape2|].
    intros r c. rewrite Hget2, Hget1.
    destruct (decide (r = m /\ (c < length ColList)%nat)) as [[-> Hc]|Hne].
    + fold ColList. destruct (decide _) as [_|Hn]; [reflexivity|]. exfalso. apply Hn. lia.
    + destruct (decide ((r < m)%nat /\ _)) as [[? ?]|Hn1],
        (decide ((r < S m)%nat /\ _)) as [[? ?]|Hn2]; try reflexivity.
      * exfalso. apply Hn2. split; [lia|assumption].
      * exfalso. destruct (decide (r = m)) as [->|]; [apply Hne; split; [reflexivity|assumption]|].
        apply Hn1. split; [lia|assumption].
Qed.

Lemma for_each_all_ok {A B} (f : A -> result B) (xs : list A) (ys : list B) :
  for_each f xs = Ok ys -> forall x, x ∈ xs -> exists y, f x = Ok y.
Proof.
  revert ys. induction xs as [|x xs IH]; intros ys H x' Hin; [by apply elem_of_nil in Hin|].
  simpl in H. destruct (f x) as [y|e] eqn:Hx; simpl in H; [|discriminate].
  destruct (for_each f xs) as [ys'|e] eqn:Hxs; simpl in H; [|discriminate].
  apply elem_of_cons in Hin as [->|Hin]; [eauto|]. by eapply IH.
Qed.

Lemma zeros_cell (R C r c : nat) (v : cell) :
  get2 (zeros R C) r c = Some v -> v = CFloat 0%float.
Proof.
  unfold get2, zeros. intros H.
  destruct (replicate R (replicate C (CFloat 0%float)) !! r) as [row|] eqn:Hrow;
    [|discriminate].
  apply lookup_replicate in Hrow as [-> _]. simpl in H.
  apply lookup_replicate in H as [-> _]. reflexivity.
Qed.

End ASCValues.

(** X19: the parser raises [ValueError] exactly when every token of the
    file lies inside the table and one of them is no float literal. *)
Theorem ASCtoDfParam_ValueError (files : gmap string string) (Path File : string)
    (Nrows Ncols : nat) :
  files !! Path = Some File ->
  (ASCtoDfParam files Path Nrows Ncols = Raise ValueError <->
   (forall (r c : nat) (tok : string),
      token_at (data_lines File) r c = Some tok -> (r < Nrows /\ c < Ncols)%nat) /\
   exists (r c : nat) (tok : string),
     token_at (data_lines File) r c = Some tok /\ PyFloat.parse tok = None).
Proof.
  intros Hfile.
  unfold ASCtoDfParam. unfold mbind, result_bind, Py.bind. rewrite Hfile. simpl of_option.
  cbv beta iota zeta. fold (data_lines File).
  destruct (lines_loop_cases (zeros Nrows Ncols) Nrows Ncols (data_lines File)
              (length (data_lines File)) (zeros_shape Nrows Ncols))
    as [[Hfit _]|[(r & Hr & Hpos & Hout) Hrun]].
  - destruct (lines_loop_cells (zeros Nrows Ncols) Nrows Ncols (data_lines File)
                (length (data_lines File)) (zeros_shape Nrows Ncols) Hfit)
      as (t' & Hrun & Hs & Hget).
    cbv zeta in Hrun. rewrite Hrun.
    assert (Hinside : forall (r c : nat) (tok : string),
              token_at (data_lines File) r c = Some tok -> (r < Nrows /\ c < Ncols)%nat).
    { intros r c tok Htok. unfold token_at in Htok.
      destruct (data_lines File !! r) as [l|] eqn:Hl; simpl in Htok; [|discriminate].
      apply lookup_lt_Some in Hl as Hr. apply lookup_lt_Some in Htok as Hc.
      specialize (Hfit r Hr). rewrite Hl in Hfit. simpl in Hfit. lia. }
    assert (Hcell : forall (r c : nat) (v : cell), get2 t' r c = Some v ->
              v = CFloat 0%float \/
              exists tok, v = CStr tok /\ token_at (data_lines File) r c = Some tok).
    { intros r c v Hv. rewrite Hget in Hv.
      destruct (decide _) as [[Hr Hc]|_]; [|left; by eapply zeros_cell].
      right. destruct (lookup_lt_is_Some_2 (data_lines File) r Hr) as [l Hl].
      rewrite Hl in Hv, Hc. simpl in Hv, Hc.
      destruct (lookup_lt_is_Some_2 (Text.split l) c Hc) as [tok Htok].
      rewrite Htok in Hv. simpl in Hv. injection Hv as <-.
      exists tok. split; [reflexivity|]. unfold token_at. rewrite Hl. exact Htok. }
    split.
    + intros Hraise. split; [exact Hinside|].
      destruct (for_each (for_each to_float64) t') as [vals|e] eqn:Hconv; [discriminate|].
      apply for_each_raises in Hconv as (row & Hrow & Hconv).
      apply for_each_raises in Hconv as (v & Hv & Hconv).
      apply list_elem_of_lookup_1 in Hrow as [r Hrow], Hv as [c Hv].
      destruct (Hcell r c v) as [->|(tok & -> & Htok)].
      { unfold get2. rewrite Hrow. exact Hv. }
      { discriminate. }
      exists r, c, tok. split; [exact Htok|].
      simpl in Hconv. destruct (PyFloat.parse tok); [discriminate|reflexivity].
    + intros [_ (r & c & tok & Htok & Hparse)].
      destruct (for_each (for_each to_float64) t') as [vals|e] eqn:Hconv.
      * exfalso.
        assert (Hv : get2 t' r c = Some (CStr tok)).
        { rewrite Hget. unfold token_at in Htok.
          destruct (data_lines File !! r) as [l|] eqn:Hl; simpl in Htok; [|discriminate].
          apply lookup_lt_Some in Hl as Hr. apply lookup_lt_Some in Htok as Hc.
          simpl. destruct (decide _) as [_|Hn]; [by rewrite Htok|].
          exfalso. apply Hn. split; assumption. }
        unfold get2 in Hv. destruct (t' !! r) as [row|] eqn:Hrow; [|discriminate].
        simpl in Hv.
        destruct (for_each_all_ok _ _ _ Hconv row (list_elem_of_lookup_2 _ _ _ Hrow))
          as [ys Hys].
        destruct (for_each_all_ok _ _ _ Hys _ (list_elem_of_lookup_2 _ _ _ Hv)) as [y Hy].
        simpl in Hy. rewrite Hparse in Hy. discriminate.
      * by rewrite (conversion_raises _ _ Hconv).
  - cbv zeta in Hrun. rewrite Hrun. split; [discriminate|].
    intros [Hinside _]. exfalso.
    destruct (lookup_lt_is_Some_2 (data_lines File) r Hr) as [l Hl].
    rewrite Hl in Hpos, Hout. simpl in Hpos, Hout.
    destruct (decide (Nrows <= r)%nat) as [HR|HR].
    + destruct (lookup_lt_is_Some_2 (Text.split l) 0 Hpos) as [tok Htok].
      destruct (Hinside r 0%nat tok); [|lia]. unfold token_at. rewrite Hl. exact Htok.
    + destruct (lookup_lt_is_Some_2 (Text.split l) Ncols) as [tok Htok]; [lia|].
      destruct (Hinside r Ncols tok); [|lia]. unfold token_at. rewrite Hl. exact Htok.
Qed.

Lemma ASCtoDfParam_ValueError_witness :
  ASCtoDfParam {["grid.asc" := asc_bad_token]} "grid.asc" 1 1 = Raise ValueError <->
  (forall (r c : nat) (tok : string),
     token_at (data_lines asc_bad_token) r c = Some tok -> (r < 1 /\ c < 1)%nat) /\
  exists (r c : nat) (tok : string),
    token_at (data_lines asc_bad_token) r c = Some tok /\ PyFloat.parse tok = None.
Proof.
  apply (ASCtoDfParam_ValueError {["grid.asc" := asc_bad_token]} "grid.asc" asc_bad_token 1 1).
  vm_compute. reflexivity.
Defined.
